(** * The Docker containerizer of the Mesos slave

    A shallow embedding of [src/slave/containerizer/docker.cpp]: the
    name codec ([parse]), the container registry ([containers_]) and the
    operations of [DockerContainerizerProcess] on it (launch pipeline,
    update, usage, wait, destroy, recover).

    Every member function of the process is a function on [Process];
    the continuations that libprocess runs later ([_launch], [__destroy],
    ...) are functions of their own, invoked with the value the awaited
    future delivered. What the process does to the outside world (Docker
    CLI calls, promise fulfilments, cgroup writes, ...) is appended to
    the [trace] of the process; a failed [CHECK] aborts it. *)

From Stdlib Require Import ZArith NArith QArith Lia Ascii String List Bool.
From stdpp Require Import base option gmap strings list fin_maps.

Local Open Scope string_scope.
Local Open Scope list_scope.

(** ** stout string helpers used by the containerizer

    Modelled from the spec: the helpers of stout's [strings.hpp], which
    is not among the sources, as the containerizer uses them: a prefix
    test, the removal of a prefix, a substring test, and the splitting
    on [.] that keeps empty segments. *)

Module strings.

(** [strings::startsWith(s, prefix)]. *)
Fixpoint startsWith (s p : string) {struct p} : bool :=
  match p, s with
  | EmptyString, _ => true
  | String _ _, EmptyString => false
  | String a p', String b s' => if Ascii.eqb a b then startsWith s' p' else false
  end.

(** Drops the first [n] characters. *)
Fixpoint drop_chars (n : nat) (s : string) : string :=
  match n, s with
  | O, _ => s
  | S _, EmptyString => EmptyString
  | S n', String _ s' => drop_chars n' s'
  end.

(** [strings::remove(s, prefix, strings::PREFIX)]: removes [p] from the
    front of [s] when [s] starts with it. *)
Definition remove_prefix (s p : string) : string :=
  if startsWith s p then drop_chars (String.length p) s else s.

(** [strings::contains(s, substr)]: [s.find(substr) != npos]. *)
Fixpoint contains (s sub : string) : bool :=
  startsWith s sub ||
  match s with
  | EmptyString => false
  | String _ s' => contains s' sub
  end.

(** Membership of a character in a delimiter set. *)
Fixpoint is_delim (c : ascii) (delims : string) : bool :=
  match delims with
  | EmptyString => false
  | String d ds => Ascii.eqb c d || is_delim c ds
  end.

(** [strings::split(s, delims)]: cuts [s] at every character of
    [delims]; empty tokens are kept, so the result is never empty. *)
Fixpoint split (s delims : string) : list string :=
  match s with
  | EmptyString => [EmptyString]
  | String c s' =>
      if is_delim c delims then EmptyString :: split s' delims
      else match split s' delims with
           | t :: ts => String c t :: ts
           | [] => [String c EmptyString]
           end
  end.

End strings.

(** ** Identifiers and Docker containers *)

(** [ContainerID], [SlaveID]: protobuf messages with one string [value]. *)
Abbreviation ContainerID := string (only parsing).
Abbreviation SlaveID := string (only parsing).
Abbreviation pid_t := Z (only parsing).

Module Docker.
(** [Docker::Container]: what [docker ps] and [docker inspect] report. *)
Record Container := mkContainer {
  id : string;
  name : string;
  pid : option pid_t
}.
End Docker.

Definition DOCKER_NAME_PREFIX : string := "mesos-".
Definition DOCKER_NAME_SEPERATOR : string := ".".
Definition DOCKER_SYMLINK_DIRECTORY : string := "docker/links".

(** [vector::operator[]] at an index the caller has checked. *)
Definition at_index (parts : list string) (i : nat) : string :=
  nth i parts EmptyString.

(** [parse(container)]: the ContainerID of a Docker container, [None]
    when the container was not launched from Mesos. *)
Definition parse_name (container_name : string) : option ContainerID :=
  let name : option string :=
    if strings.startsWith container_name DOCKER_NAME_PREFIX then
      Some (strings.remove_prefix container_name DOCKER_NAME_PREFIX)
    else if strings.startsWith container_name ("/" ++ DOCKER_NAME_PREFIX) then
      Some (strings.remove_prefix container_name ("/" ++ DOCKER_NAME_PREFIX))
    else None in
  match name with
  | Some name =>
      if negb (strings.contains name DOCKER_NAME_SEPERATOR) then Some name
      else
        let parts := strings.split name DOCKER_NAME_SEPERATOR in
        if (length parts =? 2)%nat || (length parts =? 3)%nat
        then Some (at_index parts 1)
        else None
  | None => None
  end.

Definition parse (container : Docker.Container) : option ContainerID :=
  parse_name (Docker.name container).

(** Modelled from the spec: the name [Container::name()] of
    [slave/containerizer/docker.hpp], which is not among the sources,
    gives to the Docker container of a record: the naming convention
    [mesos-<slaveId>.<containerId>], that is [DOCKER_NAME_PREFIX +
    slaveId + DOCKER_NAME_SEPERATOR + containerId]. *)
Definition makeName (slaveId : SlaveID) (containerId : ContainerID) : string :=
  DOCKER_NAME_PREFIX ++ slaveId ++ DOCKER_NAME_SEPERATOR ++ containerId.

(** The ContainerID of a split name in the words of the specification:
    the last segment that is not [executor]. *)
Fixpoint last_non_executor (parts : list string) : option string :=
  match parts with
  | [] => None
  | p :: ps =>
      match last_non_executor ps with
      | Some x => Some x
      | None => if String.eqb p "executor" then None else Some p
      end
  end.

(** ** stout and libprocess result types *)

(** [Try<T>]. *)
Inductive Try (A : Type) : Type :=
  | Ok (a : A)
  | Error (msg : string).
Arguments Ok {A} a.
Arguments Error {A} msg.

(** [Result<T>]: some, none or error. *)
Inductive Result (A : Type) : Type :=
  | RSome (a : A)
  | RNone
  | RError (msg : string).
Arguments RSome {A} a.
Arguments RNone {A}.
Arguments RError {A} msg.

(** Modelled from the spec: the futures of libprocess, which is not
    among the sources. The state of a [process::Future<T>]; a
    [Promise<T>] is the writing end of one and is single-assignment. *)
Inductive Future (A : Type) : Type :=
  | Pending
  | Ready (a : A)
  | Failed (msg : string)
  | Discarded.
Arguments Pending {A}.
Arguments Ready {A} a.
Arguments Failed {A} msg.
Arguments Discarded {A}.

Definition isPending {A} (f : Future A) : bool :=
  match f with Pending => true | _ => false end.
Definition isReady {A} (f : Future A) : bool :=
  match f with Ready _ => true | _ => false end.
Definition isFailed {A} (f : Future A) : bool :=
  match f with Failed _ => true | _ => false end.

(** [Future::discard()]: only a pending future can still be discarded. *)
Definition discard {A} (f : Future A) : Future A :=
  match f with Pending => Discarded | _ => f end.

(** ** Messages *)

Abbreviation Bytes := N (only parsing).
Abbreviation double := Q (only parsing).

(** [Resources], through the two accessors the containerizer uses. A
    [double] is modelled by the rational it denotes. *)
Record Resources := mkResources {
  cpus : option double;
  mem : option Bytes
}.

Definition option_eqb {A} (eqb : A -> A -> bool) (x y : option A) : bool :=
  match x, y with
  | Some a, Some b => eqb a b
  | None, None => true
  | _, _ => false
  end.

(** [Resources::operator==]. *)
Definition Resources_eqb (a b : Resources) : bool :=
  option_eqb Qeq_bool (cpus a) (cpus b) && option_eqb N.eqb (mem a) (mem b).

Inductive ContainerType := DOCKER | MESOS.

Record ContainerInfo := mkContainerInfo {
  type : ContainerType;
  docker_image : string;
  force_pull_image : bool
}.

Record TaskInfo := mkTaskInfo {
  task_id : string;
  task_container : option ContainerInfo;
  task_resources : Resources
}.

Record ExecutorInfo := mkExecutorInfo {
  executor_id : string;
  framework_id : string;
  executor_container : option ContainerInfo;
  executor_resources : Resources
}.

(** The default-constructed [ExecutorInfo]. *)
Definition ExecutorInfo_default : ExecutorInfo :=
  mkExecutorInfo "" "" None (mkResources None None).

(** [containerizer::Termination]. *)
Record Termination := mkTermination {
  killed : bool;
  status : option Z;
  message : string
}.

(** [ResourceStatistics]: what the usage helper measures, and the two
    limits the containerizer overlays. *)
Record ResourceStatistics := mkResourceStatistics {
  timestamp : Q;
  cpus_user_time_secs : option double;
  cpus_system_time_secs : option double;
  mem_rss_bytes : option Bytes;
  mem_limit_bytes : option Bytes;
  cpus_limit : option double
}.

(** The default-constructed [ResourceStatistics()]. *)
Definition ResourceStatistics_empty : ResourceStatistics :=
  mkResourceStatistics 0 None None None None None.

Definition set_mem_limit_bytes (v : Bytes) (r : ResourceStatistics) :=
  mkResourceStatistics (timestamp r) (cpus_user_time_secs r)
    (cpus_system_time_secs r) (mem_rss_bytes r) (Some v) (cpus_limit r).

Definition set_cpus_limit (v : double) (r : ResourceStatistics) :=
  mkResourceStatistics (timestamp r) (cpus_user_time_secs r)
    (cpus_system_time_secs r) (mem_rss_bytes r) (mem_limit_bytes r) (Some v).

(** The flags of the slave that the containerizer reads. *)
Record Flags := mkFlags {
  docker : string;
  docker_stop_timeout : N;
  docker_remove_delay : N;
  docker_kill_orphans : bool;
  docker_mesos_image : option string;
  docker_socket : string;
  docker_sandbox_directory : string;
  work_dir : string;
  launcher_dir : string;
  recovery_timeout : N
}.

(** The constants of [slave/containerizer/isolators/cgroups/constants.hpp],
    which is not among the sources: they are carried by the process and
    every statement holds for all their values. *)
Record Constants := mkConstants {
  CPU_SHARES_PER_CPU : N;
  MIN_CPU_SHARES : N;
  MIN_MEMORY : Bytes
}.

(** ** Persisted slave state handed to [recover] *)

Module state.

Record RunState := mkRunState {
  run_id : option ContainerID;
  forkedPid : option pid_t;
  completed : bool
}.

Record ExecutorState := mkExecutorState {
  executor_state_id : string;
  info : option ExecutorInfo;
  latest : option ContainerID;
  runs : gmap ContainerID RunState
}.

(** The hashmaps [frameworks] and [executors] are only iterated, so they
    are the lists of their values in iteration order. *)
Record FrameworkState := mkFrameworkState {
  framework_state_id : string;
  executors : list ExecutorState
}.

Record SlaveState := mkSlaveState {
  slave_id : SlaveID;
  frameworks : list FrameworkState
}.

End state.

(** ** The Container record of the registry *)

Inductive State := FETCHING | PULLING | RUNNING | DESTROYING.

Definition State_eqb (a b : State) : bool :=
  match a, b with
  | FETCHING, FETCHING | PULLING, PULLING
  | RUNNING, RUNNING | DESTROYING, DESTROYING => true
  | _, _ => false
  end.

Module Container.

(** [DockerContainerizerProcess::Container]. [status] is the
    [Promise<Future<Option<int>>>]: [None] while unset, [Some pid] once
    set to the reaper's future for [pid]. [termination] is the state of
    the [Promise<Termination>]. *)
Record t := mk {
  state : State;
  id : ContainerID;
  task : option TaskInfo;
  executor : ExecutorInfo;
  directory : string;
  user : option string;
  slaveId : SlaveID;
  slavePid : string;
  checkpoint : bool;
  symlinked : bool;
  resources : Resources;
  pid : option pid_t;
  executorPid : option pid_t;
  pull : Future unit;
  run : Future unit;
  status : option pid_t;
  termination : Future Termination
}.

Definition set_state (v : State) (c : t) : t :=
  mk v (id c) (task c) (executor c) (directory c) (user c) (slaveId c)
     (slavePid c) (checkpoint c) (symlinked c) (resources c) (pid c)
     (executorPid c) (pull c) (run c) (status c) (termination c).

Definition set_slaveId (v : SlaveID) (c : t) : t :=
  mk (state c) (id c) (task c) (executor c) (directory c) (user c) v
     (slavePid c) (checkpoint c) (symlinked c) (resources c) (pid c)
     (executorPid c) (pull c) (run c) (status c) (termination c).

Definition set_resources (v : Resources) (c : t) : t :=
  mk (state c) (id c) (task c) (executor c) (directory c) (user c) (slaveId c)
     (slavePid c) (checkpoint c) (symlinked c) v (pid c)
     (executorPid c) (pull c) (run c) (status c) (termination c).

Definition set_pid (v : option pid_t) (c : t) : t :=
  mk (state c) (id c) (task c) (executor c) (directory c) (user c) (slaveId c)
     (slavePid c) (checkpoint c) (symlinked c) (resources c) v
     (executorPid c) (pull c) (run c) (status c) (termination c).

Definition set_executorPid (v : option pid_t) (c : t) : t :=
  mk (state c) (id c) (task c) (executor c) (directory c) (user c) (slaveId c)
     (slavePid c) (checkpoint c) (symlinked c) (resources c) (pid c)
     v (pull c) (run c) (status c) (termination c).

Definition set_pull (v : Future unit) (c : t) : t :=
  mk (state c) (id c) (task c) (executor c) (directory c) (user c) (slaveId c)
     (slavePid c) (checkpoint c) (symlinked c) (resources c) (pid c)
     (executorPid c) v (run c) (status c) (termination c).

Definition set_run (v : Future unit) (c : t) : t :=
  mk (state c) (id c) (task c) (executor c) (directory c) (user c) (slaveId c)
     (slavePid c) (checkpoint c) (symlinked c) (resources c) (pid c)
     (executorPid c) (pull c) v (status c) (termination c).

Definition set_status (v : option pid_t) (c : t) : t :=
  mk (state c) (id c) (task c) (executor c) (directory c) (user c) (slaveId c)
     (slavePid c) (checkpoint c) (symlinked c) (resources c) (pid c)
     (executorPid c) (pull c) (run c) v (termination c).

Definition set_termination (v : Future Termination) (c : t) : t :=
  mk (state c) (id c) (task c) (executor c) (directory c) (user c) (slaveId c)
     (slavePid c) (checkpoint c) (symlinked c) (resources c) (pid c)
     (executorPid c) (pull c) (run c) (status c) v.

(** Modelled from the spec: the members of [slave/containerizer/docker.hpp],
    which is not among the sources. A record starts in FETCHING with both
    promises unset and no pid known; its resources are those of the task
    when it wraps one, else those of the executor. *)
Definition create_record (id : ContainerID) (taskInfo : option TaskInfo)
    (executorInfo : ExecutorInfo) (directory : string) (user : option string)
    (slaveId : SlaveID) (slavePid : string) (checkpoint symlinked : bool) : t :=
  mk FETCHING id taskInfo executorInfo directory user slaveId slavePid
     checkpoint symlinked
     (match taskInfo with
      | Some task => task_resources task
      | None => executor_resources executorInfo
      end)
     None None Pending Pending None Pending.

(** Modelled from the spec: [Container(const ContainerID&)], the record
    built by recovery, with every other member default-constructed. *)
Definition recovered_record (id : ContainerID) : t :=
  mk FETCHING id None ExecutorInfo_default "" None "" "" false false
     (mkResources None None) None None Pending Pending None Pending.

(** [Container::name()]. *)
Definition name (c : t) : string := makeName (slaveId c) (id c).

(** Modelled from the spec: [Container::executorName()], the naming
    convention [mesos-<slaveId>.<containerId>.executor]. *)
Definition executorName (c : t) : string :=
  name c ++ DOCKER_NAME_SEPERATOR ++ "executor".

(** Modelled from the spec: the container info the record launches, that
    of the task when it wraps one, else that of the executor. *)
Definition container (c : t) : option ContainerInfo :=
  match task c with
  | Some task => task_container task
  | None => executor_container (executor c)
  end.

(** Modelled from the spec: [Container::image()], the image named by
    that container info. *)
Definition image (c : t) : string :=
  match container c with Some info => docker_image info | None => "" end.

(** Modelled from the spec: [Container::forcePullImage()]. *)
Definition forcePullImage (c : t) : bool :=
  match container c with Some info => force_pull_image info | None => false end.

End Container.

(** ** The host the slave runs on

    The operating-system and library calls the containerizer makes
    synchronously ([os::], [fs::], [subprocess], [cgroups::],
    [state::checkpoint], the usage helper), none of which is among the
    sources: their answers are given by the host, and the three cgroup
    control files the containerizer writes are part of it. A control
    file is keyed by (hierarchy, cgroup); reading or writing one that
    does not exist is an error. *)
Record Host := mkHost {
  os_exists : pid_t -> bool;
  os_touch : string -> Try unit;
  os_chown : string -> string -> Try unit;
  os_path_exists : string -> bool;
  os_mkdir : string -> Try unit;
  fs_symlink : string -> string -> Try unit;
  subprocess : string -> Try pid_t;
  pipe_write : pid_t -> option string;
  state_checkpoint : string -> string -> Try unit;
  cgroups_hierarchy : string -> Result string;
  cgroups_cpu_cgroup : pid_t -> Result string;
  cgroups_memory_cgroup : pid_t -> Result string;
  cpu_shares : gmap (string * string) N;
  memory_soft_limit_in_bytes : gmap (string * string) Bytes;
  memory_limit_in_bytes : gmap (string * string) Bytes;
  usage_probe : pid_t -> Try ResourceStatistics
}.

Definition set_cpu_shares (v : gmap (string * string) N) (h : Host) : Host :=
  mkHost (os_exists h) (os_touch h) (os_chown h) (os_path_exists h)
    (os_mkdir h) (fs_symlink h) (subprocess h) (pipe_write h)
    (state_checkpoint h) (cgroups_hierarchy h) (cgroups_cpu_cgroup h)
    (cgroups_memory_cgroup h) v (memory_soft_limit_in_bytes h)
    (memory_limit_in_bytes h) (usage_probe h).

Definition set_memory_soft_limit_in_bytes (v : gmap (string * string) Bytes)
    (h : Host) : Host :=
  mkHost (os_exists h) (os_touch h) (os_chown h) (os_path_exists h)
    (os_mkdir h) (fs_symlink h) (subprocess h) (pipe_write h)
    (state_checkpoint h) (cgroups_hierarchy h) (cgroups_cpu_cgroup h)
    (cgroups_memory_cgroup h) (cpu_shares h) v
    (memory_limit_in_bytes h) (usage_probe h).

Definition set_memory_limit_in_bytes (v : gmap (string * string) Bytes)
    (h : Host) : Host :=
  mkHost (os_exists h) (os_touch h) (os_chown h) (os_path_exists h)
    (os_mkdir h) (fs_symlink h) (subprocess h) (pipe_write h)
    (state_checkpoint h) (cgroups_hierarchy h) (cgroups_cpu_cgroup h)
    (cgroups_memory_cgroup h) (cpu_shares h) (memory_soft_limit_in_bytes h)
    v (usage_probe h).

(** ** Actions of the process

    What the process does besides computing: calls to the fetcher, the
    Docker client and the host, fulfilments of a termination promise, and
    the insertions and erasures of the registry. Arguments no statement
    reads (environments, volumes) are left out. *)
Inductive Action :=
  | Touch (path : string)
  | Chown (user directory : string)
  | Mkdir (path : string)
  | Symlink (original link : string)
  | RegistryInsert (containerId : ContainerID)
  | RegistryErase (containerId : ContainerID)
  | FetcherFetch (containerId : ContainerID) (directory : string)
  | FetcherKill (containerId : ContainerID)
  | DockerPs (all : bool) (prefix : string)
  | DockerPull (directory image : string) (force : bool)
  | PullDiscard (containerId : ContainerID)
  | DockerRun (name directory : string) (resources : option Resources)
  | DockerInspect (name : string)
  | DockerLogs (name directory : string)
  | DockerStop (name : string) (timeout : N) (remove : bool)
  | DockerRm (name : string) (force : bool)
  | DelayRemove (delay : N) (container executor : string)
  | Subprocess (command : string)
  | ClosePipe (pid : pid_t)
  | Checkpoint (path : string) (pid : pid_t)
  | KillTree (pid : pid_t)
  | Reap (pid : pid_t)
  | CgroupWriteCpuShares (hierarchy cgroup : string) (shares : N)
  | CgroupWriteSoftLimit (hierarchy cgroup : string) (limit : Bytes)
  | CgroupWriteLimit (hierarchy cgroup : string) (limit : Bytes)
  | TerminationSet (containerId : ContainerID) (termination : Termination)
  | TerminationFail (containerId : ContainerID) (message : string).

(** ** The process *)

(** [DockerContainerizerProcess]: its flags, the registry [containers_],
    the host it runs on and the actions it has performed so far. *)
Record Process := mkProcess {
  flags : Flags;
  constants : Constants;
  host : Host;
  containers_ : gmap ContainerID Container.t;
  trace : list Action
}.

Definition set_host (h : Host) (s : Process) : Process :=
  mkProcess (flags s) (constants s) h (containers_ s) (trace s).

Definition set_containers (m : gmap ContainerID Container.t) (s : Process)
    : Process :=
  mkProcess (flags s) (constants s) (host s) m (trace s).

Definition set_trace (t : list Action) (s : Process) : Process :=
  mkProcess (flags s) (constants s) (host s) (containers_ s) t.

(** A member function runs on the process and either returns a value and
    the process it leaves, or aborts on a failed [CHECK]. *)
Definition M (A : Type) : Type := Process -> option (A * Process).

Definition ret {A} (a : A) : M A := fun s => Some (a, s).

Definition bind {A B} (m : M A) (k : A -> M B) : M B :=
  fun s => match m s with
           | Some (a, s') => k a s'
           | None => None
           end.

Notation "x <- c1 ;; c2" := (bind c1 (fun x => c2))
  (at level 100, c1 at next level, right associativity).
Notation "c1 ;; c2" := (bind c1 (fun _ => c2))
  (at level 100, right associativity).

Definition gets {A} (f : Process -> A) : M A := fun s => Some (f s, s).

Definition abort {A} : M A := fun _ => None.

Definition CHECK (b : bool) : M unit := if b then ret tt else abort.

Definition emit (a : Action) : M unit :=
  fun s => Some (tt, set_trace (trace s ++ [a]) s).

(** [containers_.contains(containerId)] and the lookup that follows it. *)
Definition get_container (containerId : ContainerID) : M (option Container.t) :=
  gets (fun s => containers_ s !! containerId).

(** A write through the [Container*] held by the registry. *)
Definition modify_container (containerId : ContainerID)
    (f : Container.t -> Container.t) : M unit :=
  fun s => Some (tt, set_containers (alter f containerId (containers_ s)) s).

(** [containers_[containerId] = container]. *)
Definition insert_container (containerId : ContainerID) (c : Container.t)
    : M unit :=
  emit (RegistryInsert containerId) ;;
  fun s => Some (tt, set_containers (<[containerId := c]> (containers_ s)) s).

(** [containers_.erase(containerId)]. *)
Definition erase (containerId : ContainerID) : M unit :=
  emit (RegistryErase containerId) ;;
  fun s => Some (tt, set_containers (delete containerId (containers_ s)) s).

(** [container->termination.set(termination)]: a promise is fulfilled
    only while it is pending. *)
Definition termination_set (containerId : ContainerID) (t : Termination)
    : M bool :=
  oc <- get_container containerId ;;
  match oc with
  | None => abort
  | Some c =>
      if isPending (Container.termination c) then
        modify_container containerId (Container.set_termination (Ready t)) ;;
        emit (TerminationSet containerId t) ;;
        ret true
      else ret false
  end.

(** [container->termination.fail(message)]. *)
Definition termination_fail (containerId : ContainerID) (msg : string)
    : M bool :=
  oc <- get_container containerId ;;
  match oc with
  | None => abort
  | Some c =>
      if isPending (Container.termination c) then
        modify_container containerId (Container.set_termination (Failed msg)) ;;
        emit (TerminationFail containerId msg) ;;
        ret true
      else ret false
  end.

(** ** Paths *)

Definition path_join (a b : string) : string := a ++ "/" ++ b.

(** Modelled from the spec: [paths::getSlavePath] of [slave/paths.hpp],
    which is not among the sources; the symlink directory of a slave is
    [<work-dir>/<slaveId>/docker/links]. *)
Definition getSlavePath (work_dir : string) (slaveId : SlaveID) : string :=
  path_join work_dir slaveId.

(** Modelled from the spec: [paths::getForkedPidPath] of [slave/paths.hpp],
    which is not among the sources; the persisted layout is
    [<work-dir>/meta/slaves/<slaveId>/frameworks/<fw>/executors/<ex>/runs/<containerId>/pids/forked.pid]. *)
Definition getForkedPidPath (work_dir : string) (slaveId : SlaveID)
    (frameworkId executorId : string) (containerId : ContainerID) : string :=
  work_dir ++ "/meta/slaves/" ++ slaveId ++ "/frameworks/" ++ frameworkId
    ++ "/executors/" ++ executorId ++ "/runs/" ++ containerId
    ++ "/pids/forked.pid".

(** [stringify] of a pid. *)
Definition stringify (pid : pid_t) : string := pretty.pretty pid.

(** ** Creating a container record *)

(** Sequencing of steps that return a [Try]. *)
Definition try_bind {A B} (m : M (Try A)) (k : A -> M (Try B)) : M (Try B) :=
  r <- m ;;
  match r with
  | Ok a => k a
  | Error e => ret (Error e)
  end.

Definition prefix_error {A} (p : string) (r : Try A) : Try A :=
  match r with
  | Ok a => Ok a
  | Error e => Error (p ++ e)
  end.

(** [Container::create]: prepares the sandbox, then builds the record. *)
Definition Container_create (id : ContainerID) (taskInfo : option TaskInfo)
    (executorInfo : ExecutorInfo) (directory : string) (user : option string)
    (slaveId : SlaveID) (slavePid : string) (checkpoint : bool)
    : M (Try Container.t) :=
  h <- gets host ;;
  fl <- gets flags ;;
  try_bind
    (emit (Touch (path_join directory "stdout")) ;;
     ret (prefix_error "Failed to touch 'stdout': "
            (os_touch h (path_join directory "stdout"))))
    (fun _ =>
  try_bind
    (emit (Touch (path_join directory "stderr")) ;;
     ret (prefix_error "Failed to touch 'stderr': "
            (os_touch h (path_join directory "stderr"))))
    (fun _ =>
  try_bind
    (match user with
     | Some u =>
         emit (Chown u directory) ;;
         ret (prefix_error "Failed to chown: " (os_chown h u directory))
     | None => ret (Ok tt)
     end)
    (fun _ =>
  let dockerSymlinkPath :=
    path_join (getSlavePath (work_dir fl) slaveId) DOCKER_SYMLINK_DIRECTORY in
  try_bind
    (if negb (os_path_exists h dockerSymlinkPath) then
       emit (Mkdir dockerSymlinkPath) ;;
       ret (prefix_error
              ("Unable to create symlink folder for docker "
                 ++ dockerSymlinkPath ++ ": ")
              (os_mkdir h dockerSymlinkPath))
     else ret (Ok tt))
    (fun _ =>
  if strings.contains directory ":" then
    let containerWorkdir := path_join dockerSymlinkPath id in
    try_bind
      (emit (Symlink directory containerWorkdir) ;;
       ret (prefix_error
              ("Failed to symlink directory '" ++ directory ++ "' to '"
                 ++ containerWorkdir ++ "': ")
              (fs_symlink h directory containerWorkdir)))
      (fun _ =>
       ret (Ok (Container.create_record id taskInfo executorInfo
                  containerWorkdir user slaveId slavePid checkpoint true)))
  else
    ret (Ok (Container.create_record id taskInfo executorInfo
               directory user slaveId slavePid checkpoint false)))))).

(** ** The launch pipeline *)

(** [fetch]. *)
Definition fetch (containerId : ContainerID) : M (Future unit) :=
  oc <- get_container containerId ;;
  CHECK (bool_decide (is_Some oc)) ;;
  match oc with
  | None => abort
  | Some container =>
      emit (FetcherFetch containerId (Container.directory container)) ;;
      ret Pending
  end.

(** [pull]: starts the pull and stores its future in the record. *)
Definition pull (containerId : ContainerID) (directory image : string)
    (forcePullImage : bool) : M (Future unit) :=
  emit (DockerPull directory image forcePullImage) ;;
  modify_container containerId (Container.set_pull Pending) ;;
  ret Pending.

(** [checkpoint]: records the executor pid and persists it when the
    record asks for checkpointing. *)
Definition checkpoint (containerId : ContainerID) (pid : pid_t)
    : M (Try unit) :=
  oc <- get_container containerId ;;
  CHECK (bool_decide (is_Some oc)) ;;
  match oc with
  | None => abort
  | Some container =>
      modify_container containerId (Container.set_executorPid (Some pid)) ;;
      if Container.checkpoint container then
        fl <- gets flags ;;
        h <- gets host ;;
        let path :=
          getForkedPidPath (work_dir fl) (Container.slaveId container)
            (framework_id (Container.executor container))
            (executor_id (Container.executor container)) containerId in
        emit (Checkpoint path pid) ;;
        ret (state_checkpoint h path (stringify pid))
      else ret (Ok tt)
  end.

(** The part of both [launch] overloads after the request was accepted:
    build the record, register it and start fetching. The chain of
    continuations that follows is pending. *)
Definition launch_accepted (containerId : ContainerID)
    (taskInfo : option TaskInfo) (executorInfo : ExecutorInfo)
    (directory : string) (user : option string) (slaveId : SlaveID)
    (slavePid : string) (checkpoint : bool) : M (Future bool) :=
  container <- Container_create containerId taskInfo executorInfo directory
                 user slaveId slavePid checkpoint ;;
  match container with
  | Error e => ret (Failed ("Failed to create container: " ++ e))
  | Ok c =>
      insert_container containerId c ;;
      fetch containerId ;;
      ret Pending
  end.

(** [launch], the overload for a task. *)
Definition launch_task (containerId : ContainerID) (taskInfo : TaskInfo)
    (executorInfo : ExecutorInfo) (directory : string) (user : option string)
    (slaveId : SlaveID) (slavePid : string) (checkpoint : bool)
    : M (Future bool) :=
  oc <- get_container containerId ;;
  if bool_decide (is_Some oc) then ret (Failed "Container already started")
  else
    match task_container taskInfo with
    | None => ret (Ready false)
    | Some containerInfo =>
        match type containerInfo with
        | DOCKER =>
            launch_accepted containerId (Some taskInfo) executorInfo directory
              user slaveId slavePid checkpoint
        | _ => ret (Ready false)
        end
    end.

(** [launch], the overload for an executor. *)
Definition launch_executor (containerId : ContainerID)
    (executorInfo : ExecutorInfo) (directory : string) (user : option string)
    (slaveId : SlaveID) (slavePid : string) (checkpoint : bool)
    : M (Future bool) :=
  oc <- get_container containerId ;;
  if bool_decide (is_Some oc) then ret (Failed "Container already started")
  else
    match executor_container executorInfo with
    | None => ret (Ready false)
    | Some containerInfo =>
        match type containerInfo with
        | DOCKER =>
            launch_accepted containerId None executorInfo directory
              user slaveId slavePid checkpoint
        | _ => ret (Ready false)
        end
    end.

(** [_launch]: runs when the fetch succeeded. *)
Definition _launch (containerId : ContainerID) : M (Future unit) :=
  oc <- get_container containerId ;;
  match oc with
  | None => ret (Failed "Container was destroyed while launching")
  | Some container =>
      modify_container containerId (Container.set_state PULLING) ;;
      pull containerId (Container.directory container)
        (Container.image container) (Container.forcePullImage container)
  end.

(** [__launch]: runs when the pull succeeded; issues [docker run] and
    stores its future in the record. *)
Definition __launch (containerId : ContainerID) : M (Future unit) :=
  oc <- get_container containerId ;;
  match oc with
  | None => ret (Failed "Container was destroyed while pulling image")
  | Some container =>
      modify_container containerId (Container.set_state RUNNING) ;;
      emit (DockerRun (Container.name container)
              (Container.directory container)
              (Some (Container.resources container))) ;;
      modify_container containerId (Container.set_run Pending) ;;
      ret Pending
  end.

(** [___launch]: forks the mesos-docker-executor, checkpoints its pid
    and lets it continue by writing one byte to its stdin. *)
Definition ___launch (containerId : ContainerID) : M (Future pid_t) :=
  oc <- get_container containerId ;;
  CHECK (bool_decide (is_Some oc)) ;;
  match oc with
  | None => abort
  | Some container =>
      fl <- gets flags ;;
      h <- gets host ;;
      let command : string :=
        path_join (launcher_dir fl)
          ("mesos-docker-executor --docker=" ++ docker fl
             ++ " --container=" ++ Container.name container) in
      emit (Subprocess command) ;;
      match subprocess h command with
      | Error e => ret (Failed ("Failed to fork executor: " ++ e))
      | Ok pid =>
          checkpointed <- checkpoint containerId pid ;;
          match checkpointed with
          | Error e =>
              emit (ClosePipe pid) ;;
              ret (Failed ("Failed to checkpoint executor's pid: " ++ e))
          | Ok _ =>
              match pipe_write h pid with
              | Some error =>
                  emit (ClosePipe pid) ;;
                  let failure : string :=
                    ("Failed to synchronize with child process: " ++ error)%string in
                  modify_container containerId
                    (Container.set_run (Failed failure)) ;;
                  ret (Failed failure)
              | None => ret (Ready pid)
              end
          end
      end
  end.

(** [___launchInContainer]: runs the executor in a Docker container of
    its own. *)
Definition ___launchInContainer (containerId : ContainerID)
    : M (Future unit) :=
  oc <- get_container containerId ;;
  CHECK (bool_decide (is_Some oc)) ;;
  fl <- gets flags ;;
  CHECK (bool_decide (is_Some (docker_mesos_image fl))) ;;
  match oc with
  | None => abort
  | Some container =>
      emit (DockerRun (Container.executorName container)
              (Container.directory container) None) ;;
      ret Pending
  end.

(** [____launch]. *)
Definition ____launch (containerId : ContainerID)
    : M (Future Docker.Container) :=
  oc <- get_container containerId ;;
  CHECK (bool_decide (is_Some oc)) ;;
  match oc with
  | None => abort
  | Some container =>
      emit (DockerInspect (Container.name container)) ;;
      ret Pending
  end.

(** [_____launch]. *)
Definition _____launch (containerId : ContainerID)
    (container : Docker.Container) : M (Future pid_t) :=
  oc <- get_container containerId ;;
  CHECK (bool_decide (is_Some oc)) ;;
  match Docker.pid container with
  | None => ret (Failed "Unable to get executor pid after launch")
  | Some pid =>
      checkpointed <- checkpoint containerId pid ;;
      match checkpointed with
      | Error e => ret (Failed ("Failed to checkpoint executor's pid: " ++ e))
      | Ok _ => ret (Ready pid)
      end
  end.

(** [______launch]. *)
Definition ______launch (containerId : ContainerID) (pid : pid_t)
    : M (Future pid_t) :=
  oc <- get_container containerId ;;
  CHECK (bool_decide (is_Some oc)) ;;
  match oc with
  | None => abort
  | Some container =>
      emit (DockerLogs (Container.name container)
              (Container.directory container)) ;;
      ret (Ready pid)
  end.

(** [launchWaitProcess]: a subprocess that waits on a Docker container. *)
Definition launchWaitProcess (docker name : string) : M (Try pid_t) :=
  let command : string :=
    ("exit `" ++ docker ++ " wait " ++ name ++ "`")%string in
  h <- gets host ;;
  emit (Subprocess command) ;;
  ret (prefix_error "Unable to launch docker wait on executor: "
         (subprocess h command)).

(** [____launchInContainer]. *)
Definition ____launchInContainer (containerId : ContainerID)
    : M (Future pid_t) :=
  oc <- get_container containerId ;;
  CHECK (bool_decide (is_Some oc)) ;;
  match oc with
  | None => abort
  | Some container =>
      fl <- gets flags ;;
      waitPid <- launchWaitProcess (docker fl)
                   (Container.executorName container) ;;
      match waitPid with
      | Error e => ret (Failed e)
      | Ok waitPid =>
          checkpointed <- checkpoint containerId waitPid ;;
          match checkpointed with
          | Error e =>
              ret (Failed ("Failed to checkpoint executor's pid: " ++ e))
          | Ok _ => ret (Ready waitPid)
          end
      end
  end.

(** [container->status.set(process::reap(pid))]. *)
Definition status_set_reap (containerId : ContainerID) (pid : pid_t)
    : M unit :=
  emit (Reap pid) ;;
  modify_container containerId
    (fun c => match Container.status c with
              | None => Container.set_status (Some pid) c
              | Some _ => c
              end).

(** [_______launch]: arms the reaper. *)
Definition _______launch (containerId : ContainerID) (pid : pid_t)
    : M (Future bool) :=
  oc <- get_container containerId ;;
  CHECK (bool_decide (is_Some oc)) ;;
  status_set_reap containerId pid ;;
  ret (Ready true).

(** ** update *)

(** Writing and reading the cgroup control files of the host. *)
Definition cgroups_cpu_shares_write (hierarchy cgroup : string) (shares : N)
    : M (Try unit) :=
  emit (CgroupWriteCpuShares hierarchy cgroup shares) ;;
  h <- gets host ;;
  match cpu_shares h !! (hierarchy, cgroup) with
  | None => ret (Error "No such file or directory")
  | Some _ =>
      (fun s => Some (tt, set_host
         (set_cpu_shares (<[(hierarchy, cgroup) := shares]> (cpu_shares h)) h)
         s)) ;;
      ret (Ok tt)
  end.

Definition cgroups_memory_soft_limit_in_bytes_write (hierarchy cgroup : string)
    (limit : Bytes) : M (Try unit) :=
  emit (CgroupWriteSoftLimit hierarchy cgroup limit) ;;
  h <- gets host ;;
  match memory_soft_limit_in_bytes h !! (hierarchy, cgroup) with
  | None => ret (Error "No such file or directory")
  | Some _ =>
      (fun s => Some (tt, set_host
         (set_memory_soft_limit_in_bytes
            (<[(hierarchy, cgroup) := limit]> (memory_soft_limit_in_bytes h)) h)
         s)) ;;
      ret (Ok tt)
  end.

Definition cgroups_memory_limit_in_bytes_read (hierarchy cgroup : string)
    : M (Try Bytes) :=
  h <- gets host ;;
  match memory_limit_in_bytes h !! (hierarchy, cgroup) with
  | None => ret (Error "No such file or directory")
  | Some v => ret (Ok v)
  end.

Definition cgroups_memory_limit_in_bytes_write (hierarchy cgroup : string)
    (limit : Bytes) : M (Try unit) :=
  emit (CgroupWriteLimit hierarchy cgroup limit) ;;
  h <- gets host ;;
  match memory_limit_in_bytes h !! (hierarchy, cgroup) with
  | None => ret (Error "No such file or directory")
  | Some _ =>
      (fun s => Some (tt, set_host
         (set_memory_limit_in_bytes
            (<[(hierarchy, cgroup) := limit]> (memory_limit_in_bytes h)) h)
         s)) ;;
      ret (Ok tt)
  end.

(** The cast [(uint64_t) (CPU_SHARES_PER_CPU * cpuShares)]: the product
    truncated towards zero. *)
Definition shares_of (per_cpu : N) (cpuShares : double) : N :=
  let p := (inject_Z (Z.of_N per_cpu) * cpuShares)%Q in
  Z.to_N (Z.quot (Qnum p) (Zpos (Qden p))).

(** The block of [__update] that updates the CPU shares (if applicable). *)
Definition __update_cpu (cpuHierarchy cpuCgroup : Result string)
    (_resources : Resources) : M (Try unit) :=
  match cpuHierarchy, cpuCgroup, cpus _resources with
  | RSome hierarchy, RSome cgroup, Some cpuShares =>
      k <- gets constants ;;
      let shares :=
        N.max (shares_of (CPU_SHARES_PER_CPU k) cpuShares) (MIN_CPU_SHARES k) in
      write <- cgroups_cpu_shares_write hierarchy cgroup shares ;;
      ret (prefix_error "Failed to update 'cpu.shares': " write)
  | _, _, _ => ret (Ok tt)
  end.

(** The block of [__update] that updates the memory limits (if
    applicable): the soft limit always, the hard limit only upwards. *)
Definition __update_memory (memoryHierarchy memoryCgroup : Result string)
    (_resources : Resources) : M (Try unit) :=
  match memoryHierarchy, memoryCgroup, mem _resources with
  | RSome hierarchy, RSome cgroup, Some mem =>
      k <- gets constants ;;
      let limit := N.max mem (MIN_MEMORY k) in
      write <- cgroups_memory_soft_limit_in_bytes_write hierarchy cgroup limit ;;
      match write with
      | Error e =>
          ret (Error ("Failed to set 'memory.soft_limit_in_bytes': " ++ e))
      | Ok _ =>
          currentLimit <- cgroups_memory_limit_in_bytes_read hierarchy cgroup ;;
          match currentLimit with
          | Error e =>
              ret (Error ("Failed to read 'memory.limit_in_bytes': " ++ e))
          | Ok currentLimit =>
              if (currentLimit <? limit)%N then
                write <- cgroups_memory_limit_in_bytes_write
                           hierarchy cgroup limit ;;
                ret (prefix_error "Failed to set 'memory.limit_in_bytes': "
                       write)
              else ret (Ok tt)
          end
      end
  | _, _, _ => ret (Ok tt)
  end.

(** [__update] (the Linux build). *)
Definition __update (containerId : ContainerID) (_resources : Resources)
    (pid : pid_t) : M (Future unit) :=
  h <- gets host ;;
  let cpuHierarchy := cgroups_hierarchy h "cpu" in
  let memoryHierarchy := cgroups_hierarchy h "memory" in
  match cpuHierarchy, memoryHierarchy with
  | RError e, _ =>
      ret (Failed ("Failed to determine the cgroup hierarchy "
                     ++ "where the 'cpu' subsystem is mounted: " ++ e))
  | _, RError e =>
      ret (Failed ("Failed to determine the cgroup hierarchy "
                     ++ "where the 'memory' subsystem is mounted: " ++ e))
  | _, _ =>
      let cpuCgroup := cgroups_cpu_cgroup h pid in
      match cpuCgroup with
      | RError e =>
          ret (Failed ("Failed to determine cgroup for the 'cpu' subsystem: "
                         ++ e))
      | _ =>
          cpu <- __update_cpu cpuHierarchy cpuCgroup _resources ;;
          match cpu with
          | Error e => ret (Failed e)
          | Ok _ =>
              let memoryCgroup := cgroups_memory_cgroup h pid in
              match memoryCgroup with
              | RError e =>
                  ret (Failed
                         ("Failed to determine cgroup for the 'memory' subsystem: "
                            ++ e))
              | _ =>
                  memory <- __update_memory memoryHierarchy memoryCgroup
                              _resources ;;
                  match memory with
                  | Error e => ret (Failed e)
                  | Ok _ => ret (Ready tt)
                  end
              end
          end
      end
  end.

(** [update] (the Linux build). *)
Definition update (containerId : ContainerID) (_resources : Resources)
    : M (Future unit) :=
  oc <- get_container containerId ;;
  match oc with
  | None => ret (Ready tt)
  | Some container =>
      if State_eqb (Container.state container) DESTROYING then ret (Ready tt)
      else if Resources_eqb (Container.resources container) _resources
      then ret (Ready tt)
      else
        modify_container containerId (Container.set_resources _resources) ;;
        fl <- gets flags ;;
        if bool_decide (is_Some (docker_mesos_image fl)) then ret (Ready tt)
        else if negb (bool_decide (is_Some (cpus _resources)))
                && negb (bool_decide (is_Some (mem _resources)))
        then ret (Ready tt)
        else
          match Container.pid container with
          | Some pid => __update containerId _resources pid
          | None =>
              emit (DockerInspect (Container.name container)) ;;
              ret Pending
          end
  end.

(** [_update]: runs when [docker inspect] answered. *)
Definition _update (containerId : ContainerID) (_resources : Resources)
    (container : Docker.Container) : M (Future unit) :=
  match Docker.pid container with
  | None => ret (Ready tt)
  | Some pid =>
      oc <- get_container containerId ;;
      match oc with
      | None => ret (Ready tt)
      | Some _ =>
          modify_container containerId (Container.set_pid (Some pid)) ;;
          __update containerId _resources pid
      end
  end.

(** ** usage *)

(** [__usage]: the statistics of the helper, with the limits of the
    stored resources laid over them. *)
Definition __usage (containerId : ContainerID) (pid : pid_t)
    : M (Future ResourceStatistics) :=
  oc <- get_container containerId ;;
  match oc with
  | None => abort
  | Some container =>
      h <- gets host ;;
      match usage_probe h pid with
      | Error e => ret (Failed e)
      | Ok statistics =>
          let result := statistics in
          let resource := Container.resources container in
          let result :=
            match mem resource with
            | Some m => set_mem_limit_bytes m result
            | None => result
            end in
          let result :=
            match cpus resource with
            | Some c => set_cpus_limit c result
            | None => result
            end in
          ret (Ready result)
      end
  end.

(** [usage] (the Linux build). *)
Definition usage (containerId : ContainerID) : M (Future ResourceStatistics) :=
  oc <- get_container containerId ;;
  match oc with
  | None => ret (Failed ("Unknown container: " ++ containerId))
  | Some container =>
      if State_eqb (Container.state container) DESTROYING
      then ret (Failed ("Container is being removed: " ++ containerId))
      else
        fl <- gets flags ;;
        if bool_decide (is_Some (docker_mesos_image fl))
        then ret (Ready ResourceStatistics_empty)
        else
          match Container.pid container with
          | Some pid => __usage containerId pid
          | None =>
              emit (DockerInspect (Container.name container)) ;;
              ret Pending
          end
  end.

(** [_usage]: runs when [docker inspect] answered. *)
Definition _usage (containerId : ContainerID) (_container : Docker.Container)
    : M (Future ResourceStatistics) :=
  oc <- get_container containerId ;;
  match oc with
  | None => ret (Failed ("Container has been destroyed:" ++ containerId))
  | Some container =>
      if State_eqb (Container.state container) DESTROYING
      then ret (Failed ("Container is being removed: " ++ containerId))
      else
        match Docker.pid _container with
        | None => ret (Failed "Container is not running")
        | Some pid =>
            modify_container containerId (Container.set_pid (Some pid)) ;;
            __usage containerId pid
        end
  end.

(** ** wait, containers *)

(** [wait]: the future of the termination promise of the record. *)
Definition wait (containerId : ContainerID) : M (Future Termination) :=
  oc <- get_container containerId ;;
  match oc with
  | None => ret (Failed ("Unknown container: " ++ containerId))
  | Some container => ret (Container.termination container)
  end.

(** [containers]: the keys of the registry. *)
Definition containers : M (gset ContainerID) :=
  gets (fun s => dom (containers_ s)).

(** ** destroy *)

(** [destroy]. *)
Definition destroy (containerId : ContainerID) (killed : bool) : M unit :=
  oc <- get_container containerId ;;
  match oc with
  | None => ret tt
  | Some container =>
      match Container.run container with
      | Failed failure =>
          CHECK (bool_decide (Container.status container = None)) ;;
          termination_set containerId
            (mkTermination killed None
               ("Failed to run container: " ++ failure)) ;;
          erase containerId
      | _ =>
          match Container.state container with
          | DESTROYING => ret tt
          | FETCHING =>
              emit (FetcherKill containerId) ;;
              termination_set containerId
                (mkTermination killed None
                   "Container destroyed while fetching") ;;
              erase containerId
          | PULLING =>
              modify_container containerId
                (fun c => Container.set_pull (discard (Container.pull c)) c) ;;
              emit (PullDiscard containerId) ;;
              termination_set containerId
                (mkTermination killed None
                   "Container destroyed while pulling image") ;;
              erase containerId
          | RUNNING =>
              emit (DockerStop (Container.executorName container) 0 false) ;;
              modify_container containerId (Container.set_state DESTROYING) ;;
              match Container.executorPid container with
              | Some pid => emit (KillTree pid)
              | None => ret tt
              end
          end
      end
  end.

(** [_destroy]: runs when the status promise of the record was set. *)
Definition _destroy (containerId : ContainerID) (killed : bool) : M unit :=
  oc <- get_container containerId ;;
  CHECK (bool_decide (is_Some oc)) ;;
  match oc with
  | None => abort
  | Some container =>
      CHECK (State_eqb (Container.state container) DESTROYING) ;;
      fl <- gets flags ;;
      emit (DockerStop (Container.name container) (docker_stop_timeout fl)
              false)
  end.

(** [__destroy]: runs when [docker stop] settled, with its future. *)
Definition __destroy (containerId : ContainerID) (killed : bool)
    (kill : Future unit) : M unit :=
  oc <- get_container containerId ;;
  CHECK (bool_decide (is_Some oc)) ;;
  match oc with
  | None => abort
  | Some container =>
      if negb (isReady kill) then
        termination_fail containerId
          ("Failed to kill the Docker container: "
             ++ match kill with
                | Failed failure => failure
                | _ => "discarded future"
                end) ;;
        erase containerId ;;
        fl <- gets flags ;;
        emit (DelayRemove (docker_remove_delay fl) (Container.name container)
                (Container.executorName container))
      else
        CHECK (bool_decide (is_Some (Container.status container)))
  end.

(** [___destroy]: runs when the reaper delivered the exit status. *)
Definition ___destroy (containerId : ContainerID) (killed : bool)
    (status : Future (option Z)) : M unit :=
  oc <- get_container containerId ;;
  CHECK (bool_decide (is_Some oc)) ;;
  match oc with
  | None => abort
  | Some container =>
      let termination :=
        mkTermination killed
          (match status with
           | Ready (Some s) => Some s
           | _ => None
           end)
          (if killed then "Container killed" else "Container terminated") in
      termination_set containerId termination ;;
      erase containerId ;;
      fl <- gets flags ;;
      emit (DelayRemove (docker_remove_delay fl) (Container.name container)
              (Container.executorName container))
  end.

(** [reaped]: the executor has exited, so destroy the container. *)
Definition reaped (containerId : ContainerID) : M unit :=
  oc <- get_container containerId ;;
  match oc with
  | None => ret tt
  | Some _ => destroy containerId false
  end.

(** [remove]. *)
Definition remove (container executor : string) : M unit :=
  emit (DockerRm container true) ;;
  emit (DockerRm executor true).

(** ** recover *)

(** [recover]. *)
Definition recover (state : option state.SlaveState) : M (Future unit) :=
  match state with
  | Some state =>
      emit (DockerPs true (DOCKER_NAME_PREFIX ++ state.slave_id state)) ;;
      ret Pending
  | None => ret (Ready tt)
  end.

(** The two maps [_recover] builds from the output of [docker ps], and
    the pids claimed so far. *)
Record Recovery := mkRecovery {
  _containers : gmap ContainerID Docker.Container;
  executors : gmap ContainerID Docker.Container;
  pids : gset Z
}.

(** One turn of the first loop of [_recover]. *)
Definition detect (r : Recovery) (container : Docker.Container) : Recovery :=
  match parse container with
  | None => r
  | Some id =>
      if strings.contains (Docker.name container) ".executor"
      then mkRecovery (_containers r) (<[id := container]> (executors r))
             (pids r)
      else mkRecovery (<[id := container]> (_containers r)) (executors r)
             (pids r)
  end.

(** The first block of [recoverContainer]: [None] when recovery of the
    container is skipped, else the value of [reattachExecutor]. *)
Definition reattach (h : Host) (r : Recovery) (containerId : ContainerID)
    (executorPid : pid_t) : option bool :=
  if negb (os_exists h executorPid)
     && bool_decide (is_Some (_containers r !! containerId))
  then
    if negb (bool_decide
               (is_Some (_containers r !! containerId ≫= Docker.pid)))
    then None
    else if negb (bool_decide (is_Some (executors r !! containerId)))
    then None
    else Some true
  else Some false.

(** [recoverContainer]: the maps and the set are passed by reference, so
    they are returned as the code leaves them. *)
Definition recoverContainer (containerId : ContainerID) (slaveId : SlaveID)
    (executorPid : pid_t) (r : Recovery) : M (Try bool * Recovery) :=
  h <- gets host ;;
  match reattach h r containerId executorPid with
  | None => ret (Ok false, r)
  | Some reattachExecutor =>
      if bool_decide (executorPid ∈ pids r) then
        ret (Error ("Detected duplicate pid " ++ stringify executorPid
                      ++ " for container " ++ containerId), r)
      else
        let r := mkRecovery (delete containerId (_containers r)) (executors r)
                   ({[executorPid]} ∪ pids r) in
        insert_container containerId
          (Container.set_state RUNNING
             (Container.set_slaveId slaveId
                (Container.recovered_record containerId))) ;;
        if reattachExecutor then
          match executors r !! containerId with
          | None => abort
          | Some executor =>
              fl <- gets flags ;;
              waitPid <- launchWaitProcess (docker fl) (Docker.id executor) ;;
              match waitPid with
              | Error e => ret (Error e, r)
              | Ok waitPid =>
                  status_set_reap containerId waitPid ;;
                  ret (Ok true,
                       mkRecovery (_containers r)
                         (delete containerId (executors r)) (pids r))
              end
          end
        else
          status_set_reap containerId executorPid ;;
          ret (Ok true, r)
  end.

(** The body of the loop over the executors of a framework. *)
Definition recover_executor (slaveId : SlaveID)
    (executor : state.ExecutorState) (r : Recovery) : M (Try bool * Recovery) :=
  match state.info executor, state.latest executor with
  | None, _ => ret (Ok false, r)
  | _, None => ret (Ok false, r)
  | Some _, Some containerId =>
      match state.runs executor !! containerId with
      | None => abort
      | Some run =>
          CHECK (bool_decide (state.run_id run = Some containerId)) ;;
          match state.forkedPid run with
          | None => ret (Ok false, r)
          | Some executorPid =>
              if state.completed run then ret (Ok false, r)
              else recoverContainer containerId slaveId executorPid r
          end
      end
  end.

Fixpoint recover_executors (slaveId : SlaveID)
    (l : list state.ExecutorState) (r : Recovery) : M (Try Recovery) :=
  match l with
  | [] => ret (Ok r)
  | executor :: l' =>
      rr <- recover_executor slaveId executor r ;;
      match rr with
      | (Error e, _) => ret (Error e)
      | (Ok _, r') => recover_executors slaveId l' r'
      end
  end.

Fixpoint recover_frameworks (slaveId : SlaveID)
    (l : list state.FrameworkState) (r : Recovery) : M (Try Recovery) :=
  match l with
  | [] => ret (Ok r)
  | framework :: l' =>
      rr <- recover_executors slaveId (state.executors framework) r ;;
      match rr with
      | Error e => ret (Error e)
      | Ok r' => recover_frameworks slaveId l' r'
      end
  end.

(** [docker->stop] on every container left in a map. *)
Fixpoint stop_all (l : list (ContainerID * Docker.Container)) : M unit :=
  match l with
  | [] => ret tt
  | (_, container) :: l' =>
      fl <- gets flags ;;
      emit (DockerStop (Docker.id container) (docker_stop_timeout fl) true) ;;
      stop_all l'
  end.

(** [_recover]: runs when [docker ps] answered. *)
Definition _recover (state : state.SlaveState)
    (containers : list Docker.Container) : M (Future unit) :=
  let r := fold_left detect containers (mkRecovery ∅ ∅ ∅) in
  rr <- recover_frameworks (state.slave_id state) (state.frameworks state) r ;;
  match rr with
  | Error e => ret (Failed e)
  | Ok r =>
      fl <- gets flags ;;
      (if docker_kill_orphans fl then
         stop_all (map_to_list (_containers r)) ;;
         stop_all (map_to_list (executors r))
       else ret tt) ;;
      ret (Ready tt)
  end.

(** ** Executions of the process

    The process is an actor: it runs one member function at a time, in
    the order the calls were dispatched. An [Op] is one such call, either
    a request of the slave or a continuation with the value its future
    delivered; [RunSettled] is the Docker client settling the future
    stored in [run]. *)
Inductive Op :=
  | OLaunchTask (containerId : ContainerID) (taskInfo : TaskInfo)
      (executorInfo : ExecutorInfo) (directory : string) (user : option string)
      (slaveId : SlaveID) (slavePid : string) (checkpoint : bool)
  | OLaunchExecutor (containerId : ContainerID)
      (executorInfo : ExecutorInfo) (directory : string) (user : option string)
      (slaveId : SlaveID) (slavePid : string) (checkpoint : bool)
  | O_launch (containerId : ContainerID)
  | O__launch (containerId : ContainerID)
  | O___launch (containerId : ContainerID)
  | O___launchInContainer (containerId : ContainerID)
  | O____launch (containerId : ContainerID)
  | O_____launch (containerId : ContainerID) (container : Docker.Container)
  | O______launch (containerId : ContainerID) (pid : pid_t)
  | O____launchInContainer (containerId : ContainerID)
  | O_______launch (containerId : ContainerID) (pid : pid_t)
  | OUpdate (containerId : ContainerID) (resources : Resources)
  | O_update (containerId : ContainerID) (resources : Resources)
      (container : Docker.Container)
  | OUsage (containerId : ContainerID)
  | O_usage (containerId : ContainerID) (container : Docker.Container)
  | OWait (containerId : ContainerID)
  | OContainers
  | ODestroy (containerId : ContainerID) (killed : bool)
  | O_destroy (containerId : ContainerID) (killed : bool)
  | O__destroy (containerId : ContainerID) (killed : bool) (kill : Future unit)
  | O___destroy (containerId : ContainerID) (killed : bool)
      (status : Future (option Z))
  | OReaped (containerId : ContainerID)
  | ORemove (container executor : string)
  | ORecover (state : option state.SlaveState)
  | O_recover (state : state.SlaveState) (containers : list Docker.Container)
  | RunSettled (containerId : ContainerID) (outcome : Future unit).

(** The Docker client settles a pending [run] future. *)
Definition run_settled (containerId : ContainerID) (outcome : Future unit)
    : M unit :=
  modify_container containerId
    (fun c => if isPending (Container.run c)
              then Container.set_run outcome c else c).

Definition ignore {A} (m : M A) : M unit := m ;; ret tt.

Definition exec (op : Op) : M unit :=
  match op with
  | OLaunchTask containerId taskInfo executorInfo directory user slaveId
      slavePid checkpoint =>
      ignore (launch_task containerId taskInfo executorInfo directory user
                slaveId slavePid checkpoint)
  | OLaunchExecutor containerId executorInfo directory user slaveId
      slavePid checkpoint =>
      ignore (launch_executor containerId executorInfo directory user
                slaveId slavePid checkpoint)
  | O_launch containerId => ignore (_launch containerId)
  | O__launch containerId => ignore (__launch containerId)
  | O___launch containerId => ignore (___launch containerId)
  | O___launchInContainer containerId =>
      ignore (___launchInContainer containerId)
  | O____launch containerId => ignore (____launch containerId)
  | O_____launch containerId container =>
      ignore (_____launch containerId container)
  | O______launch containerId pid => ignore (______launch containerId pid)
  | O____launchInContainer containerId =>
      ignore (____launchInContainer containerId)
  | O_______launch containerId pid => ignore (_______launch containerId pid)
  | OUpdate containerId resources => ignore (update containerId resources)
  | O_update containerId resources container =>
      ignore (_update containerId resources container)
  | OUsage containerId => ignore (usage containerId)
  | O_usage containerId container => ignore (_usage containerId container)
  | OWait containerId => ignore (wait containerId)
  | OContainers => ignore containers
  | ODestroy containerId killed => destroy containerId killed
  | O_destroy containerId killed => _destroy containerId killed
  | O__destroy containerId killed kill => __destroy containerId killed kill
  | O___destroy containerId killed status =>
      ___destroy containerId killed status
  | OReaped containerId => reaped containerId
  | ORemove container executor => remove container executor
  | ORecover state => ignore (recover state)
  | O_recover state containers => ignore (_recover state containers)
  | RunSettled containerId outcome => run_settled containerId outcome
  end.

(** Running the calls of a list in order. *)
Fixpoint run_ops (ops : list Op) : M unit :=
  match ops with
  | [] => ret tt
  | op :: ops' => exec op ;; run_ops ops'
  end.

(** A process that has just been spawned: nothing registered, nothing
    done. *)
Definition spawned (fl : Flags) (k : Constants) (h : Host) : Process :=
  mkProcess fl k h ∅ [].


(** The actions that fulfil a termination promise or erase a record. *)
Definition is_teardown (a : Action) : bool :=
  match a with
  | TerminationSet _ _ | TerminationFail _ _ | RegistryErase _ => true
  | _ => false
  end.

(** The teardown history of a process. *)
Definition teardowns (t : list Action) : list Action :=
  List.filter is_teardown t.



(** Every registered record has its termination promise still pending. *)
Definition terminations_pending (s : Process) : Prop :=
  forall containerId c,
    containers_ s !! containerId = Some c ->
    Container.termination c = Pending.

(** ** Relations between the process before and after a call *)

(** A computation preserves a relation when every run of it relates the
    process it starts from to the process it leaves. *)
Definition preserves (R : Process -> Process -> Prop) {A} (m : M A) : Prop :=
  forall s a s', m s = Some (a, s') -> R s s'.

(** Nothing was torn down: no promise fulfilled, no record erased, and
    the promises of the registered records are as pending as before. *)
Definition quiet_rel (s s' : Process) : Prop :=
  teardowns (trace s') = teardowns (trace s) /\
  (forall containerId,
     is_Some (containers_ s !! containerId) ->
     is_Some (containers_ s' !! containerId)) /\
  (terminations_pending s -> terminations_pending s').

(** The registry and the teardown history are untouched. *)
Definition silent_rel (s s' : Process) : Prop :=
  containers_ s' = containers_ s /\
  teardowns (trace s') = teardowns (trace s).


Definition keeps_termination (f : Container.t -> Container.t) : Prop :=
  forall c, Container.termination (f c) = Container.termination c.

(** The registry and the flags are untouched. *)
Definition registry_rel (s s' : Process) : Prop :=
  containers_ s' = containers_ s /\ flags s' = flags s.

(** The calls that may run under a relation that tolerates the insertion
    of the records [insertable] only. *)
Definition frame_allowed (insertable : ContainerID -> Prop) (op : Op) : Prop :=
  match op with
  | OLaunchTask id _ _ _ _ _ _ _ | OLaunchExecutor id _ _ _ _ _ _ =>
      insertable id
  | O_recover _ _ => forall id, insertable id
  | _ => True
  end.

(** No [memory.limit_in_bytes] file disappeared or went down. *)
Definition limits_rel (s s' : Process) : Prop :=
  forall key v,
    memory_limit_in_bytes (host s) !! key = Some v ->
    exists v', memory_limit_in_bytes (host s') !! key = Some v' /\ (v <= v')%N.

(** A container that is not registered stays unregistered. *)
Definition absent_rel (containerId : ContainerID) (s s' : Process) : Prop :=
  containers_ s !! containerId = None -> containers_ s' !! containerId = None.

(** The calls that can register a record for [containerId]. *)
Definition registers (containerId : ContainerID) (op : Op) : bool :=
  match op with
  | OLaunchTask id _ _ _ _ _ _ _ | OLaunchExecutor id _ _ _ _ _ _ =>
      String.eqb id containerId
  | O_recover _ _ => true
  | _ => false
  end.

(** Whether [__update] raises the hard limit to [limit]: the soft limit
    was written and the limit read is below [limit]. *)
Definition raises_limit (h : Host) (hierarchy cgroup : string) (limit : Bytes)
    : bool :=
  match memory_soft_limit_in_bytes h !! (hierarchy, cgroup),
        memory_limit_in_bytes h !! (hierarchy, cgroup) with
  | Some _, Some currentLimit => (currentLimit <? limit)%N
  | _, _ => false
  end.

(** ** A concrete slave, for the examples *)

Module Example.

Definition cgroup : string * string := ("/sys/fs/cgroup", "/docker/abc").

Definition host : Host :=
  mkHost (fun _ => false) (fun _ => Ok tt) (fun _ _ => Ok tt) (fun _ => true)
    (fun _ => Ok tt) (fun _ _ => Ok tt) (fun _ => Ok 4711%Z) (fun _ => None)
    (fun _ _ => Ok tt) (fun _ => RSome "/sys/fs/cgroup")
    (fun _ => RSome "/docker/abc") (fun _ => RSome "/docker/abc")
    {[ cgroup := 1024%N ]} {[ cgroup := 67108864%N ]} {[ cgroup := 67108864%N ]}
    (fun _ => Ok ResourceStatistics_empty).

Definition flags : Flags :=
  mkFlags "docker" 0 21600 true None "/var/run/docker.sock"
    "/mnt/mesos/sandbox" "/tmp/mesos" "/usr/libexec/mesos" 900.

(** The same slave running in a Docker container itself. *)
Definition nested_flags : Flags :=
  mkFlags "docker" 0 21600 true (Some "mesos-slave-image")
    "/var/run/docker.sock" "/mnt/mesos/sandbox" "/tmp/mesos"
    "/usr/libexec/mesos" 900.

Definition constants : Constants := mkConstants 1024 10 33554432.

Definition small : Resources := mkResources (Some 1%Q) (Some 16777216%N).
Definition large : Resources := mkResources (Some 2%Q) (Some 134217728%N).

Definition executorInfo : ExecutorInfo :=
  mkExecutorInfo "executor" "framework"
    (Some (mkContainerInfo DOCKER "busybox" false)) small.

Definition mesosExecutorInfo : ExecutorInfo :=
  mkExecutorInfo "executor" "framework"
    (Some (mkContainerInfo MESOS "" false)) small.

Definition plainTaskInfo : TaskInfo := mkTaskInfo "task" None small.

Definition launchA : Op :=
  OLaunchExecutor "A" executorInfo "/sandbox" None "S" "slave(1)@host" false.

Definition inspectedA : Docker.Container :=
  Docker.mkContainer "0123abc" "/mesos-S.A" (Some 99%Z).

(** The process after a list of calls on a freshly spawned one. *)
Definition after (fl : Flags) (ops : list Op) : option Process :=
  match run_ops ops (spawned fl constants host) with
  | Some (_, s) => Some s
  | None => None
  end.

Definition or_spawned (fl : Flags) (o : option Process) : Process :=
  match o with
  | Some s => s
  | None => spawned fl constants host
  end.

(** [A] is registered and in FETCHING. *)
Definition fetching : Process := or_spawned flags (after flags [launchA]).

(** [A] is registered and in PULLING. *)
Definition pulling : Process :=
  or_spawned flags (after flags [launchA; O_launch "A"]).

(** [A] is registered and RUNNING, its executor reaped by pid 99. *)
Definition running_ops : list Op :=
  [launchA; O_launch "A"; O__launch "A"; RunSettled "A" (Ready tt);
   O____launch "A"; O_____launch "A" inspectedA; O______launch "A" 99;
   O_______launch "A" 99].

Definition running : Process := or_spawned flags (after flags running_ops).

(** The same on the slave that runs in a Docker container. *)
Definition nested_running : Process :=
  or_spawned nested_flags (after nested_flags running_ops).

(** [A] is RUNNING with its pid cached by an earlier [usage]. *)
Definition running_with_pid : Process :=
  or_spawned flags
    (after flags (running_ops ++ [OUsage "A"; O_usage "A" inspectedA])).


(** The five ways a record leaves the registry. *)
Definition run_failed_ops : list Op :=
  [launchA; O_launch "A"; O__launch "A";
   RunSettled "A" (Failed "docker run exited with status 125");
   ODestroy "A" true].

Definition fetching_ops : list Op := [launchA; ODestroy "A" true].

Definition pulling_ops : list Op := [launchA; O_launch "A"; ODestroy "A" true].

Definition stopping_ops : list Op :=
  running_ops ++ [ODestroy "A" true; O_destroy "A" true].

Definition stop_failed_ops : list Op :=
  stopping_ops ++ [O__destroy "A" true (Failed "docker stop timed out")].

Definition stopped_ops : list Op :=
  stopping_ops ++ [O__destroy "A" true (Ready tt)].

Definition reapedA : Op := O___destroy "A" true (Ready (Some 137%Z)).

(** [A] is DESTROYING and [docker stop] has succeeded. *)
Definition stopped : Process := or_spawned flags (after flags stopped_ops).

(** [A] has been torn down. *)
Definition torn_down : Process :=
  or_spawned flags (after flags (stopped_ops ++ [reapedA])).

(** A persisted slave state in which the latest runs of two executors
    carry the same forked pid. *)
Definition run_of (containerId : ContainerID) (pid : Z) : state.RunState :=
  state.mkRunState (Some containerId) (Some pid) false.

Definition executor_of (name : string) (containerId : ContainerID) (pid : Z)
    : state.ExecutorState :=
  state.mkExecutorState name (Some executorInfo) (Some containerId)
    {[ containerId := run_of containerId pid ]}.

Definition first_executor : state.ExecutorState := executor_of "e1" "C1" 100.
Definition second_executor : state.ExecutorState := executor_of "e2" "C2" 100.

Definition framework : state.FrameworkState :=
  state.mkFrameworkState "framework" [first_executor; second_executor].


End Example.

(** ** What a call adds to the trace *)

(** The call left the flags and the constants alone and added to the
    trace only actions that satisfy [P]. *)
Definition only_emits (P : Action -> bool) (s s' : Process) : Prop :=
  flags s' = flags s /\
  constants s' = constants s /\
  exists t, trace s' = trace s ++ t /\ forallb P t = true.

(** What an update may do: inspect the Docker container, and write to
    the three control files no value below the minimum of its kind. *)
Definition update_action (k : Constants) (a : Action) : bool :=
  match a with
  | DockerInspect _ => true
  | CgroupWriteCpuShares _ _ shares => (MIN_CPU_SHARES k <=? shares)%N
  | CgroupWriteSoftLimit _ _ limit | CgroupWriteLimit _ _ limit =>
      (MIN_MEMORY k <=? limit)%N
  | _ => false
  end.

(** The actions [Container::create] attempts on the sandbox, in order,
    when none of them fails. *)
Definition sandbox_preparation (h : Host) (fl : Flags) (id : ContainerID)
    (directory : string) (user : option string) (slaveId : SlaveID)
    : list Action :=
  let links :=
    path_join (getSlavePath (work_dir fl) slaveId) DOCKER_SYMLINK_DIRECTORY in
  [Touch (path_join directory "stdout"); Touch (path_join directory "stderr")]
  ++ match user with Some u => [Chown u directory] | None => [] end
  ++ (if os_path_exists h links then [] else [Mkdir links])
  ++ (if strings.contains directory ":"
      then [Symlink directory (path_join links id)] else []).

Definition is_docker_stop (a : Action) : bool :=
  match a with DockerStop _ _ _ => true | _ => false end.


(** ** More states of the concrete slave *)

Module Scenario.

(** [docker run] of [A] failed before its executor was reaped. *)
Definition run_failed : Process :=
  Example.or_spawned Example.flags
    (Example.after Example.flags
       [Example.launchA; O_launch "A"; O__launch "A";
        RunSettled "A" (Failed "docker run exited with status 125")]).

(** [docker run] of [A] failed after the reaper was armed. *)
Definition run_failed_late : Process :=
  Example.or_spawned Example.flags
    (Example.after Example.flags
       [Example.launchA; O_launch "A"; O__launch "A"; O____launch "A";
        O_____launch "A" Example.inspectedA; O______launch "A" 99;
        O_______launch "A" 99;
        RunSettled "A" (Failed "docker run exited with status 1")]).

(** [A] is DESTROYING and its executor is being reaped. *)
Definition stopping : Process :=
  Example.or_spawned Example.flags
    (Example.after Example.flags Example.stopping_ops).

(** [A] was destroyed right after [docker run], before the reaper was
    armed: it is DESTROYING and its status promise is unset. *)
Definition stopping_unreaped : Process :=
  Example.or_spawned Example.flags
    (Example.after Example.flags
       [Example.launchA; O_launch "A"; O__launch "A"; ODestroy "A" true]).

(** A task with its own Docker container. *)
Definition dockerTaskInfo : TaskInfo :=
  mkTaskInfo "task" (Some (mkContainerInfo DOCKER "nginx" true)) Example.large.

(** A host on which no file can be touched. *)
Definition read_only_host : Host :=
  mkHost (fun _ => false) (fun _ => Error "Read-only file system")
    (fun _ _ => Ok tt) (fun _ => true) (fun _ => Ok tt) (fun _ _ => Ok tt)
    (fun _ => Ok 4711%Z) (fun _ => None) (fun _ _ => Ok tt)
    (fun _ => RSome "/sys/fs/cgroup") (fun _ => RSome "/docker/abc")
    (fun _ => RSome "/docker/abc") ∅ ∅ ∅
    (fun _ => Ok ResourceStatistics_empty).


(** What [docker ps] lists: the container of [A], its executor
    container, and a container that Mesos did not start. *)
Definition containerA : Docker.Container :=
  Docker.mkContainer "0123abc" "/mesos-S.A" (Some 99%Z).
Definition executorA : Docker.Container :=
  Docker.mkContainer "4567def" "/mesos-S.A.executor" (Some 98%Z).
Definition foreign : Docker.Container :=
  Docker.mkContainer "89ab012" "/nginx" (Some 97%Z).
Definition listed : list Docker.Container :=
  [containerA; foreign; executorA].



(** A host on which the mesos-docker-executor cannot be written to. *)
Definition broken_pipe_host : Host :=
  mkHost (fun _ => false) (fun _ => Ok tt) (fun _ _ => Ok tt) (fun _ => true)
    (fun _ => Ok tt) (fun _ _ => Ok tt) (fun _ => Ok 4711%Z)
    (fun _ => Some "Broken pipe")
    (fun _ _ => Ok tt) (fun _ => RSome "/sys/fs/cgroup")
    (fun _ => RSome "/docker/abc") (fun _ => RSome "/docker/abc")
    ∅ ∅ ∅ (fun _ => Ok ResourceStatistics_empty).

(** On that host, [docker run] of the task container [A] was issued. *)
Definition launched_on_broken_pipe : Process :=
  match run_ops
          [OLaunchTask "A" dockerTaskInfo Example.executorInfo "/sandbox" None
             "S" "slave(1)@host" true;
           O_launch "A"; O__launch "A"]
          (spawned Example.flags Example.constants broken_pipe_host) with
  | Some (_, s) => s
  | None => spawned Example.flags Example.constants broken_pipe_host
  end.

End Scenario.

(** * Properties *)

(** ** The name codec *)

Section StringFacts.

Lemma startsWith_app p r : strings.startsWith (p +:+ r) p = true.
Proof.
  induction p as [|a p IH].
  - reflexivity.
  - change (String a p +:+ r) with (String a (p +:+ r)). simpl.
    by rewrite Ascii.eqb_refl.
Qed.

Lemma split_nonempty s d : strings.split s d <> [].
Proof.
  destruct s as [|c s]; simpl; [done|].
  destruct (strings.is_delim c d); [done|].
  by destruct (strings.split s d).
Qed.

Lemma is_delim_dot c : strings.is_delim c "." = Ascii.eqb "." c.
Proof.
  change (strings.is_delim c ".") with (Ascii.eqb c "." || false).
  rewrite orb_false_r. apply Ascii.eqb_sym.
Qed.

Lemma contains_cons_dot c s :
  strings.contains (String c s) "." = Ascii.eqb "." c || strings.contains s ".".
Proof.
  change (strings.contains (String c s) ".") with
    ((if Ascii.eqb "." c then true else false) || strings.contains s ".").
  by destruct (Ascii.eqb "." c).
Qed.

Lemma split_cons_dot s :
  strings.split (String "." s) "." = "" :: strings.split s ".".
Proof. reflexivity. Qed.

Lemma split_cons_other c s :
  Ascii.eqb "." c = false ->
  strings.split (String c s) "." =
    match strings.split s "." with
    | t :: ts => String c t :: ts
    | [] => [String c ""]
    end.
Proof.
  intros H. change (strings.split (String c s) ".") with
    (if strings.is_delim c "." then "" :: strings.split s "."
     else match strings.split s "." with
          | t :: ts => String c t :: ts
          | [] => [String c ""]
          end).
  by rewrite is_delim_dot, H.
Qed.

(** A string contains the separator exactly when it splits into more
    than one segment. *)
Lemma contains_dot_split s :
  strings.contains s "." = negb (length (strings.split s ".") =? 1)%nat.
Proof.
  induction s as [|c s IH]; [done|].
  rewrite contains_cons_dot.
  destruct (Ascii.eqb "." c) eqn:E.
  - apply Ascii.eqb_eq in E as <-. rewrite split_cons_dot. simpl.
    pose proof (split_nonempty s ".").
    by destruct (strings.split s ".") as [|? [|]].
  - rewrite split_cons_other by done. rewrite IH. simpl.
    pose proof (split_nonempty s ".").
    by destruct (strings.split s ".").
Qed.

Lemma split_no_dot s :
  strings.contains s "." = false -> strings.split s "." = [s].
Proof.
  induction s as [|c s IH]; [done|].
  rewrite contains_cons_dot. intros [E H]%orb_false_elim.
  rewrite split_cons_other by done. by rewrite IH.
Qed.

Lemma split_app_dot s r :
  strings.contains s "." = false ->
  strings.split (s +:+ String "." r) "." = s :: strings.split r ".".
Proof.
  induction s as [|c s IH]; [done|].
  rewrite contains_cons_dot. intros [E H]%orb_false_elim.
  change (String c s +:+ String "." r) with (String c (s +:+ String "." r)).
  rewrite split_cons_other by done. by rewrite IH.
Qed.

End StringFacts.

Section NameCodec.

Lemma parse_name_prefixed rest :
  parse_name ("mesos-" +:+ rest) =
    if negb (strings.contains rest ".") then Some rest
    else if (length (strings.split rest ".") =? 2)%nat
            || (length (strings.split rest ".") =? 3)%nat
         then Some (at_index (strings.split rest ".") 1)
         else None.
Proof. reflexivity. Qed.

Lemma parse_name_slash rest :
  parse_name ("/mesos-" +:+ rest) = parse_name ("mesos-" +:+ rest).
Proof. reflexivity. Qed.

Lemma parse_name_other name :
  strings.startsWith name "mesos-" = false ->
  strings.startsWith name "/mesos-" = false ->
  parse_name name = None.
Proof.
  intros H1 H2. unfold parse_name, DOCKER_NAME_PREFIX.
  change ("/" +:+ "mesos-") with "/mesos-". by rewrite H1, H2.
Qed.

Lemma parse_name_segments rest :
  let parts := strings.split rest "." in
  (length parts = 1%nat -> parse_name ("mesos-" +:+ rest) = Some rest) /\
  (length parts = 2%nat \/ length parts = 3%nat ->
     parse_name ("mesos-" +:+ rest) = Some (at_index parts 1)) /\
  (4 <= length parts -> parse_name ("mesos-" +:+ rest) = None).
Proof.
  intros parts. rewrite parse_name_prefixed, contains_dot_split.
  fold parts. pose proof (split_nonempty rest ".") as Hne. fold parts in Hne.
  repeat split.
  - by intros ->.
  - by intros [-> | ->].
  - intros H. destruct parts as [|? [|? [|? [|? ?]]]]; simpl in *; done || lia.
Qed.

(** Where the second segment is the last one that is not [executor]:
    names of the forms [<slave>.<id>] and [<slave>.<id>.executor] with
    an [<id>] other than [executor]. *)
Lemma second_is_last_non_executor (parts : list string) :
  at_index parts 1 <> "executor" ->
  (length parts = 2%nat \/
   (length parts = 3%nat /\ at_index parts 2 = "executor")) ->
  last_non_executor parts = Some (at_index parts 1).
Proof.
  intros Hid [Hl | [Hl He]];
    destruct parts as [|a [|b [|c [|d l]]]]; try discriminate Hl;
    cbn in *.
  - apply String.eqb_neq in Hid. by rewrite Hid.
  - subst c. apply String.eqb_neq in Hid. by rewrite Hid.
Qed.

(** A container that [parse] does not recognise leaves the maps of
    [_recover] as they are, wherever it stands in the output of
    [docker ps]. *)
Lemma detect_ignores (l1 l2 : list Docker.Container) container r :
  parse container = None ->
  fold_left detect (l1 ++ container :: l2) r = fold_left detect (l1 ++ l2) r.
Proof.
  intros H. rewrite !fold_left_app. simpl. unfold detect at 2. by rewrite H.
Qed.

(** C3 (as stated, refuted): for a name of three segments whose last is
    not [executor], [parse] returns the second segment, not the last
    segment that is not [executor]. *)
Lemma parse_not_last_non_executor :
  ~ (forall (container : Docker.Container) (rest : string),
       Docker.name container = "mesos-" +:+ rest ->
       length (strings.split rest ".") = 2%nat \/
       length (strings.split rest ".") = 3%nat ->
       parse container = last_non_executor (strings.split rest ".")).
Proof.
  intros H.
  specialize (H (Docker.mkContainer "0123abc" "mesos-a.b.c" None) "a.b.c"
                eq_refl (or_intror eq_refl)).
  vm_compute in H. discriminate H.
Qed.

(** C3 (amended): for a name that starts with [mesos-] or [/mesos-] and
    whose remainder splits on [.] into 2 or 3 segments, [parse] returns
    the second segment, which is the last segment that is not [executor]
    for the names [<slave>.<id>] and [<slave>.<id>.executor]; with 4 or
    more segments, or with another prefix, [parse] returns [None], and
    [_recover] then handles the output of [docker ps] as if the container
    were not in it. *)
Theorem parse_second_segment :
  (forall (container : Docker.Container) (rest : string),
     Docker.name container = "mesos-" +:+ rest \/
     Docker.name container = "/mesos-" +:+ rest ->
     let parts := strings.split rest "." in
     (length parts = 2%nat \/ length parts = 3%nat ->
        parse container = Some (at_index parts 1) /\
        (at_index parts 1 <> "executor" ->
         length parts = 2%nat \/ at_index parts 2 = "executor" ->
         parse container = last_non_executor parts)) /\
     (4 <= length parts -> parse container = None)) /\
  (forall container : Docker.Container,
     strings.startsWith (Docker.name container) "mesos-" = false ->
     strings.startsWith (Docker.name container) "/mesos-" = false ->
     parse container = None) /\
  (forall (container : Docker.Container) state l1 l2,
     parse container = None ->
     _recover state (l1 ++ container :: l2) = _recover state (l1 ++ l2)).
Proof.
  split; [|split].
  - intros container rest Hname parts.
    assert (parse container = parse_name ("mesos-" +:+ rest)) as ->.
    { unfold parse. destruct Hname as [-> | ->]; [done|apply parse_name_slash]. }
    destruct (parse_name_segments rest) as (_ & H23 & H4). fold parts in H23, H4.
    split; [|exact H4].
    intros Hl. split; [by apply H23|].
    intros Hid He. rewrite H23 by done. symmetry.
    apply second_is_last_non_executor; [done|].
    destruct Hl as [Hl | Hl]; [by left|].
    destruct He as [He | He]; [by left | by right].
  - intros container. apply parse_name_other.
  - intros container state l1 l2 H. unfold _recover.
    by rewrite (detect_ignores l1 l2 container _ H).
Qed.

Lemma parse_second_segment_witness :
  parse (Docker.mkContainer "0123abc" "/mesos-S.A.executor" None) = Some "A" /\
  parse (Docker.mkContainer "0123abc" "/mesos-S.A.executor" None)
    = last_non_executor ["S"; "A"; "executor"] /\
  parse (Docker.mkContainer "0123abc" "mesos-a.b.c.d" None) = None /\
  parse (Docker.mkContainer "0123abc" "registry" None) = None /\
  _recover (state.mkSlaveState "S" [])
    ([] ++ Docker.mkContainer "0123abc" "registry" None :: [])
  = _recover (state.mkSlaveState "S" []) ([] ++ []).
Proof.
  destruct parse_second_segment as (H1 & H2 & H3).
  pose proof (H1 (Docker.mkContainer "0123abc" "/mesos-S.A.executor" None)
                "S.A.executor" (or_intror eq_refl)) as [Ha _].
  destruct (Ha (or_intror eq_refl)) as [Hb Hc].
  pose proof (H1 (Docker.mkContainer "0123abc" "mesos-a.b.c.d" None)
                "a.b.c.d" (or_introl eq_refl)) as [_ Hd].
  split; [exact Hb|].
  split; [apply Hc; [discriminate | by right]|].
  split; [apply Hd; vm_compute; lia|].
  split; [by apply H2|].
  apply H3. by apply H2.
Defined.

(** C6 (as stated, refuted): a ContainerID with a [.] in it is not
    parsed back from the generated name. *)
Lemma parse_makeName_dotted :
  ~ (forall (s id : string) (container : Docker.Container),
       Docker.name container = makeName s id -> parse container = Some id).
Proof.
  intros H.
  specialize (H "S" "a.b" (Docker.mkContainer "0123abc" "mesos-S.a.b" None)
                eq_refl).
  vm_compute in H. discriminate H.
Qed.

(** C6 (amended): for a slave id and a ContainerID without [.], parsing
    the generated name [mesos-<s>.<id>] yields the id back; the legacy
    name [mesos-<id>] parses to the id; and a name with a leading [/]
    parses as the name without it. *)
Theorem parse_makeName :
  (forall (s id : string) (container : Docker.Container),
     strings.contains s DOCKER_NAME_SEPERATOR = false ->
     strings.contains id DOCKER_NAME_SEPERATOR = false ->
     Docker.name container = makeName s id ->
     parse container = Some id) /\
  (forall (id : string) (container : Docker.Container),
     strings.contains id DOCKER_NAME_SEPERATOR = false ->
     Docker.name container = DOCKER_NAME_PREFIX +:+ id ->
     parse container = Some id) /\
  (forall (rest : string) (container slashed : Docker.Container),
     Docker.name container = DOCKER_NAME_PREFIX +:+ rest ->
     Docker.name slashed = "/" +:+ Docker.name container ->
     parse slashed = parse container).
Proof.
  unfold DOCKER_NAME_SEPERATOR, DOCKER_NAME_PREFIX. split; [|split].
  - intros s id container Hs Hid Hname. unfold parse. rewrite Hname.
    unfold makeName, DOCKER_NAME_PREFIX, DOCKER_NAME_SEPERATOR.
    destruct (parse_name_segments (s +:+ "." +:+ id)) as (_ & H & _).
    change (s +:+ "." +:+ id) with (s +:+ String "." id) in *.
    rewrite split_app_dot, split_no_dot in H by done.
    by rewrite H; [|left].
  - intros id container Hid Hname. unfold parse. rewrite Hname.
    rewrite parse_name_prefixed. by rewrite Hid.
  - intros rest container slashed Hname Hslashed. unfold parse.
    rewrite Hslashed, Hname. apply parse_name_slash.
Qed.

Lemma parse_makeName_witness :
  parse (Docker.mkContainer "0123abc" "mesos-S.A" None) = Some "A" /\
  parse (Docker.mkContainer "0123abc" "mesos-A" None) = Some "A" /\
  parse (Docker.mkContainer "0123abc" "/mesos-S.A" None)
    = parse (Docker.mkContainer "0123abc" "mesos-S.A" None).
Proof.
  destruct parse_makeName as (H1 & H2 & H3).
  split; [by apply (H1 "S" "A")|].
  split; [by apply (H2 "A")|].
  by apply (H3 "S.A").
Defined.

End NameCodec.

(** ** Calls and the relations they preserve *)

Ltac simpl_process :=
  cbn [containers_ trace host flags constants
       set_containers set_trace set_host] in *.

Section Preserves.
Context (R : Process -> Process -> Prop) `{!PreOrder R}.

Lemma preserves_ret {A} (a : A) : preserves R (ret a).
Proof. intros s b s' [= _ <-]. reflexivity. Qed.

Lemma preserves_gets {A} (f : Process -> A) : preserves R (gets f).
Proof. intros s b s' [= _ <-]. reflexivity. Qed.

Lemma preserves_abort {A} : preserves R (@abort A).
Proof. intros s b s' [=]. Qed.

Lemma preserves_CHECK b : preserves R (CHECK b).
Proof. destruct b; [apply preserves_ret | apply preserves_abort]. Qed.

Lemma preserves_bind {A B} (m : M A) (k : A -> M B) :
  preserves R m -> (forall a, preserves R (k a)) -> preserves R (bind m k).
Proof.
  intros Hm Hk s b s'. unfold bind.
  destruct (m s) as [[a s1]|] eqn:E; [|done].
  intros Hb. transitivity s1; [by eapply Hm | by eapply Hk].
Qed.

Lemma preserves_ignore {A} (m : M A) :
  preserves R m -> preserves R (ignore m).
Proof. intros. apply preserves_bind; [done | intros; apply preserves_ret]. Qed.

Lemma preserves_get_container containerId :
  preserves R (get_container containerId).
Proof. apply preserves_gets. Qed.
End Preserves.

Create HintDb preserves.

(** Follows the structure of a computation, leaving its primitive steps
    to the hints of [preserves]. *)
Ltac preserves_step :=
  match goal with
  | |- preserves ?R (bind _ _) => apply (preserves_bind R); [|intros ?]
  | |- preserves ?R (ret _) => apply (preserves_ret R)
  | |- preserves ?R (gets _) => apply (preserves_gets R)
  | |- preserves ?R abort => apply (preserves_abort R)
  | |- preserves ?R (CHECK _) => apply (preserves_CHECK R)
  | |- preserves ?R (get_container _) => apply (preserves_get_container R)
  | |- preserves ?R (ignore _) => apply (preserves_ignore R)
  | |- preserves _ (try_bind _ _) => unfold try_bind
  | |- preserves _ (match ?x with _ => _ end) => destruct x
  | |- preserves _ _ => solve [auto with preserves]
  end.

Ltac preserves_tac := cbv zeta; repeat (preserves_step; cbv zeta).

Ltac keeps_termination_tac :=
  let c := fresh "c" in
  intros c; cbn; repeat case_match; reflexivity.

(** *** Calls that tear nothing down *)

Section Quiet.

Lemma quiet_rel_preorder : PreOrder quiet_rel.
Proof.
  split.
  - by intros s.
  - intros s1 s2 s3 (H1 & H2 & H3) (H4 & H5 & H6). repeat split.
    + congruence.
    + eauto.
    + eauto.
Qed.

#[local] Existing Instance quiet_rel_preorder.

Lemma teardowns_snoc t a :
  teardowns (t ++ [a]) = teardowns t ++ (if is_teardown a then [a] else []).
Proof.
  unfold teardowns. rewrite List.filter_app. simpl.
  by destruct (is_teardown a).
Qed.

Lemma quiet_emit a : is_teardown a = false -> preserves quiet_rel (emit a).
Proof.
  intros Ha s [] s' [= <-]. repeat split; simpl_process; [|done..].
  by rewrite teardowns_snoc, Ha, app_nil_r.
Qed.

Lemma quiet_modify_container containerId f :
  keeps_termination f -> preserves quiet_rel (modify_container containerId f).
Proof.
  intros Hf s [] s' [= <-]. repeat split; simpl_process.
  - intros id [c Hc]. rewrite lookup_alter.
    case_decide; subst; rewrite ?Hc; eauto.
  - intros Hp id c. simpl_process. rewrite lookup_alter. case_decide; subst.
    + destruct (containers_ s !! id) as [c0|] eqn:E; [|done].
      intros [= <-]. rewrite Hf. eauto.
    + eauto.
Qed.

Lemma quiet_insert_container containerId c :
  Container.termination c = Pending ->
  preserves quiet_rel (insert_container containerId c).
Proof.
  intros Hc s [] s' [= <-]. repeat split; simpl_process.
  - by rewrite teardowns_snoc, app_nil_r.
  - intros id Hid. rewrite lookup_insert. case_decide; eauto.
  - intros Hp id c'. simpl_process. rewrite lookup_insert.
    case_decide; [by intros [= <-]|eauto].
Qed.

Lemma quiet_set_host (f : Process -> Host) :
  preserves quiet_rel (fun s => Some (tt, set_host (f s) s)).
Proof. intros s [] s' [= <-]. by repeat split. Qed.

End Quiet.

#[local] Existing Instance quiet_rel_preorder.

#[local] Hint Extern 1 (preserves quiet_rel (emit _)) =>
  apply quiet_emit; reflexivity : preserves.
#[local] Hint Extern 1 (preserves quiet_rel (modify_container _ _)) =>
  apply quiet_modify_container; keeps_termination_tac : preserves.
#[local] Hint Extern 1 (preserves quiet_rel (insert_container _ _)) =>
  apply quiet_insert_container; (reflexivity || assumption) : preserves.
#[local] Hint Extern 1 (preserves quiet_rel (fun s => Some (tt, set_host _ s))) =>
  apply (quiet_set_host (fun _ => _)) : preserves.

Section QuietCalls.

Lemma quiet_Container_create id t e d u sl sp ck :
  preserves quiet_rel (Container_create id t e d u sl sp ck).
Proof. unfold Container_create. preserves_tac. Qed.

Lemma quiet_fetch id : preserves quiet_rel (fetch id).
Proof. unfold fetch. preserves_tac. Qed.

Lemma quiet_pull id d i f : preserves quiet_rel (pull id d i f).
Proof. unfold pull. preserves_tac. Qed.

Lemma quiet_checkpoint id p : preserves quiet_rel (checkpoint id p).
Proof. unfold checkpoint. preserves_tac. Qed.

Lemma quiet_launchWaitProcess d n : preserves quiet_rel (launchWaitProcess d n).
Proof. unfold launchWaitProcess. preserves_tac. Qed.

Lemma quiet_status_set_reap id p : preserves quiet_rel (status_set_reap id p).
Proof. unfold status_set_reap. preserves_tac. Qed.

Hint Resolve quiet_Container_create quiet_fetch quiet_pull
  quiet_checkpoint quiet_launchWaitProcess quiet_status_set_reap : preserves.

(** A record comes out of [Container::create] with its termination
    promise unset. *)
Lemma Container_create_pending id t e d u sl sp ck s c s' :
  Container_create id t e d u sl sp ck s = Some (Ok c, s') ->
  Container.termination c = Pending.
Proof.
  unfold Container_create, try_bind, bind, gets, emit, ret.
  intros H. repeat (case_match; simplify_eq/=); reflexivity.
Qed.

Lemma quiet_launch_accepted id t e d u sl sp ck :
  preserves quiet_rel (launch_accepted id t e d u sl sp ck).
Proof.
  intros s a s'. unfold launch_accepted. unfold bind at 1.
  destruct (Container_create id t e d u sl sp ck s) as [[[c|msg] s1]|] eqn:E;
    [| |done].
  - intros H. transitivity s1; [by eapply quiet_Container_create|].
    pose proof (Container_create_pending _ _ _ _ _ _ _ _ _ _ _ E) as Hc.
    refine ((_ : preserves quiet_rel _) _ _ _ H). preserves_tac.
  - intros [= _ <-]. by eapply quiet_Container_create.
Qed.

Hint Resolve quiet_launch_accepted : preserves.

Lemma quiet_launch_task id t e d u sl sp ck :
  preserves quiet_rel (launch_task id t e d u sl sp ck).
Proof. unfold launch_task. preserves_tac. Qed.

Lemma quiet_launch_executor id e d u sl sp ck :
  preserves quiet_rel (launch_executor id e d u sl sp ck).
Proof. unfold launch_executor. preserves_tac. Qed.

Lemma quiet__launch id : preserves quiet_rel (_launch id).
Proof. unfold _launch. preserves_tac. Qed.

Lemma quiet___launch id : preserves quiet_rel (__launch id).
Proof. unfold __launch. preserves_tac. Qed.

Lemma quiet____launch id : preserves quiet_rel (___launch id).
Proof. unfold ___launch. preserves_tac. Qed.

Lemma quiet____launchInContainer id :
  preserves quiet_rel (___launchInContainer id).
Proof. unfold ___launchInContainer. preserves_tac. Qed.

Lemma quiet_____launch id : preserves quiet_rel (____launch id).
Proof. unfold ____launch. preserves_tac. Qed.

Lemma quiet______launch id c : preserves quiet_rel (_____launch id c).
Proof. unfold _____launch. preserves_tac. Qed.

Lemma quiet_______launch id p : preserves quiet_rel (______launch id p).
Proof. unfold ______launch. preserves_tac. Qed.

Lemma quiet_____launchInContainer id :
  preserves quiet_rel (____launchInContainer id).
Proof. unfold ____launchInContainer. preserves_tac. Qed.

Lemma quiet________launch id p : preserves quiet_rel (_______launch id p).
Proof. unfold _______launch. preserves_tac. Qed.

Lemma quiet_cgroups_cpu_shares_write h c v :
  preserves quiet_rel (cgroups_cpu_shares_write h c v).
Proof. unfold cgroups_cpu_shares_write. preserves_tac. Qed.

Lemma quiet_cgroups_memory_soft_limit_in_bytes_write h c v :
  preserves quiet_rel (cgroups_memory_soft_limit_in_bytes_write h c v).
Proof. unfold cgroups_memory_soft_limit_in_bytes_write. preserves_tac. Qed.

Lemma quiet_cgroups_memory_limit_in_bytes_read h c :
  preserves quiet_rel (cgroups_memory_limit_in_bytes_read h c).
Proof. unfold cgroups_memory_limit_in_bytes_read. preserves_tac. Qed.

Lemma quiet_cgroups_memory_limit_in_bytes_write h c v :
  preserves quiet_rel (cgroups_memory_limit_in_bytes_write h c v).
Proof. unfold cgroups_memory_limit_in_bytes_write. preserves_tac. Qed.

Hint Resolve quiet_cgroups_cpu_shares_write
  quiet_cgroups_memory_soft_limit_in_bytes_write
  quiet_cgroups_memory_limit_in_bytes_read
  quiet_cgroups_memory_limit_in_bytes_write : preserves.

Lemma quiet___update_cpu h c r : preserves quiet_rel (__update_cpu h c r).
Proof. unfold __update_cpu. preserves_tac. Qed.

Lemma quiet___update_memory h c r : preserves quiet_rel (__update_memory h c r).
Proof. unfold __update_memory. preserves_tac. Qed.

Hint Resolve quiet___update_cpu quiet___update_memory : preserves.

Lemma quiet___update id r p : preserves quiet_rel (__update id r p).
Proof. unfold __update. preserves_tac. Qed.

Hint Resolve quiet___update : preserves.

Lemma quiet_update id r : preserves quiet_rel (update id r).
Proof. unfold update. preserves_tac. Qed.

Lemma quiet__update id r c : preserves quiet_rel (_update id r c).
Proof. unfold _update. preserves_tac. Qed.

Lemma quiet___usage id p : preserves quiet_rel (__usage id p).
Proof. unfold __usage. preserves_tac. Qed.

Hint Resolve quiet___usage : preserves.

Lemma quiet_usage id : preserves quiet_rel (usage id).
Proof. unfold usage. preserves_tac. Qed.

Lemma quiet__usage id c : preserves quiet_rel (_usage id c).
Proof. unfold _usage. preserves_tac. Qed.

Lemma quiet_wait id : preserves quiet_rel (wait id).
Proof. unfold wait. preserves_tac. Qed.

Lemma quiet_containers : preserves quiet_rel containers.
Proof. unfold containers. preserves_tac. Qed.

Lemma quiet__destroy id k : preserves quiet_rel (_destroy id k).
Proof. unfold _destroy. preserves_tac. Qed.

Lemma quiet_remove c e : preserves quiet_rel (remove c e).
Proof. unfold remove. preserves_tac. Qed.

Lemma quiet_recover st : preserves quiet_rel (recover st).
Proof. unfold recover. preserves_tac. Qed.

Lemma quiet_run_settled id o : preserves quiet_rel (run_settled id o).
Proof. unfold run_settled. preserves_tac. Qed.

Lemma quiet_recoverContainer id sl p r :
  preserves quiet_rel (recoverContainer id sl p r).
Proof. unfold recoverContainer. preserves_tac. Qed.

Hint Resolve quiet_recoverContainer : preserves.

Lemma quiet_recover_executor sl e r :
  preserves quiet_rel (recover_executor sl e r).
Proof. unfold recover_executor. preserves_tac. Qed.

Hint Resolve quiet_recover_executor : preserves.

Lemma quiet_recover_executors sl l :
  forall r, preserves quiet_rel (recover_executors sl l r).
Proof. induction l as [|e l IH]; intros r; simpl; preserves_tac. Qed.

Hint Resolve quiet_recover_executors : preserves.

Lemma quiet_recover_frameworks sl l :
  forall r, preserves quiet_rel (recover_frameworks sl l r).
Proof. induction l as [|f l IH]; intros r; simpl; preserves_tac. Qed.

Lemma quiet_stop_all l : preserves quiet_rel (stop_all l).
Proof. induction l as [|[i c] l IH]; simpl; preserves_tac. Qed.

Hint Resolve quiet_recover_frameworks quiet_stop_all : preserves.

Lemma quiet__recover st l : preserves quiet_rel (_recover st l).
Proof. unfold _recover. preserves_tac. Qed.

End QuietCalls.

#[local] Hint Resolve quiet_Container_create quiet_fetch quiet_pull
  quiet_checkpoint quiet_launchWaitProcess quiet_status_set_reap
  quiet_launch_accepted quiet_launch_task quiet_launch_executor
  quiet__launch quiet___launch quiet____launch quiet____launchInContainer
  quiet_____launch quiet______launch quiet_______launch
  quiet_____launchInContainer quiet________launch quiet___update
  quiet_update quiet__update quiet___usage quiet_usage quiet__usage
  quiet_wait quiet_containers quiet__destroy quiet_remove quiet_recover
  quiet__recover quiet_run_settled : preserves.

(** *** Teardown: fulfil the promise, then erase the record *)

Section Teardown.

Lemma silent_rel_preorder : PreOrder silent_rel.
Proof.
  split; [by intros s|].
  intros s1 s2 s3 [H1 H2] [H3 H4]. split; congruence.
Qed.

#[local] Existing Instance silent_rel_preorder.




Lemma termination_set_pending containerId t s c :
  containers_ s !! containerId = Some c ->
  Container.termination c = Pending ->
  termination_set containerId t s =
    Some (true,
          set_trace (trace s ++ [TerminationSet containerId t])
            (set_containers
               (alter (Container.set_termination (Ready t)) containerId
                  (containers_ s)) s)).
Proof.
  intros Hc Ht. unfold termination_set, bind, get_container, gets.
  rewrite Hc, Ht. reflexivity.
Qed.

Lemma termination_fail_pending containerId msg s c :
  containers_ s !! containerId = Some c ->
  Container.termination c = Pending ->
  termination_fail containerId msg s =
    Some (true,
          set_trace (trace s ++ [TerminationFail containerId msg])
            (set_containers
               (alter (Container.set_termination (Failed msg)) containerId
                  (containers_ s)) s)).
Proof.
  intros Hc Ht. unfold termination_fail, bind, get_container, gets.
  rewrite Hc, Ht. reflexivity.
Qed.

Lemma erase_eq containerId s :
  erase containerId s =
    Some (tt, set_trace (trace s ++ [RegistryErase containerId])
                (set_containers (delete containerId (containers_ s)) s)).
Proof. reflexivity. Qed.














End Teardown.


(** *** Calls under a relation that every primitive step preserves *)

Section Frame.
Context (R : Process -> Process -> Prop) `{!PreOrder R}.
Context (insertable : ContainerID -> Prop).
Context (frame_emit : forall a, preserves R (emit a)).
Context (frame_modify : forall id f, preserves R (modify_container id f)).
Context (frame_insert :
  forall id c, insertable id -> preserves R (insert_container id c)).
Context (frame_erase : forall id, preserves R (erase id)).
Context (frame_cpu_shares :
  forall h c v, preserves R (cgroups_cpu_shares_write h c v)).
Context (frame_memory :
  forall h c r, preserves R (__update_memory h c r)).

Hint Resolve frame_emit frame_modify frame_erase frame_cpu_shares
  frame_memory : preserves.
Hint Extern 1 (preserves R (insert_container _ _)) =>
  apply frame_insert; (assumption || auto) : preserves.

Lemma frame_termination_set id t : preserves R (termination_set id t).
Proof. unfold termination_set. preserves_tac. Qed.

Lemma frame_termination_fail id m : preserves R (termination_fail id m).
Proof. unfold termination_fail. preserves_tac. Qed.

Lemma frame_Container_create id t e d u sl sp ck :
  preserves R (Container_create id t e d u sl sp ck).
Proof. unfold Container_create. preserves_tac. Qed.

Lemma frame_fetch id : preserves R (fetch id).
Proof. unfold fetch. preserves_tac. Qed.

Lemma frame_pull id d i f : preserves R (pull id d i f).
Proof. unfold pull. preserves_tac. Qed.

Lemma frame_checkpoint id p : preserves R (checkpoint id p).
Proof. unfold checkpoint. preserves_tac. Qed.

Lemma frame_launchWaitProcess d n : preserves R (launchWaitProcess d n).
Proof. unfold launchWaitProcess. preserves_tac. Qed.

Lemma frame_status_set_reap id p : preserves R (status_set_reap id p).
Proof. unfold status_set_reap. preserves_tac. Qed.

Hint Resolve frame_termination_set frame_termination_fail
  frame_Container_create frame_fetch frame_pull frame_checkpoint
  frame_launchWaitProcess frame_status_set_reap : preserves.

Lemma frame_launch_accepted id t e d u sl sp ck :
  insertable id -> preserves R (launch_accepted id t e d u sl sp ck).
Proof. intros Hid. unfold launch_accepted. preserves_tac. Qed.

Lemma frame_launch_task id t e d u sl sp ck :
  insertable id -> preserves R (launch_task id t e d u sl sp ck).
Proof.
  intros Hid. pose proof (frame_launch_accepted id) as H.
  unfold launch_task. preserves_tac.
Qed.

Lemma frame_launch_executor id e d u sl sp ck :
  insertable id -> preserves R (launch_executor id e d u sl sp ck).
Proof.
  intros Hid. pose proof (frame_launch_accepted id) as H.
  unfold launch_executor. preserves_tac.
Qed.

Lemma frame__launch id : preserves R (_launch id).
Proof. unfold _launch. preserves_tac. Qed.

Lemma frame___launch id : preserves R (__launch id).
Proof. unfold __launch. preserves_tac. Qed.

Lemma frame____launch id : preserves R (___launch id).
Proof. unfold ___launch. preserves_tac. Qed.

Lemma frame____launchInContainer id : preserves R (___launchInContainer id).
Proof. unfold ___launchInContainer. preserves_tac. Qed.

Lemma frame_____launch id : preserves R (____launch id).
Proof. unfold ____launch. preserves_tac. Qed.

Lemma frame______launch id c : preserves R (_____launch id c).
Proof. unfold _____launch. preserves_tac. Qed.

Lemma frame_______launch id p : preserves R (______launch id p).
Proof. unfold ______launch. preserves_tac. Qed.

Lemma frame_____launchInContainer id : preserves R (____launchInContainer id).
Proof. unfold ____launchInContainer. preserves_tac. Qed.

Lemma frame________launch id p : preserves R (_______launch id p).
Proof. unfold _______launch. preserves_tac. Qed.

Lemma frame___update_cpu h c r : preserves R (__update_cpu h c r).
Proof. unfold __update_cpu. preserves_tac. Qed.

Hint Resolve frame___update_cpu : preserves.

Lemma frame___update id r p : preserves R (__update id r p).
Proof. unfold __update. preserves_tac. Qed.

Hint Resolve frame___update : preserves.

Lemma frame_update id r : preserves R (update id r).
Proof. unfold update. preserves_tac. Qed.

Lemma frame__update id r c : preserves R (_update id r c).
Proof. unfold _update. preserves_tac. Qed.

Lemma frame___usage id p : preserves R (__usage id p).
Proof. unfold __usage. preserves_tac. Qed.

Hint Resolve frame___usage : preserves.

Lemma frame_usage id : preserves R (usage id).
Proof. unfold usage. preserves_tac. Qed.

Lemma frame__usage id c : preserves R (_usage id c).
Proof. unfold _usage. preserves_tac. Qed.

Lemma frame_wait id : preserves R (wait id).
Proof. unfold wait. preserves_tac. Qed.

Lemma frame_containers : preserves R containers.
Proof. unfold containers. preserves_tac. Qed.

Lemma frame_destroy id k : preserves R (destroy id k).
Proof. unfold destroy. preserves_tac. Qed.

Hint Resolve frame_destroy : preserves.

Lemma frame__destroy id k : preserves R (_destroy id k).
Proof. unfold _destroy. preserves_tac. Qed.

Lemma frame___destroy id k f : preserves R (__destroy id k f).
Proof. unfold __destroy. preserves_tac. Qed.

Lemma frame____destroy id k st : preserves R (___destroy id k st).
Proof. unfold ___destroy. preserves_tac. Qed.

Lemma frame_reaped id : preserves R (reaped id).
Proof. unfold reaped. preserves_tac. Qed.

Lemma frame_remove c e : preserves R (remove c e).
Proof. unfold remove. preserves_tac. Qed.

Lemma frame_recover st : preserves R (recover st).
Proof. unfold recover. preserves_tac. Qed.

Lemma frame_run_settled id o : preserves R (run_settled id o).
Proof. unfold run_settled. preserves_tac. Qed.

Lemma frame_recoverContainer id sl p r :
  insertable id -> preserves R (recoverContainer id sl p r).
Proof. intros Hid. unfold recoverContainer. preserves_tac. Qed.

Lemma frame_recover_executor sl e r :
  (forall id, insertable id) -> preserves R (recover_executor sl e r).
Proof.
  intros Hid. pose proof (fun id => frame_recoverContainer id) as H.
  unfold recover_executor. preserves_tac.
Qed.

Lemma frame_recover_executors sl l :
  (forall id, insertable id) ->
  forall r, preserves R (recover_executors sl l r).
Proof.
  intros Hid. pose proof (frame_recover_executor sl) as H.
  induction l as [|e l IH]; intros r; simpl; preserves_tac.
Qed.

Lemma frame_recover_frameworks sl l :
  (forall id, insertable id) ->
  forall r, preserves R (recover_frameworks sl l r).
Proof.
  intros Hid. pose proof (frame_recover_executors sl) as H.
  induction l as [|f l IH]; intros r; simpl; preserves_tac.
Qed.

Lemma frame_stop_all l : preserves R (stop_all l).
Proof. induction l as [|[i c] l IH]; simpl; preserves_tac. Qed.

Hint Resolve frame_stop_all : preserves.

Lemma frame__recover st l :
  (forall id, insertable id) -> preserves R (_recover st l).
Proof.
  intros Hid. pose proof (frame_recover_frameworks (state.slave_id st)) as H.
  unfold _recover. preserves_tac.
Qed.

Lemma frame_exec op :
  frame_allowed insertable op -> preserves R (exec op).
Proof.
  pose proof frame_launch_task. pose proof frame_launch_executor.
  pose proof frame__launch. pose proof frame___launch.
  pose proof frame____launch. pose proof frame____launchInContainer.
  pose proof frame_____launch. pose proof frame______launch.
  pose proof frame_______launch. pose proof frame_____launchInContainer.
  pose proof frame________launch. pose proof frame_update.
  pose proof frame__update. pose proof frame_usage. pose proof frame__usage.
  pose proof frame_wait. pose proof frame_containers.
  pose proof frame__destroy. pose proof frame___destroy.
  pose proof frame____destroy. pose proof frame_reaped.
  pose proof frame_remove. pose proof frame_recover.
  pose proof frame__recover. pose proof frame_run_settled.
  destruct op; cbn [exec frame_allowed]; intros Hop; preserves_tac.
Qed.

Lemma frame_run_ops ops :
  Forall (frame_allowed insertable) ops -> preserves R (run_ops ops).
Proof.
  induction 1 as [|op ops Hop Hops IH]; simpl.
  - apply (preserves_ret R).
  - apply (preserves_bind R); [by apply frame_exec | done].
Qed.

End Frame.

(** ** update and the memory limits *)

Section MemoryLimits.

Lemma limits_rel_preorder : PreOrder limits_rel.
Proof.
  split.
  - intros s key v Hv. exists v. split; [done | lia].
  - intros s1 s2 s3 H12 H23 key v Hv.
    destruct (H12 _ _ Hv) as (v2 & Hv2 & Hle2).
    destruct (H23 _ _ Hv2) as (v3 & Hv3 & Hle3).
    exists v3. split; [done | lia].
Qed.

#[local] Existing Instance limits_rel_preorder.







(** What the memory block of [__update] does, case by case. *)
Lemma __update_memory_spec hierarchy cgroup r m s :
  mem r = Some m ->
  let limit := N.max m (MIN_MEMORY (constants s)) in
  let key := (hierarchy, cgroup) in
  exists result s',
    __update_memory (RSome hierarchy) (RSome cgroup) r s = Some (result, s') /\
    trace s' =
      trace s ++ CgroupWriteSoftLimit hierarchy cgroup limit ::
        (if raises_limit (host s) hierarchy cgroup limit
         then [CgroupWriteLimit hierarchy cgroup limit] else []) /\
    memory_soft_limit_in_bytes (host s') !! key =
      (fun _ => limit) <$> memory_soft_limit_in_bytes (host s) !! key /\
    memory_limit_in_bytes (host s') =
      (if raises_limit (host s) hierarchy cgroup limit
       then <[key := limit]> (memory_limit_in_bytes (host s))
       else memory_limit_in_bytes (host s)) /\
    (result = Ok tt <->
       is_Some (memory_soft_limit_in_bytes (host s) !! key) /\
       is_Some (memory_limit_in_bytes (host s) !! key)).
Proof.
  intros Hm limit key. unfold __update_memory. rewrite Hm.
  unfold raises_limit. fold key.
  unfold bind, gets, cgroups_memory_soft_limit_in_bytes_write,
    cgroups_memory_limit_in_bytes_read, cgroups_memory_limit_in_bytes_write,
    bind, gets, emit, ret.
  simpl_process. fold limit. fold key.
  destruct (memory_soft_limit_in_bytes (host s) !! key) as [soft|] eqn:Hsoft.
  - cbn [memory_limit_in_bytes set_memory_soft_limit_in_bytes
         memory_soft_limit_in_bytes]. simpl_process.
    cbn [memory_limit_in_bytes set_memory_soft_limit_in_bytes
         memory_soft_limit_in_bytes].
    destruct (memory_limit_in_bytes (host s) !! key) as [cur|] eqn:Hcur.
    + destruct (cur <? limit)%N eqn:Hlt.
      * cbn [memory_limit_in_bytes set_memory_soft_limit_in_bytes
             memory_soft_limit_in_bytes]. simpl_process.
        cbn [memory_limit_in_bytes set_memory_soft_limit_in_bytes
             memory_soft_limit_in_bytes]. rewrite Hcur.
        eexists _, _. split; [reflexivity|]. simpl_process.
        cbn [memory_limit_in_bytes set_memory_soft_limit_in_bytes
             set_memory_limit_in_bytes memory_soft_limit_in_bytes].
        rewrite <- app_assoc, lookup_insert_eq. by eauto 10.
      * eexists _, _. split; [reflexivity|]. simpl_process.
        cbn [memory_limit_in_bytes set_memory_soft_limit_in_bytes
             memory_soft_limit_in_bytes].
        rewrite lookup_insert_eq. by eauto 10.
    + eexists _, _. split; [reflexivity|]. simpl_process.
      cbn [memory_limit_in_bytes set_memory_soft_limit_in_bytes
           memory_soft_limit_in_bytes].
      rewrite lookup_insert_eq. repeat split; try done.
      intros [_ [? ?]]. done.
  - eexists _, _. split; [reflexivity|]. simpl_process.
    rewrite Hsoft. repeat split; try done.
    intros [[? ?] _]. done.
Qed.





End MemoryLimits.


(** ** destroy of an unknown container *)

(** C10: [destroy] of a ContainerID that is not registered returns and
    leaves the whole process as it was: the registry, every record, and
    the trace, to which no fulfilment of a promise is added. *)
Theorem destroy_unknown containerId killed s :
  containers_ s !! containerId = None ->
  destroy containerId killed s = Some (tt, s).
Proof.
  intros H. unfold destroy, bind, get_container, gets. by rewrite H.
Qed.

Lemma destroy_unknown_witness :
  destroy "B" true Example.running = Some (tt, Example.running).
Proof. apply destroy_unknown. vm_compute. reflexivity. Defined.

(** ** launch *)

(** C8 (as stated, refuted): a request without container info for a
    ContainerID that is registered fails; it does not return false. *)
Lemma launch_registered_not_false :
  ~ (forall containerId taskInfo executorInfo directory user slaveId slavePid
       checkpoint s,
       task_container taskInfo = None ->
       launch_task containerId taskInfo executorInfo directory user slaveId
         slavePid checkpoint s = Some (Ready false, s)).
Proof.
  intros H.
  specialize (H "A" Example.plainTaskInfo Example.executorInfo "/sandbox" None
                "S" "slave(1)@host" false Example.running eq_refl).
  apply (f_equal (fun o => match o with
                           | Some (Ready b, _) => Some b
                           | _ => None
                           end)) in H.
  vm_compute in H. discriminate H.
Qed.

(** C8 (amended): both overloads of [launch] fail with an error when a
    record for the ContainerID is registered, whatever the request; when
    none is registered and the container info is absent or its type is
    not DOCKER they return false and leave the process, hence the
    registry, as it was. *)
Theorem launch_not_docker :
  forall containerId taskInfo executorInfo directory user slaveId slavePid
    checkpoint s,
    (is_Some (containers_ s !! containerId) ->
     launch_task containerId taskInfo executorInfo directory user slaveId
       slavePid checkpoint s
       = Some (Failed "Container already started", s) /\
     launch_executor containerId executorInfo directory user slaveId
       slavePid checkpoint s
       = Some (Failed "Container already started", s)) /\
    (containers_ s !! containerId = None ->
     (task_container taskInfo = None \/
      exists info, task_container taskInfo = Some info /\ type info <> DOCKER) ->
     launch_task containerId taskInfo executorInfo directory user slaveId
       slavePid checkpoint s = Some (Ready false, s)) /\
    (containers_ s !! containerId = None ->
     (executor_container executorInfo = None \/
      exists info,
        executor_container executorInfo = Some info /\ type info <> DOCKER) ->
     launch_executor containerId executorInfo directory user slaveId
       slavePid checkpoint s = Some (Ready false, s)).
Proof.
  intros id t e d u sl sp ck s. split; [|split].
  - intros Hs. unfold launch_task, launch_executor, bind, get_container, gets.
    by rewrite bool_decide_eq_true_2.
  - intros Hs Ht. unfold launch_task, bind, get_container, gets.
    rewrite Hs, bool_decide_eq_false_2 by (by intros [? ?]).
    destruct Ht as [-> | (info & -> & Hinfo)]; [done|].
    by destruct (type info).
  - intros Hs He. unfold launch_executor, bind, get_container, gets.
    rewrite Hs, bool_decide_eq_false_2 by (by intros [? ?]).
    destruct He as [-> | (info & -> & Hinfo)]; [done|].
    by destruct (type info).
Qed.

Lemma launch_not_docker_witness :
  launch_task "A" Example.plainTaskInfo Example.executorInfo "/sandbox" None
    "S" "slave(1)@host" false Example.running
    = Some (Failed "Container already started", Example.running) /\
  launch_task "B" Example.plainTaskInfo Example.executorInfo "/sandbox" None
    "S" "slave(1)@host" false Example.running
    = Some (Ready false, Example.running) /\
  launch_executor "B" Example.mesosExecutorInfo "/sandbox" None
    "S" "slave(1)@host" false Example.running
    = Some (Ready false, Example.running).
Proof.
  split; [|split].
  - apply (launch_not_docker "A" Example.plainTaskInfo Example.executorInfo).
    vm_compute. eauto.
  - apply launch_not_docker; [vm_compute; reflexivity | by left].
  - apply (launch_not_docker "B" Example.plainTaskInfo);
      [vm_compute; reflexivity|].
    right. eexists. split; [reflexivity | discriminate].
Defined.

(** ** update and usage *)

Section UpdateUsage.

Lemma State_eqb_DESTROYING st :
  st <> DESTROYING -> State_eqb st DESTROYING = false.
Proof. by destruct st. Qed.

Lemma registry_rel_preorder : PreOrder registry_rel.
Proof.
  split; [by intros s|].
  intros s1 s2 s3 [H1 H2] [H3 H4]. split; congruence.
Qed.

#[local] Existing Instance registry_rel_preorder.

Lemma registry_emit a : preserves registry_rel (emit a).
Proof. by intros s [] s' [= <-]. Qed.

Lemma registry_set_host (f : Process -> Host) :
  preserves registry_rel (fun s => Some (tt, set_host (f s) s)).
Proof. by intros s [] s' [= <-]. Qed.

Hint Resolve registry_emit : preserves.
Hint Extern 1 (preserves registry_rel (fun s => Some (tt, set_host _ s))) =>
  apply (registry_set_host (fun _ => _)) : preserves.

(** [__update] writes cgroup files; it leaves the registry and the flags
    alone. *)
Lemma registry___update id r p : preserves registry_rel (__update id r p).
Proof.
  unfold __update, __update_cpu, __update_memory, cgroups_cpu_shares_write,
    cgroups_memory_soft_limit_in_bytes_write, cgroups_memory_limit_in_bytes_read,
    cgroups_memory_limit_in_bytes_write.
  preserves_tac.
Qed.

(** The first steps of [update] on a known container that is not
    DESTROYING and whose stored resources differ: the resources are
    stored, then the flag is looked at. *)
Lemma update_stores containerId r c s :
  containers_ s !! containerId = Some c ->
  Container.state c <> DESTROYING ->
  Resources_eqb (Container.resources c) r = false ->
  let stored :=
    set_containers
      (alter (Container.set_resources r) containerId (containers_ s)) s in
  update containerId r s =
    if bool_decide (is_Some (docker_mesos_image (flags s)))
    then Some (Ready tt, stored)
    else if negb (bool_decide (is_Some (cpus r)))
            && negb (bool_decide (is_Some (mem r)))
    then Some (Ready tt, stored)
    else match Container.pid c with
         | Some pid => __update containerId r pid stored
         | None =>
             Some (Pending,
                   set_trace
                     (trace s ++ [DockerInspect (Container.name c)]) stored)
         end.
Proof.
  intros Hc Hstate Hres stored.
  unfold update. unfold bind at 1. unfold get_container, gets. rewrite Hc.
  rewrite State_eqb_DESTROYING, Hres by done.
  unfold bind at 1 2, modify_container, gets. simpl_process. fold stored.
  destruct (bool_decide (is_Some (docker_mesos_image (flags s)))); [done|].
  destruct (negb (bool_decide (is_Some (cpus r)))
            && negb (bool_decide (is_Some (mem r)))); [done|].
  by destruct (Container.pid c).
Qed.

End UpdateUsage.

(** C5 (as stated, refuted): on a slave that runs in Docker itself,
    [update] of a running container with new resources does not leave
    the state unchanged: the stored resources change. *)
Lemma update_nested_not_unchanged :
  ~ (forall containerId r s,
       is_Some (docker_mesos_image (flags s)) ->
       update containerId r s = Some (Ready tt, s)).
Proof.
  intros H.
  specialize (H "A" Example.large Example.nested_running
                ltac:(vm_compute; eauto)).
  apply (f_equal (fun o => match o with
                           | Some (_, p) =>
                               Container.resources <$> containers_ p !! "A"
                           | None => None
                           end)) in H.
  vm_compute in H. discriminate H.
Qed.

(** C5 (amended): [update] returns unit, performs no action (so no
    cgroup write) and leaves the process unchanged when the container is
    unknown, is DESTROYING, or already has the requested resources; on a
    slave that runs in Docker itself it returns unit and performs no
    action, and stores the requested resources in the record, which is
    the only change; otherwise it stores the resources and goes on to the
    cgroup updates: nothing more without cpus and mem, [__update] with
    the cached pid, or [docker inspect] first. *)
Theorem update_short_circuits containerId r s :
  (containers_ s !! containerId = None ->
   update containerId r s = Some (Ready tt, s)) /\
  (forall c,
     containers_ s !! containerId = Some c ->
     Container.state c = DESTROYING ->
     update containerId r s = Some (Ready tt, s)) /\
  (forall c,
     containers_ s !! containerId = Some c ->
     Resources_eqb (Container.resources c) r = true ->
     update containerId r s = Some (Ready tt, s)) /\
  (forall c,
     containers_ s !! containerId = Some c ->
     Container.state c <> DESTROYING ->
     Resources_eqb (Container.resources c) r = false ->
     let stored :=
       set_containers
         (<[containerId := Container.set_resources r c]> (containers_ s)) s in
     (is_Some (docker_mesos_image (flags s)) ->
      update containerId r s = Some (Ready tt, stored)) /\
     (docker_mesos_image (flags s) = None ->
      update containerId r s =
        if negb (bool_decide (is_Some (cpus r)))
           && negb (bool_decide (is_Some (mem r)))
        then Some (Ready tt, stored)
        else match Container.pid c with
             | Some pid => __update containerId r pid stored
             | None =>
                 Some (Pending,
                       set_trace
                         (trace s ++ [DockerInspect (Container.name c)])
                         stored)
             end)).
Proof.
  split; [|split; [|split]].
  - intros Hc. unfold update, bind, get_container, gets. by rewrite Hc.
  - intros c Hc Hstate. unfold update, bind, get_container, gets.
    by rewrite Hc, Hstate.
  - intros c Hc Hres. unfold update, bind, get_container, gets.
    rewrite Hc, Hres. by destruct (State_eqb _ _).
  - intros c Hc Hstate Hres stored.
    assert (stored =
            set_containers
              (alter (Container.set_resources r) containerId (containers_ s))
              s) as ->.
    { unfold stored. f_equal. apply map_eq. intros i.
      rewrite lookup_alter, lookup_insert.
      case_decide; [by subst; rewrite Hc | done]. }
    rewrite (update_stores _ _ _ _ Hc Hstate Hres). split.
    + intros Hnested. by rewrite bool_decide_eq_true_2.
    + intros Hnested. rewrite Hnested.
      by rewrite bool_decide_eq_false_2 by (by intros [? ?]).
Qed.

Lemma update_short_circuits_witness :
  update "B" Example.large Example.running = Some (Ready tt, Example.running) /\
  update "A" Example.small Example.running = Some (Ready tt, Example.running) /\
  exists c,
    containers_ Example.nested_running !! "A" = Some c /\
    update "A" Example.large Example.nested_running
      = Some (Ready tt,
              set_containers
                (<["A" := Container.set_resources Example.large c]>
                   (containers_ Example.nested_running))
                Example.nested_running).
Proof.
  destruct (update_short_circuits "B" Example.large Example.running)
    as (H1 & _).
  destruct (update_short_circuits "A" Example.small Example.running)
    as (_ & _ & H3 & _).
  destruct (update_short_circuits "A" Example.large Example.nested_running)
    as (_ & _ & _ & H4).
  split; [apply H1; vm_compute; reflexivity|].
  split; [eapply H3; vm_compute; reflexivity|].
  assert (exists c,
            containers_ Example.nested_running !! "A" = Some c /\
            Container.state c = RUNNING /\
            Resources_eqb (Container.resources c) Example.large = false)
    as (c & Hc & Hstate & Hres).
  { vm_compute. eexists. split; [reflexivity|]. split; reflexivity. }
  exists c. split; [exact Hc|].
  apply (H4 c Hc); [by rewrite Hstate | exact Hres | vm_compute; eauto].
Defined.

(** C9 (as stated, refuted): on a slave that runs in Docker itself,
    [update] stores the new resources and writes no cgroup file, but a
    later [usage] reports empty statistics, without the new limits. *)
Lemma usage_nested_reports_no_limit :
  ~ (forall containerId r c m s result s1 stats s2,
       containers_ s !! containerId = Some c ->
       Container.state c <> DESTROYING ->
       Resources_eqb (Container.resources c) r = false ->
       mem r = Some m ->
       update containerId r s = Some (result, s1) ->
       usage containerId s1 = Some (Ready stats, s2) ->
       mem_limit_bytes stats = Some m).
Proof.
  intros H.
  assert (exists c s1,
            containers_ Example.nested_running !! "A" = Some c /\
            Container.state c = RUNNING /\
            Resources_eqb (Container.resources c) Example.large = false /\
            update "A" Example.large Example.nested_running
              = Some (Ready tt, s1) /\
            usage "A" s1 = Some (Ready ResourceStatistics_empty, s1))
    as (c & s1 & Hc & Hstate & Hres & Hupdate & Husage).
  { vm_compute. eexists _, _. repeat split; reflexivity. }
  specialize (H "A" Example.large c 134217728%N Example.nested_running
                (Ready tt) s1 ResourceStatistics_empty s1 Hc
                ltac:(by rewrite Hstate) Hres eq_refl Hupdate Husage).
  discriminate H.
Qed.

(** C9 (amended): for a known container that is not DESTROYING and whose
    stored resources differ from the requested ones, [update] returns
    with the requested resources stored in the record, whether or not the
    slave runs in Docker itself. On a slave that runs in Docker itself
    [update] then performs no action, and a later [usage] returns the
    empty statistics, with no limit in them. On any other slave the
    statistics that a later [usage], or its continuation [_usage],
    returns carry as [mem_limit_bytes] and [cpus_limit] the mem and cpus
    of the requested resources, whatever [update] wrote. *)
Theorem update_stores_resources_for_usage containerId r c s :
  containers_ s !! containerId = Some c ->
  Container.state c <> DESTROYING ->
  Resources_eqb (Container.resources c) r = false ->
  exists result s1,
    update containerId r s = Some (result, s1) /\
    containers_ s1 !! containerId = Some (Container.set_resources r c) /\
    (is_Some (docker_mesos_image (flags s)) ->
     result = Ready tt /\ trace s1 = trace s /\ host s1 = host s /\
     usage containerId s1 = Some (Ready ResourceStatistics_empty, s1)) /\
    (docker_mesos_image (flags s) = None ->
     forall stats s2,
       usage containerId s1 = Some (Ready stats, s2) \/
       (exists container,
          _usage containerId container s1 = Some (Ready stats, s2)) ->
       (forall m, mem r = Some m -> mem_limit_bytes stats = Some m) /\
       (forall q, cpus r = Some q -> cpus_limit stats = Some q)).
Proof.
  intros Hc Hstate Hres.
  set (stored := set_containers
                   (alter (Container.set_resources r) containerId
                      (containers_ s)) s).
  assert (containers_ stored !! containerId
          = Some (Container.set_resources r c)) as Hstored.
  { unfold stored. simpl_process. by rewrite lookup_alter_eq, Hc. }
  assert (exists result s1,
            update containerId r s = Some (result, s1) /\
            registry_rel stored s1 /\
            (is_Some (docker_mesos_image (flags s)) ->
             result = Ready tt /\ s1 = stored))
    as (result & s1 & Hupdate & [Hreg Hflags] & Hnested).
  { rewrite (update_stores _ _ _ _ Hc Hstate Hres). fold stored.
    case_bool_decide as Hn.
    - eexists _, _. by repeat split.
    - destruct (negb (bool_decide (is_Some (cpus r)))
                && negb (bool_decide (is_Some (mem r)))).
      + eexists _, _. by repeat split.
      + destruct (Container.pid c) as [pid|].
        * destruct (__update containerId r pid stored) as [[res s1]|] eqn:E.
          -- eexists _, _. split; [done|]. split; [|done].
             by eapply registry___update.
          -- exfalso. revert E.
             unfold __update, __update_cpu, __update_memory,
               cgroups_cpu_shares_write,
               cgroups_memory_soft_limit_in_bytes_write,
               cgroups_memory_limit_in_bytes_read,
               cgroups_memory_limit_in_bytes_write, bind, gets, emit, ret.
             repeat (case_match; simplify_eq/=); done.
        * eexists _, _. by repeat split. }
  assert (forall p stats s2,
            __usage containerId p s1 = Some (Ready stats, s2) ->
            (forall m, mem r = Some m -> mem_limit_bytes stats = Some m) /\
            (forall q, cpus r = Some q -> cpus_limit stats = Some q))
    as Husage.
  { intros p stats s2. unfold __usage, bind, get_container, gets, ret.
    rewrite Hreg, Hstored. destruct (usage_probe (host s1) p); [|done].
    intros [= <- <-]. cbn [Container.resources Container.set_resources].
    destruct (mem r), (cpus r); split; intros ? [= <-]; reflexivity. }
  exists result, s1. split; [done|]. split; [by rewrite Hreg|]. split.
  - intros Hn. destruct (Hnested Hn) as [-> ->]. repeat split; try done.
    unfold usage, bind, get_container, gets. rewrite Hstored.
    cbn [Container.state Container.set_resources].
    rewrite State_eqb_DESTROYING by done. unfold stored. simpl_process.
    by rewrite bool_decide_eq_true_2.
  - intros Hn stats s2 [H | [container H]].
    + revert H. unfold usage. unfold bind at 1. unfold get_container, gets.
      rewrite Hreg, Hstored. cbn [Container.state Container.set_resources].
      rewrite State_eqb_DESTROYING by done. unfold bind at 1. unfold gets.
      rewrite Hflags. unfold stored. simpl_process. rewrite Hn.
      rewrite bool_decide_eq_false_2 by (by intros [? ?]).
      change (Container.pid (Container.set_resources r c))
        with (Container.pid c).
      destruct (Container.pid c); [apply Husage | done].
    + revert H. unfold _usage. unfold bind at 1. unfold get_container, gets.
      rewrite Hreg, Hstored. cbn [Container.state Container.set_resources].
      rewrite State_eqb_DESTROYING by done.
      destruct (Docker.pid container) as [p|]; [|done].
      unfold bind at 1, modify_container.
      unfold __usage, bind, get_container, gets, ret. simpl_process.
      rewrite lookup_alter_eq, Hreg, Hstored. cbn [fmap option_fmap option_map].
      simpl_process.
      destruct (usage_probe (host s1) p); [|done].
      intros [= <- <-].
      cbn [Container.resources Container.set_resources Container.set_pid].
      destruct (mem r), (cpus r); split; intros ? [= <-]; reflexivity.
Qed.

Lemma update_stores_resources_for_usage_witness :
  exists c result s1,
    containers_ Example.running_with_pid !! "A" = Some c /\
    update "A" Example.large Example.running_with_pid = Some (result, s1) /\
    containers_ s1 !! "A" = Some (Container.set_resources Example.large c) /\
    forall stats s2,
      usage "A" s1 = Some (Ready stats, s2) ->
      mem_limit_bytes stats = Some 134217728%N /\
      cpus_limit stats = Some 2%Q.
Proof.
  assert (exists c,
            containers_ Example.running_with_pid !! "A" = Some c /\
            Container.state c = RUNNING /\
            Resources_eqb (Container.resources c) Example.large = false)
    as (c & Hc & Hstate & Hres).
  { vm_compute. eexists. split; [reflexivity|]. split; reflexivity. }
  destruct (update_stores_resources_for_usage "A" Example.large c
              Example.running_with_pid Hc ltac:(by rewrite Hstate) Hres)
    as (result & s1 & Hupdate & Hstored & _ & Husage).
  exists c, result, s1. split; [exact Hc|]. split; [exact Hupdate|].
  split; [exact Hstored|].
  intros stats s2 H.
  destruct (Husage ltac:(vm_compute; reflexivity) stats s2 (or_introl H))
    as [Hm Hq].
  split; [by apply Hm | by apply Hq].
Defined.

(** ** destroy while pulling *)

Section Absent.
Context (containerId : ContainerID).

Lemma absent_rel_preorder : PreOrder (absent_rel containerId).
Proof.
  split; [intros s H; exact H|].
  intros s1 s2 s3 H12 H23 H. by apply H23, H12.
Qed.

#[local] Existing Instance absent_rel_preorder.

Lemma absent_rel_same s s' :
  containers_ s' = containers_ s -> absent_rel containerId s s'.
Proof. intros H. unfold absent_rel. by rewrite H. Qed.

Lemma absent_emit a : preserves (absent_rel containerId) (emit a).
Proof. intros s [] s' [= <-]. by apply absent_rel_same. Qed.

Lemma absent_modify_container id f :
  preserves (absent_rel containerId) (modify_container id f).
Proof.
  intros s [] s' [= <-] H. simpl_process. rewrite lookup_alter.
  case_decide as Heq; [rewrite Heq|]; by rewrite H.
Qed.

Lemma absent_insert_container id c :
  id <> containerId ->
  preserves (absent_rel containerId) (insert_container id c).
Proof.
  intros Hid s [] s' [= <-] H. simpl_process.
  by rewrite lookup_insert_ne.
Qed.

Lemma absent_erase id : preserves (absent_rel containerId) (erase id).
Proof.
  intros s [] s' [= <-] H. simpl_process. rewrite lookup_delete.
  by case_decide.
Qed.

Lemma absent_cgroups_cpu_shares_write h c v :
  preserves (absent_rel containerId) (cgroups_cpu_shares_write h c v).
Proof.
  intros s r s'. unfold cgroups_cpu_shares_write, bind, emit, gets, ret.
  simpl_process. intros H. case_match; simplify_eq; by apply absent_rel_same.
Qed.

Lemma absent___update_memory h c r :
  preserves (absent_rel containerId) (__update_memory h c r).
Proof.
  intros s a s'.
  unfold __update_memory, cgroups_memory_soft_limit_in_bytes_write,
    cgroups_memory_limit_in_bytes_read, cgroups_memory_limit_in_bytes_write,
    bind, gets, emit, ret.
  intros H. repeat (case_match; simplify_eq/=); by apply absent_rel_same.
Qed.

(** No call other than a launch of the container or a recovery
    registers it. *)
Lemma absent_run_ops ops :
  Forall (fun op => registers containerId op = false) ops ->
  preserves (absent_rel containerId) (run_ops ops).
Proof.
  intros Hops.
  apply (frame_run_ops (absent_rel containerId) (fun id => id <> containerId)).
  - apply absent_emit.
  - apply absent_modify_container.
  - apply absent_insert_container.
  - apply absent_erase.
  - apply absent_cgroups_cpu_shares_write.
  - apply absent___update_memory.
  - eapply Forall_impl; [exact Hops|].
    intros op. destruct op; cbn; try done; by intros ?%String.eqb_neq.
Qed.

End Absent.

(** The record that [launch] registers and [_launch] moves to PULLING has
    its [run] future and its termination promise pending. *)
Lemma pulling_after_launch containerId e d u sl sp ck s r1 s1 r2 s2 :
  containers_ s !! containerId = None ->
  launch_executor containerId e d u sl sp ck s = Some (r1, s1) ->
  r1 = Pending ->
  _launch containerId s1 = Some (r2, s2) ->
  exists c,
    containers_ s2 !! containerId = Some c /\
    Container.state c = PULLING /\
    Container.run c = Pending /\
    Container.termination c = Pending.
Proof.
  intros Hs H1 -> H2. revert H1.
  unfold launch_executor, bind, get_container, gets. rewrite Hs.
  rewrite bool_decide_eq_false_2 by (by intros [? ?]).
  destruct (executor_container e) as [info|]; [|done].
  destruct (type info); [|done].
  unfold launch_accepted. unfold bind at 1.
  destruct (Container_create containerId None e d u sl sp ck s)
    as [[[c|msg] s0]|] eqn:E; [| done | done].
  assert (Container.state c = FETCHING /\ Container.run c = Pending /\
          Container.termination c = Pending) as (Hst & Hrun & Hterm).
  { revert E. unfold Container_create, try_bind, bind, gets, emit, ret.
    intros H. repeat (case_match; simplify_eq/=); done. }
  unfold insert_container, fetch, bind, emit, get_container, gets, CHECK, ret.
  simpl_process. rewrite lookup_insert_eq.
  rewrite bool_decide_eq_true_2 by eauto. intros [= <-].
  revert H2. unfold _launch, pull, bind, get_container, gets, emit,
    modify_container, ret. simpl_process. rewrite lookup_insert_eq.
  intros [= _ <-]. simpl_process. eexists. split.
  - rewrite !lookup_alter_eq, lookup_insert_eq. reflexivity.
  - done.
Qed.

(** C2: when [destroy(containerId, true)] runs on a record in PULLING
    (whose [run] has not failed and whose termination is pending, as for
    every record that [_launch] moved to PULLING), the pull is discarded,
    the termination promise is set to killed with the message "Container
    destroyed while pulling image", and the record is erased; from then
    on, as long as no launch or recovery registers the container again,
    it stays unregistered, and the continuation [__launch] of the pull
    fails with "Container was destroyed while pulling image" without any
    action, so without [docker run]. *)
Theorem destroy_while_pulling containerId c s :
  containers_ s !! containerId = Some c ->
  Container.state c = PULLING ->
  isFailed (Container.run c) = false ->
  Container.termination c = Pending ->
  exists s1,
    destroy containerId true s = Some (tt, s1) /\
    trace s1 =
      trace s ++
        [PullDiscard containerId;
         TerminationSet containerId
           (mkTermination true None "Container destroyed while pulling image");
         RegistryErase containerId] /\
    containers_ s1 = delete containerId (containers_ s) /\
    forall ops s2,
      Forall (fun op => registers containerId op = false) ops ->
      run_ops ops s1 = Some (tt, s2) ->
      containers_ s2 !! containerId = None /\
      __launch containerId s2
        = Some (Failed "Container was destroyed while pulling image", s2).
Proof.
  intros Hc Hstate Hrun Hterm.
  assert (exists s1,
    destroy containerId true s = Some (tt, s1) /\
    trace s1 =
      trace s ++
        [PullDiscard containerId;
         TerminationSet containerId
           (mkTermination true None "Container destroyed while pulling image");
         RegistryErase containerId] /\
    containers_ s1 = delete containerId (containers_ s))
    as (s1 & Hdestroy & Htrace & Hreg).
  { unfold destroy. unfold bind at 1. unfold get_container, gets.
    rewrite Hc, Hstate.
    destruct (Container.run c) eqn:Hr; [| |done|].
    all: unfold bind at 1 2, modify_container, emit; unfold bind.
    all: erewrite termination_set_pending; cycle 1;
      [simpl_process; by rewrite lookup_alter_eq, Hc | done |].
    all: rewrite erase_eq; eexists; split; [reflexivity|]; simpl_process.
    all: split; [by rewrite <- !app_assoc|]; by rewrite !delete_alter_eq. }
  exists s1. split; [done|]. split; [done|]. split; [done|].
  intros ops s2 Hops Hrun2.
  assert (containers_ s2 !! containerId = None) as Habsent.
  { apply (absent_run_ops containerId ops Hops _ _ _ Hrun2).
    rewrite Hreg. apply lookup_delete_eq. }
  split; [done|].
  unfold __launch, bind, get_container, gets. by rewrite Habsent.
Qed.

Lemma destroy_while_pulling_witness :
  exists s1,
    destroy "A" true Example.pulling = Some (tt, s1) /\
    trace s1 =
      trace Example.pulling ++
        [PullDiscard "A";
         TerminationSet "A"
           (mkTermination true None "Container destroyed while pulling image");
         RegistryErase "A"] /\
    containers_ s1 !! "A" = None /\
    __launch "A" s1
      = Some (Failed "Container was destroyed while pulling image", s1).
Proof.
  assert (exists c,
            containers_ Example.pulling !! "A" = Some c /\
            Container.state c = PULLING /\
            isFailed (Container.run c) = false /\
            Container.termination c = Pending)
    as (c & Hc & Hstate & Hrun & Hterm).
  { vm_compute. eexists. repeat split; reflexivity. }
  destruct (destroy_while_pulling "A" c Example.pulling Hc Hstate Hrun Hterm)
    as (s1 & Hdestroy & Htrace & _ & Hafter).
  destruct (Hafter [] s1 ltac:(constructor) eq_refl) as [Habsent Hlaunch].
  exists s1. repeat split; assumption.
Defined.

(** ** recover *)

Section Recover.






End Recover.



(** ** The examples, run *)

(** The five removal paths of C1, each with its one fulfilment followed
    by the erasure, and the registry empty afterwards. *)
Lemma removal_paths :
  (teardowns <$> (trace <$> Example.after Example.flags Example.run_failed_ops))
    = Some [TerminationSet "A"
              (mkTermination true None
                 "Failed to run container: docker run exited with status 125");
            RegistryErase "A"] /\
  (teardowns <$> (trace <$> Example.after Example.flags Example.fetching_ops))
    = Some [TerminationSet "A"
              (mkTermination true None "Container destroyed while fetching");
            RegistryErase "A"] /\
  (teardowns <$> (trace <$> Example.after Example.flags Example.pulling_ops))
    = Some [TerminationSet "A"
              (mkTermination true None
                 "Container destroyed while pulling image");
            RegistryErase "A"] /\
  (teardowns <$> (trace <$> Example.after Example.flags Example.stop_failed_ops))
    = Some [TerminationFail "A"
              "Failed to kill the Docker container: docker stop timed out";
            RegistryErase "A"] /\
  teardowns (trace Example.torn_down)
    = [TerminationSet "A" (mkTermination true (Some 137%Z) "Container killed");
       RegistryErase "A"] /\
  teardowns (trace Example.stopped) = [] /\
  dom (containers_ Example.stopped) = {["A"]} /\
  dom (containers_ Example.torn_down) = ∅.
Proof. vm_compute. repeat split; reflexivity. Qed.



(** * Further properties of the containerizer *)

(** ** Teardown, path by path *)

(** Unfolds the steps of a call down to the registry and the trace. *)
Ltac run_steps :=
  unfold termination_set, termination_fail, erase;
  unfold bind, get_container, gets, emit, modify_container, ret, CHECK;
  simpl_process.

Section TeardownPaths.

Lemma destroy_absent containerId killed s :
  containers_ s !! containerId = None ->
  destroy containerId killed s = Some (tt, s).
Proof. intros H. unfold destroy, bind, get_container, gets. by rewrite H. Qed.

(** After the promise was touched and the record erased, the container
    is not registered. *)
Lemma set_erase_absent containerId t s s1 :
  (termination_set containerId t ;; erase containerId) s = Some (tt, s1) ->
  containers_ s1 !! containerId = None.
Proof.
  run_steps. intros H.
  repeat (case_match; simplify_eq/=); simpl_process; apply lookup_delete_eq.
Qed.

End TeardownPaths.

(** X1: a [destroy] that follows a [destroy] of the same container
    changes nothing, whatever the first one did (nothing, the move to
    DESTROYING, or the removal of the record). *)
Theorem destroy_idempotent containerId killed killed' s s1 :
  destroy containerId killed s = Some (tt, s1) ->
  destroy containerId killed' s1 = Some (tt, s1).
Proof.
  unfold destroy at 1. unfold bind at 1. unfold get_container, gets.
  destruct (containers_ s !! containerId) as [c|] eqn:Hc;
    [|intros [= <-]; by apply destroy_absent].
  assert (forall t s0,
            (termination_set containerId t ;; erase containerId) s0
              = Some (tt, s1) ->
            destroy containerId killed' s1 = Some (tt, s1)) as Hremoved.
  { intros t s0 H. apply destroy_absent. by eapply set_erase_absent. }
  assert (Container.state c = RUNNING -> isFailed (Container.run c) = false ->
          (emit (DockerStop (Container.executorName c) 0 false) ;;
           modify_container containerId (Container.set_state DESTROYING) ;;
           match Container.executorPid c with
           | Some pid => emit (KillTree pid)
           | None => ret tt
           end) s = Some (tt, s1) ->
          destroy containerId killed' s1 = Some (tt, s1)) as Hrunning.
  { intros _ Hrun H.
    assert (containers_ s1 !! containerId
            = Some (Container.set_state DESTROYING c)) as Hc1.
    { revert H. unfold bind, emit, modify_container, ret.
      destruct (Container.executorPid c); intros [= <-]; simpl_process;
        by rewrite lookup_alter_eq, Hc. }
    unfold destroy, bind, get_container, gets. rewrite Hc1.
    cbn [Container.run Container.set_state Container.state].
    by destruct (Container.run c). }
  destruct (Container.run c) eqn:Hrun.
  1,2,4: destruct (Container.state c) eqn:Hstate;
    [unfold bind at 1, emit; by apply Hremoved
    |unfold bind at 1 2, emit, modify_container; by apply Hremoved
    |by apply Hrunning
    |intros [= <-]; unfold destroy, bind, get_container, gets;
     by rewrite Hc, Hrun, Hstate].
  unfold bind at 1, CHECK. case_bool_decide; [|done]. by apply Hremoved.
Qed.

Lemma destroy_idempotent_witness :
  exists s1,
    destroy "A" true Example.running = Some (tt, s1) /\
    destroy "A" false s1 = Some (tt, s1).
Proof.
  destruct (destroy "A" true Example.running) as [[[] s1]|] eqn:E;
    [|vm_compute in E; discriminate E].
  exists s1. split; [reflexivity|].
  exact (destroy_idempotent "A" true false Example.running s1 E).
Defined.

(** [destroy] on a record in FETCHING, as an equation. *)
Lemma destroy_fetching_eq containerId killed c s :
  containers_ s !! containerId = Some c ->
  Container.state c = FETCHING ->
  isFailed (Container.run c) = false ->
  Container.termination c = Pending ->
  destroy containerId killed s =
    Some (tt,
          set_trace
            (trace s ++
               [FetcherKill containerId;
                TerminationSet containerId
                  (mkTermination killed None
                     "Container destroyed while fetching");
                RegistryErase containerId])
            (set_containers (delete containerId (containers_ s)) s)).
Proof.
  intros Hc Hstate Hrun Hterm.
  unfold destroy. unfold bind at 1. unfold get_container, gets.
  rewrite Hc, Hstate.
  destruct (Container.run c) eqn:Hr; [| |done|].
  all: unfold bind at 1, emit; unfold bind.
  all: erewrite termination_set_pending; cycle 1;
    [simpl_process; exact Hc | done |].
  all: rewrite erase_eq; simpl_process.
  all: by rewrite delete_alter_eq, <- !app_assoc.
Qed.

(** X2: when [destroy] runs on a record in FETCHING (whose [run] has not
    failed and whose termination is pending), the fetcher is told to
    kill the fetch, the termination is set to "Container destroyed while
    fetching" with the given [killed], and the record is erased; as long
    as the container is not launched or recovered again, the
    continuation [_launch] of the fetch then fails with "Container was
    destroyed while launching" and does nothing, so no image is pulled. *)
Theorem destroy_while_fetching containerId killed c s :
  containers_ s !! containerId = Some c ->
  Container.state c = FETCHING ->
  isFailed (Container.run c) = false ->
  Container.termination c = Pending ->
  exists s1,
    destroy containerId killed s = Some (tt, s1) /\
    trace s1 =
      trace s ++
        [FetcherKill containerId;
         TerminationSet containerId
           (mkTermination killed None "Container destroyed while fetching");
         RegistryErase containerId] /\
    containers_ s1 = delete containerId (containers_ s) /\
    host s1 = host s /\
    forall ops s2,
      Forall (fun op => registers containerId op = false) ops ->
      run_ops ops s1 = Some (tt, s2) ->
      _launch containerId s2
        = Some (Failed "Container was destroyed while launching", s2).
Proof.
  intros Hc Hstate Hrun Hterm.
  eexists. split; [by apply (destroy_fetching_eq _ _ c)|].
  simpl_process. do 3 (split; [done|]).
  intros ops s2 Hops Hrun2.
  assert (containers_ s2 !! containerId = None) as Habsent.
  { apply (absent_run_ops containerId ops Hops _ _ _ Hrun2).
    simpl_process. apply lookup_delete_eq. }
  unfold _launch, bind, get_container, gets. by rewrite Habsent.
Qed.

Lemma destroy_while_fetching_witness :
  exists s1,
    destroy "A" true Example.fetching = Some (tt, s1) /\
    containers_ s1 = delete "A" (containers_ Example.fetching) /\
    _launch "A" s1
      = Some (Failed "Container was destroyed while launching", s1).
Proof.
  assert (exists c,
            containers_ Example.fetching !! "A" = Some c /\
            Container.state c = FETCHING /\
            isFailed (Container.run c) = false /\
            Container.termination c = Pending)
    as (c & Hc & Hstate & Hrun & Hterm).
  { vm_compute. eexists. repeat split; reflexivity. }
  destruct (destroy_while_fetching "A" true c Example.fetching Hc Hstate
              Hrun Hterm) as (s1 & Hdestroy & _ & Hreg & _ & Hafter).
  exists s1. split; [exact Hdestroy|]. split; [exact Hreg|].
  exact (Hafter [] s1 ltac:(constructor) eq_refl).
Defined.

(** [destroy] on a record whose [run] has failed and whose promises are
    unset: the cleanup path. *)
Lemma destroy_run_failed_eq containerId killed c failure s :
  containers_ s !! containerId = Some c ->
  Container.run c = Failed failure ->
  Container.status c = None ->
  Container.termination c = Pending ->
  destroy containerId killed s =
    Some (tt,
          set_trace
            (trace s ++
               [TerminationSet containerId
                  (mkTermination killed None
                     ("Failed to run container: " +:+ failure));
                RegistryErase containerId])
            (set_containers (delete containerId (containers_ s)) s)).
Proof.
  intros Hc Hrun Hstatus Hterm. unfold destroy. unfold bind at 1.
  unfold get_container, gets. rewrite Hc, Hrun, Hstatus.
  rewrite bool_decide_eq_true_2 by done. unfold bind at 1. cbn [CHECK ret].
  unfold bind. rewrite (termination_set_pending _ _ _ _ Hc Hterm), erase_eq.
  simpl_process. by rewrite delete_alter_eq, <- app_assoc.
Qed.

(** X3: when the [run] future of a record has failed, [destroy] takes the
    cleanup path whatever the state of the record, DESTROYING included:
    with the status promise unset it sets the termination to "Failed to
    run container: " followed by the failure of [run], erases the
    record, and stops or kills nothing; with the status promise set its
    CHECK fails and the process aborts. *)
Theorem destroy_run_failed containerId killed c failure s :
  containers_ s !! containerId = Some c ->
  Container.run c = Failed failure ->
  (Container.status c = None ->
   Container.termination c = Pending ->
   destroy containerId killed s =
     Some (tt,
           set_trace
             (trace s ++
                [TerminationSet containerId
                   (mkTermination killed None
                      ("Failed to run container: " +:+ failure));
                 RegistryErase containerId])
             (set_containers (delete containerId (containers_ s)) s))) /\
  (is_Some (Container.status c) -> destroy containerId killed s = None).
Proof.
  intros Hc Hrun. split.
  - by apply destroy_run_failed_eq.
  - intros [p Hstatus]. unfold destroy, bind, get_container, gets.
    rewrite Hc, Hrun, Hstatus. by rewrite bool_decide_eq_false_2.
Qed.

(** X4: the teardown of a RUNNING container whose executor is being
    reaped, call by call: [destroy] stops the executor container with
    no grace period, marks the record DESTROYING and SIGTERMs the
    executor pid if there is one; [_destroy] stops the container with
    [docker_stop_timeout]; [__destroy] on a successful stop waits for
    the exit status; [___destroy] sets the termination (killed as given,
    the exit status when the reaper delivered one, "Container killed" or
    "Container terminated"), erases the record and schedules the delayed
    removal of both Docker containers. *)
Theorem teardown_of_running containerId killed exitStatus c pid s :
  containers_ s !! containerId = Some c ->
  Container.state c = RUNNING ->
  isFailed (Container.run c) = false ->
  Container.status c = Some pid ->
  Container.termination c = Pending ->
  run_ops [ODestroy containerId killed; O_destroy containerId killed;
           O__destroy containerId killed (Ready tt);
           O___destroy containerId killed exitStatus] s =
    Some (tt,
          set_trace
            (trace s ++
               [DockerStop (Container.executorName c) 0 false] ++
               match Container.executorPid c with
               | Some executorPid => [KillTree executorPid]
               | None => []
               end ++
               [DockerStop (Container.name c) (docker_stop_timeout (flags s))
                  false;
                TerminationSet containerId
                  (mkTermination killed
                     match exitStatus with
                     | Ready (Some status) => Some status
                     | _ => None
                     end
                     (if killed then "Container killed"
                      else "Container terminated"));
                RegistryErase containerId;
                DelayRemove (docker_remove_delay (flags s)) (Container.name c)
                  (Container.executorName c)])
            (set_containers (delete containerId (containers_ s)) s)).
Proof.
  intros Hc Hstate Hrun Hstatus Hterm.
  set (c' := Container.set_state DESTROYING c).
  set (t1 := trace s ++ [DockerStop (Container.executorName c) 0 false] ++
             match Container.executorPid c with
             | Some executorPid => [KillTree executorPid]
             | None => []
             end).
  set (s1 := set_trace t1
               (set_containers
                  (alter (Container.set_state DESTROYING) containerId
                     (containers_ s)) s)).
  assert (destroy containerId killed s = Some (tt, s1)) as H1.
  { unfold destroy. unfold bind at 1. unfold get_container, gets.
    rewrite Hc, Hstate. unfold s1, t1.
    destruct (Container.run c); try done;
      destruct (Container.executorPid c); run_steps;
      by rewrite <- ?app_assoc, ?app_nil_r. }
  assert (containers_ s1 !! containerId = Some c') as Hc1.
  { unfold s1. simpl_process. by rewrite lookup_alter_eq, Hc. }
  set (s2 := set_trace
               (trace s1 ++
                  [DockerStop (Container.name c)
                     (docker_stop_timeout (flags s)) false]) s1).
  assert (_destroy containerId killed s1 = Some (tt, s2)) as H2.
  { unfold _destroy, bind, get_container, gets. rewrite Hc1.
    rewrite bool_decide_eq_true_2 by eauto. cbn [CHECK ret].
    unfold c'. cbn [Container.state Container.set_state State_eqb].
    reflexivity. }
  assert (__destroy containerId killed (Ready tt) s2 = Some (tt, s2)) as H3.
  { unfold __destroy, bind, get_container, gets.
    change (containers_ s2) with (containers_ s1). rewrite Hc1.
    rewrite bool_decide_eq_true_2 by eauto. cbn [CHECK ret isReady negb].
    unfold c'. cbn [Container.status Container.set_state].
    rewrite Hstatus. by rewrite bool_decide_eq_true_2 by eauto. }
  cbn [run_ops exec]. unfold bind at 1. rewrite H1.
  unfold bind at 1. rewrite H2. unfold bind at 1. rewrite H3.
  unfold bind at 1. unfold ___destroy. unfold bind at 1 2.
  unfold get_container, gets.
  change (containers_ s2) with (containers_ s1). rewrite Hc1.
  rewrite bool_decide_eq_true_2 by eauto. cbn [CHECK ret]. cbv zeta.
  unfold bind at 1.
  erewrite termination_set_pending; [|exact Hc1|exact Hterm].
  unfold bind at 1. rewrite erase_eq. unfold bind, gets, emit, ret.
  simpl_process. unfold s2, s1, t1. simpl_process.
  rewrite delete_alter_eq, delete_alter_eq.
  do 2 f_equal. unfold set_trace, set_containers. simpl_process.
  f_equal. by rewrite <- !app_assoc.
Qed.

Lemma teardown_of_running_witness :
  run_ops [ODestroy "A" true; O_destroy "A" true;
           O__destroy "A" true (Ready tt); Example.reapedA] Example.running
  = Some (tt, Example.torn_down).
Proof.
  assert (exists c,
            containers_ Example.running !! "A" = Some c /\
            Container.state c = RUNNING /\
            isFailed (Container.run c) = false /\
            Container.status c = Some 99%Z /\
            Container.termination c = Pending)
    as (c & Hc & Hstate & Hrun & Hstatus & Hterm).
  { vm_compute. eexists. repeat split; reflexivity. }
  unfold Example.reapedA.
  rewrite (teardown_of_running "A" true (Ready (Some 137%Z)) c 99%Z
             Example.running Hc Hstate Hrun Hstatus Hterm).
  vm_compute in Hc. injection Hc as <-. vm_compute. reflexivity.
Defined.

(** X5: [__destroy] when [docker stop] did not succeed: the termination
    of the record is failed with "Failed to kill the Docker container: "
    followed by the failure of the stop (or "discarded future"), the
    record is erased and the delayed removal of both Docker containers
    is still scheduled. When the stop succeeded but the status promise
    of the record was never set, its CHECK fails and the process
    aborts. *)
Theorem stop_failed_teardown containerId killed kill c s :
  containers_ s !! containerId = Some c ->
  (isReady kill = false ->
   Container.termination c = Pending ->
   __destroy containerId killed kill s =
     Some (tt,
           set_trace
             (trace s ++
                [TerminationFail containerId
                   ("Failed to kill the Docker container: " +:+
                      match kill with
                      | Failed failure => failure
                      | _ => "discarded future"
                      end);
                 RegistryErase containerId;
                 DelayRemove (docker_remove_delay (flags s))
                   (Container.name c) (Container.executorName c)])
             (set_containers (delete containerId (containers_ s)) s))) /\
  (isReady kill = true -> Container.status c = None ->
   __destroy containerId killed kill s = None).
Proof.
  intros Hc. split.
  - intros Hkill Hterm. unfold __destroy. unfold bind at 1 2.
    unfold get_container, gets. rewrite Hc.
    rewrite bool_decide_eq_true_2 by eauto. cbn [CHECK ret]. rewrite Hkill.
    cbn [negb]. unfold bind at 1.
    rewrite (termination_fail_pending _ _ _ _ Hc Hterm).
    unfold bind at 1. rewrite erase_eq. unfold bind, gets, emit.
    simpl_process. rewrite delete_alter_eq. do 2 f_equal.
    unfold set_trace, set_containers. simpl_process. f_equal.
    by rewrite <- !app_assoc.
  - intros Hkill Hstatus. unfold __destroy, bind, get_container, gets.
    rewrite Hc, Hkill, Hstatus. rewrite bool_decide_eq_true_2 by eauto.
    cbn [CHECK ret negb]. by rewrite bool_decide_eq_false_2 by (by intros [? ?]).
Qed.

Lemma destroy_run_failed_witness :
  (exists s1,
     destroy "A" true Scenario.run_failed = Some (tt, s1) /\
     containers_ s1 = delete "A" (containers_ Scenario.run_failed)) /\
  destroy "A" true Scenario.run_failed_late = None.
Proof.
  assert (exists c,
            containers_ Scenario.run_failed !! "A" = Some c /\
            Container.run c = Failed "docker run exited with status 125" /\
            Container.status c = None /\
            Container.termination c = Pending)
    as (c & Hc & Hrun & Hstatus & Hterm).
  { vm_compute. eexists. repeat split; reflexivity. }
  assert (exists c,
            containers_ Scenario.run_failed_late !! "A" = Some c /\
            Container.run c = Failed "docker run exited with status 1" /\
            is_Some (Container.status c))
    as (c' & Hc' & Hrun' & Hstatus').
  { vm_compute. eexists. repeat split; eauto. }
  split.
  - eexists. split;
      [exact (proj1 (destroy_run_failed "A" true c _ _ Hc Hrun) Hstatus Hterm)
      |reflexivity].
  - exact (proj2 (destroy_run_failed "A" true c' _ _ Hc' Hrun') Hstatus').
Defined.

Lemma stop_failed_teardown_witness :
  (exists s1,
     __destroy "A" true (Failed "docker stop timed out") Scenario.stopping
       = Some (tt, s1) /\
     containers_ s1 = delete "A" (containers_ Scenario.stopping)) /\
  __destroy "A" true (Ready tt) Scenario.stopping_unreaped = None.
Proof.
  assert (exists c,
            containers_ Scenario.stopping !! "A" = Some c /\
            Container.termination c = Pending) as (c & Hc & Hterm).
  { vm_compute. eexists. repeat split; reflexivity. }
  assert (exists c,
            containers_ Scenario.stopping_unreaped !! "A" = Some c /\
            Container.status c = None) as (c' & Hc' & Hstatus').
  { vm_compute. eexists. repeat split; reflexivity. }
  split.
  - eexists. split;
      [exact (proj1 (stop_failed_teardown "A" true
                      (Failed "docker stop timed out") c _ Hc) eq_refl Hterm)
      |reflexivity].
  - exact (proj2 (stop_failed_teardown "A" true (Ready tt) c' _ Hc')
             eq_refl Hstatus').
Defined.

(** ** launch *)

Section Launch.

(** [Container::create] never touches the registry or the host, and the
    record it returns is the one built from its arguments, in the
    sandbox directory or, when that has a colon, in the symlink. *)
Lemma Container_create_spec id t e d u sl sp ck s r s' :
  Container_create id t e d u sl sp ck s = Some (r, s') ->
  containers_ s' = containers_ s /\ host s' = host s /\ flags s' = flags s /\
  forall c, r = Ok c ->
    c = Container.create_record id t e
          (if strings.contains d ":"
           then path_join
                  (path_join (getSlavePath (work_dir (flags s)) sl)
                     DOCKER_SYMLINK_DIRECTORY) id
           else d)
          u sl sp ck (strings.contains d ":").
Proof.
  unfold Container_create, try_bind, bind, gets, emit, ret.
  intros H. repeat (case_match; simplify_eq/=); simpl_process;
    repeat split; try done; intros c [= <-]; reflexivity.
Qed.

(** [launch], once the request is accepted: either the preparation of
    the sandbox fails and nothing is registered, or the record is
    registered in FETCHING and the fetch is started. *)
Lemma launch_accepted_spec id t e d u sl sp ck s r s' :
  launch_accepted id t e d u sl sp ck s = Some (r, s') ->
  (exists msg,
     r = Failed ("Failed to create container: " +:+ msg) /\
     containers_ s' = containers_ s) \/
  (exists c s0,
     Container_create id t e d u sl sp ck s = Some (Ok c, s0) /\
     r = Pending /\
     s' = set_trace
            (trace s0 ++ [RegistryInsert id;
                          FetcherFetch id (Container.directory c)])
            (set_containers (<[id := c]> (containers_ s0)) s0)).
Proof.
  unfold launch_accepted. unfold bind at 1.
  destruct (Container_create id t e d u sl sp ck s) as [[[c|msg] s0]|] eqn:E;
    [| |done].
  - intros H. right. exists c, s0. split; [done|]. revert H.
    unfold insert_container, fetch, bind, emit, get_container, gets, CHECK, ret.
    simpl_process. rewrite lookup_insert_eq.
    rewrite bool_decide_eq_true_2 by eauto. intros [= <- <-].
    split; [done|]. by rewrite <- app_assoc.
  - intros [= <- <-]. left. exists msg. split; [done|].
    by apply Container_create_spec in E as (-> & _).
Qed.

End Launch.

(** X6: [launch] of a ContainerID that is not registered registers a
    record exactly when it returns its pending chain: the record is then
    in FETCHING, carries the resources of the task when the container
    wraps one and of the executor otherwise, has both promises unset,
    and the fetch has been started in its directory. A launch that
    returns false or fails, the failure of the sandbox preparation
    included, leaves the registry as it was. *)
Theorem launch_registers_iff_pending containerId executorInfo directory user
    slaveId slavePid checkpoint s :
  containers_ s !! containerId = None ->
  (forall taskInfo r s',
     launch_task containerId taskInfo executorInfo directory user slaveId
       slavePid checkpoint s = Some (r, s') ->
     (r <> Pending /\ containers_ s' = containers_ s) \/
     (r = Pending /\
      exists c,
        containers_ s' = <[containerId := c]> (containers_ s) /\
        Container.state c = FETCHING /\
        Container.id c = containerId /\
        Container.slaveId c = slaveId /\
        Container.resources c = task_resources taskInfo /\
        Container.status c = None /\
        Container.termination c = Pending /\
        last (trace s') = Some (FetcherFetch containerId (Container.directory c)))) /\
  (forall r s',
     launch_executor containerId executorInfo directory user slaveId
       slavePid checkpoint s = Some (r, s') ->
     (r <> Pending /\ containers_ s' = containers_ s) \/
     (r = Pending /\
      exists c,
        containers_ s' = <[containerId := c]> (containers_ s) /\
        Container.state c = FETCHING /\
        Container.id c = containerId /\
        Container.slaveId c = slaveId /\
        Container.resources c = executor_resources executorInfo /\
        Container.status c = None /\
        Container.termination c = Pending /\
        last (trace s') = Some (FetcherFetch containerId (Container.directory c)))).
Proof.
  intros Hs.
  assert (forall t r s',
            launch_accepted containerId t executorInfo directory user slaveId
              slavePid checkpoint s = Some (r, s') ->
            (r <> Pending /\ containers_ s' = containers_ s) \/
            (r = Pending /\
             exists c,
               containers_ s' = <[containerId := c]> (containers_ s) /\
               Container.state c = FETCHING /\
               Container.id c = containerId /\
               Container.slaveId c = slaveId /\
               Container.resources c =
                 match t with
                 | Some task => task_resources task
                 | None => executor_resources executorInfo
                 end /\
               Container.status c = None /\
               Container.termination c = Pending /\
               last (trace s')
                 = Some (FetcherFetch containerId (Container.directory c))))
    as Haccepted.
  { intros t r s' H.
    apply launch_accepted_spec in H
      as [(msg & -> & Hreg) | (c & s0 & Hcreate & -> & ->)]; [by left|].
    right. split; [done|]. exists c.
    apply Container_create_spec in Hcreate as (Hreg & _ & _ & Hrecord).
    rewrite (Hrecord c eq_refl). simpl_process. rewrite Hreg.
    repeat split; try done.
    by rewrite last_app. }
  split.
  - intros t r s'. unfold launch_task, bind, get_container, gets. rewrite Hs.
    rewrite bool_decide_eq_false_2 by (by intros [? ?]).
    destruct (task_container t) as [info|]; [|intros [= <- <-]; by left].
    destruct (type info); [apply Haccepted | intros [= <- <-]; by left].
  - intros r s'. unfold launch_executor, bind, get_container, gets. rewrite Hs.
    rewrite bool_decide_eq_false_2 by (by intros [? ?]).
    destruct (executor_container executorInfo) as [info|];
      [|intros [= <- <-]; by left].
    destruct (type info); [apply Haccepted | intros [= <- <-]; by left].
Qed.

Lemma launch_registers_iff_pending_witness :
  (exists s' c,
     launch_task "B" Scenario.dockerTaskInfo Example.executorInfo "/sandbox"
       None "S" "slave(1)@host" false Example.running = Some (Pending, s') /\
     containers_ s' = <["B" := c]> (containers_ Example.running) /\
     Container.resources c = Example.large) /\
  (exists r s',
     launch_executor "B" Example.executorInfo "/sandbox" None "S"
       "slave(1)@host" false
       (spawned Example.flags Example.constants Scenario.read_only_host)
     = Some (r, s') /\
     containers_ s' = ∅).
Proof.
  split.
  - destruct (launch_task "B" Scenario.dockerTaskInfo Example.executorInfo
                "/sandbox" None "S" "slave(1)@host" false Example.running)
      as [[r s']|] eqn:E; [|vm_compute in E; discriminate E].
    destruct (proj1 (launch_registers_iff_pending "B" Example.executorInfo
                       "/sandbox" None "S" "slave(1)@host" false
                       Example.running ltac:(vm_compute; reflexivity))
                _ _ _ E) as [[Hr _] | [-> (c & Hreg & _ & _ & _ & Hres & _)]].
    + exfalso. apply Hr. vm_compute in E. by injection E as <- _.
    + by exists s', c.
  - destruct (launch_executor "B" Example.executorInfo "/sandbox" None "S"
                "slave(1)@host" false
                (spawned Example.flags Example.constants
                   Scenario.read_only_host))
      as [[r s']|] eqn:E; [|vm_compute in E; discriminate E].
    destruct (proj2 (launch_registers_iff_pending "B" Example.executorInfo
                       "/sandbox" None "S" "slave(1)@host" false
                       (spawned Example.flags Example.constants
                          Scenario.read_only_host)
                       ltac:(vm_compute; reflexivity))
                _ _ E) as [[_ Hreg] | [-> _]].
    + by exists r, s'.
    + exfalso. vm_compute in E. discriminate E.
Defined.



(** X8: a successful [Container::create] has touched stdout and stderr
    in the sandbox, chowned the sandbox when a user was given, created
    the directory of the symlinks when it did not exist, and, only when
    the sandbox path has a colon, symlinked the sandbox to
    [<links>/<containerId>], in this order and nothing else. The record
    then lives in the symlink and is marked as symlinked; otherwise it
    lives in the sandbox itself. *)
Theorem Container_create_prepares_sandbox id taskInfo executorInfo directory
    user slaveId slavePid checkpoint c s s' :
  Container_create id taskInfo executorInfo directory user slaveId slavePid
    checkpoint s = Some (Ok c, s') ->
  trace s' =
    trace s ++ sandbox_preparation (host s) (flags s) id directory user slaveId /\
  Container.symlinked c = strings.contains directory ":" /\
  Container.directory c =
    (if strings.contains directory ":"
     then path_join
            (path_join (getSlavePath (work_dir (flags s)) slaveId)
               DOCKER_SYMLINK_DIRECTORY) id
     else directory) /\
  Container.state c = FETCHING /\
  Container.id c = id.
Proof.
  intros H. split.
  - revert H. unfold sandbox_preparation.
    unfold Container_create, try_bind, bind, gets, emit, ret, prefix_error.
    intros H. repeat (case_match; simplify_eq/=); simpl_process;
      by rewrite <- ?app_assoc.
  - apply Container_create_spec in H as (_ & _ & _ & Hrecord).
    rewrite (Hrecord c eq_refl). done.
Qed.

Lemma Container_create_prepares_sandbox_witness :
  exists c s',
    Container_create "A" None Example.executorInfo "/mnt/c:/sandbox"
      (Some "nobody") "S" "slave(1)@host" false
      (spawned Example.flags Example.constants Example.host) = Some (Ok c, s') /\
    Container.symlinked c = true /\
    last (trace s') = Some (Symlink "/mnt/c:/sandbox" (Container.directory c)).
Proof.
  destruct (Container_create "A" None Example.executorInfo "/mnt/c:/sandbox"
              (Some "nobody") "S" "slave(1)@host" false
              (spawned Example.flags Example.constants Example.host))
    as [[[c|e] s']|] eqn:E; [|vm_compute in E; discriminate E..].
  destruct (Container_create_prepares_sandbox _ _ _ _ _ _ _ _ _ _ _ E)
    as (Htrace & Hsym & Hdir & _).
  exists c, s'. split; [reflexivity|]. split; [exact Hsym|].
  rewrite Htrace, Hdir. vm_compute. reflexivity.
Defined.

(** ** update *)

Section Update.

Lemma option_eqb_refl {A} (eqb : A -> A -> bool) x :
  (forall a, eqb a a = true) -> option_eqb eqb x x = true.
Proof. intros H. destruct x; [apply H | done]. Qed.

Lemma Resources_eqb_refl r : Resources_eqb r r = true.
Proof.
  unfold Resources_eqb.
  rewrite !option_eqb_refl; [done | apply N.eqb_refl |].
  intros a. apply Qeq_bool_iff. reflexivity.
Qed.

(** What [update] does to the registry: it returns at once and does
    nothing, or the resources of the record are stored. *)
Lemma update_registry containerId r s result s1 :
  update containerId r s = Some (result, s1) ->
  (result = Ready tt /\ s1 = s) \/
  (exists c,
     containers_ s !! containerId = Some c /\
     Container.state c <> DESTROYING /\
     Resources_eqb (Container.resources c) r = false /\
     flags s1 = flags s /\
     containers_ s1 =
       alter (Container.set_resources r) containerId (containers_ s)).
Proof.
  destruct (containers_ s !! containerId) as [c|] eqn:Hc.
  2: { unfold update, bind, get_container, gets. rewrite Hc.
       intros [= <- <-]. by left. }
  destruct (State_eqb (Container.state c) DESTROYING) eqn:Hstate.
  { unfold update, bind, get_container, gets. rewrite Hc, Hstate.
    intros [= <- <-]. by left. }
  destruct (Resources_eqb (Container.resources c) r) eqn:Hres.
  { unfold update, bind, get_container, gets. rewrite Hc, Hstate, Hres.
    intros [= <- <-]. by left. }
  assert (Container.state c <> DESTROYING) as Hne.
  { intros Heq. by rewrite Heq in Hstate. }
  rewrite (update_stores containerId r c s Hc Hne Hres). cbv zeta.
  intros H.
  assert (registry_rel
            (set_containers
               (alter (Container.set_resources r) containerId (containers_ s)) s)
            s1) as [Hreg Hflags].
  { repeat case_match; simplify_eq; try done.
    by eapply registry___update. }
  simpl_process. right. by exists c.
Qed.

End Update.

(** X9: [update] stores the resources before it writes anything, so
    repeating an update with the same resources does nothing at all,
    whatever the first one returned: its cgroup writes are not retried
    when they failed, nor is the inspection when it was still pending. *)
Theorem update_twice containerId r s result s1 :
  update containerId r s = Some (result, s1) ->
  update containerId r s1 = Some (Ready tt, s1).
Proof.
  intros H. pose proof H as Hcopy.
  apply update_registry in H
    as [[-> ->] | (c & Hc & Hstate & Hres & _ & Hreg)]; [done|].
  unfold update, bind, get_container, gets.
  rewrite Hreg, lookup_alter_eq, Hc. cbn [fmap option_fmap option_map].
  change (Container.state (Container.set_resources r c))
    with (Container.state c).
  rewrite (State_eqb_DESTROYING _ Hstate).
  change (Container.resources (Container.set_resources r c)) with r.
  by rewrite Resources_eqb_refl.
Qed.

Lemma update_twice_witness :
  exists s1,
    update "A" Example.large Example.running = Some (Pending, s1) /\
    update "A" Example.large s1 = Some (Ready tt, s1).
Proof.
  destruct (update "A" Example.large Example.running) as [[r s1]|] eqn:E;
    [|vm_compute in E; discriminate E].
  assert (r = Pending) as ->.
  { vm_compute in E. by injection E as <- _. }
  exists s1. split; [reflexivity|].
  exact (update_twice "A" Example.large Example.running Pending s1 E).
Defined.

(** X10: [update] and [_update] never add, remove or replace a record:
    [update] changes at most the stored resources of its container and
    [_update] at most its cached pid, so the state, the promises and
    every other record are as before; neither changes the flags. *)
Theorem update_changes_one_member containerId r s :
  (forall result s1,
     update containerId r s = Some (result, s1) ->
     flags s1 = flags s /\
     (containers_ s1 = containers_ s \/
      containers_ s1 =
        alter (Container.set_resources r) containerId (containers_ s))) /\
  (forall inspected result s1,
     _update containerId r inspected s = Some (result, s1) ->
     flags s1 = flags s /\
     (containers_ s1 = containers_ s \/
      containers_ s1 =
        alter (Container.set_pid (Docker.pid inspected)) containerId
          (containers_ s))).
Proof.
  split.
  - intros result s1 H.
    apply update_registry in H as [[_ ->] | (c & _ & _ & _ & Hflags & Hreg)];
      [by split; [|left] | by split; [|right]].
  - intros inspected result s1. unfold _update.
    destruct (Docker.pid inspected) as [pid|];
      [|intros [= <- <-]; by split; [|left]].
    unfold bind at 1. unfold get_container, gets.
    destruct (containers_ s !! containerId);
      [|intros [= <- <-]; by split; [|left]].
    unfold bind, modify_container. intros H.
    apply registry___update in H as [Hreg Hflags]. simpl_process.
    by split; [|right].
Qed.

Section UpdateEmits.

Lemma only_emits_refl P s : only_emits P s s.
Proof. repeat split. exists []. by rewrite app_nil_r. Qed.

Lemma only_emits_trans P s1 s2 s3 :
  only_emits P s1 s2 -> only_emits P s2 s3 -> only_emits P s1 s3.
Proof.
  intros (Hf1 & Hk1 & t1 & Ht1 & HP1) (Hf2 & Hk2 & t2 & Ht2 & HP2).
  split; [congruence|]. split; [congruence|].
  exists (t1 ++ t2). rewrite Ht2, Ht1, <- app_assoc. split; [done|].
  rewrite forallb_app. by rewrite HP1, HP2.
Qed.

Lemma only_emits_emit P a s :
  P a = true -> only_emits P s (set_trace (trace s ++ [a]) s).
Proof.
  intros Ha. repeat split. exists [a]. split; [done|]. simpl. by rewrite Ha.
Qed.

Lemma only_emits_registry P s s' :
  flags s' = flags s -> constants s' = constants s -> trace s' = trace s ->
  only_emits P s s'.
Proof.
  intros Hf Hk Ht. repeat split; try done. exists [].
  by rewrite app_nil_r.
Qed.

(** The CPU block writes no share below the minimum. *)
Lemma __update_cpu_emits h c r s result s' :
  __update_cpu h c r s = Some (result, s') ->
  only_emits (update_action (constants s)) s s'.
Proof.
  unfold __update_cpu, cgroups_cpu_shares_write, bind, gets, emit, ret.
  intros H. repeat (case_match; simplify_eq); simpl_process;
    try apply only_emits_refl;
    (eapply only_emits_trans;
     [apply only_emits_emit | by apply only_emits_registry]);
    apply N.leb_le; lia.
Qed.

(** The memory block writes no limit below the minimum. *)
Lemma __update_memory_emits h c r s result s' :
  __update_memory h c r s = Some (result, s') ->
  only_emits (update_action (constants s)) s s'.
Proof.
  destruct h as [hierarchy| |]; [|intros [= _ <-]; apply only_emits_refl..].
  destruct c as [cgroup| |]; [|intros [= _ <-]; apply only_emits_refl..].
  destruct (mem r) as [m|] eqn:Hm;
    [|unfold __update_memory; rewrite Hm; intros [= _ <-];
      apply only_emits_refl].
  intros H.
  destruct (__update_memory_spec hierarchy cgroup r m s Hm)
    as (result' & s1 & Heq & Htrace & _).
  rewrite Heq in H. injection H as <- <-.
  assert (flags s1 = flags s /\ constants s1 = constants s) as [Hf Hk].
  { revert Heq.
    unfold __update_memory, cgroups_memory_soft_limit_in_bytes_write,
      cgroups_memory_limit_in_bytes_read, cgroups_memory_limit_in_bytes_write,
      bind, gets, emit, ret.
    intros H. by repeat (case_match; simplify_eq/=). }
  split; [done|]. split; [done|]. eexists. split; [exact Htrace|].
  assert ((MIN_MEMORY (constants s) <=? N.max m (MIN_MEMORY (constants s)))%N
          = true) as Hle by (apply N.leb_le; lia).
  destruct (raises_limit _ _ _ _); simpl; by rewrite Hle.
Qed.

(** [__update] only writes control files, none below the minimum. *)
Lemma __update_emits containerId r pid s result s' :
  __update containerId r pid s = Some (result, s') ->
  only_emits (update_action (constants s)) s s'.
Proof.
  unfold __update. unfold bind at 1. unfold gets at 1.
  destruct (cgroups_hierarchy (host s) "cpu") as [hc| |] eqn:Hhc;
    destruct (cgroups_hierarchy (host s) "memory") as [hm| |] eqn:Hhm;
    try (intros [= _ <-]; apply only_emits_refl).
  all: destruct (cgroups_cpu_cgroup (host s) pid) as [cc| |];
    try (intros [= _ <-]; apply only_emits_refl).
  all: unfold bind at 1;
    match goal with
    | |- context [__update_cpu ?h ?c ?r0 ?s0] =>
        destruct (__update_cpu h c r0 s0) as [[[[]|e] s1]|] eqn:Hcpu; [| |done]
    end;
    pose proof (__update_cpu_emits _ _ _ _ _ _ Hcpu) as Hemits;
    try (intros [= _ <-]; exact Hemits).
  all: destruct (cgroups_memory_cgroup (host s) pid) as [mc| |];
    try (intros [= _ <-]; exact Hemits).
  all: unfold bind at 1;
    match goal with
    | |- context [__update_memory ?h ?c ?r0 ?s0] =>
        destruct (__update_memory h c r0 s0) as [[[[]|e] s2]|] eqn:Hmem;
          [| |done]
    end;
    apply __update_memory_emits in Hmem;
    destruct Hemits as (Hf & Hk & Hemits); rewrite Hk in Hmem;
    intros [= _ <-];
    (eapply only_emits_trans; [|exact Hmem]); by repeat split.
Qed.

End UpdateEmits.

(** X11: whatever [update] and [_update] return, all they have done
    besides computing is inspect the Docker container and write control
    files, and no value they wrote is below the minimum of its kind:
    [cpu.shares] is at least [MIN_CPU_SHARES] and both memory limits are
    at least [MIN_MEMORY]; they start, stop and remove nothing. *)
Theorem update_writes_at_least_minimum containerId r s :
  (forall result s1,
     update containerId r s = Some (result, s1) ->
     only_emits (update_action (constants s)) s s1) /\
  (forall inspected result s1,
     _update containerId r inspected s = Some (result, s1) ->
     only_emits (update_action (constants s)) s s1).
Proof.
  split.
  - intros result s1 H. pose proof H as Hcopy.
    apply update_registry in H
      as [[_ ->] | (c & Hc & Hstate & Hres & _ & _)];
      [apply only_emits_refl|].
    revert Hcopy. rewrite (update_stores containerId r c s Hc Hstate Hres).
    cbv zeta. intros H.
    repeat case_match; simplify_eq;
      try (by apply only_emits_registry).
    + apply __update_emits in H. simpl_process.
      eapply only_emits_trans; [|exact H]. by apply only_emits_registry.
    + repeat split. by exists [DockerInspect (Container.name c)].
  - intros inspected result s1. unfold _update.
    destruct (Docker.pid inspected) as [pid|];
      [|intros [= _ <-]; apply only_emits_refl].
    unfold bind at 1. unfold get_container, gets.
    destruct (containers_ s !! containerId);
      [|intros [= _ <-]; apply only_emits_refl].
    unfold bind, modify_container. intros H.
    apply __update_emits in H. simpl_process.
    eapply only_emits_trans; [|exact H]. by apply only_emits_registry.
Qed.

Lemma update_changes_one_member_witness :
  exists result s1,
    update "A" Example.large Example.running_with_pid = Some (result, s1) /\
    flags s1 = flags Example.running_with_pid /\
    (containers_ s1 = containers_ Example.running_with_pid \/
     containers_ s1 =
       alter (Container.set_resources Example.large) "A"
         (containers_ Example.running_with_pid)).
Proof.
  destruct (update "A" Example.large Example.running_with_pid)
    as [[result s1]|] eqn:E; [|vm_compute in E; discriminate E].
  exists result, s1. split; [reflexivity|].
  exact (proj1 (update_changes_one_member "A" Example.large
                  Example.running_with_pid) result s1 E).
Defined.

Lemma update_writes_at_least_minimum_witness :
  exists result s1,
    update "A" Example.large Example.running_with_pid = Some (result, s1) /\
    only_emits (update_action Example.constants) Example.running_with_pid s1.
Proof.
  destruct (update "A" Example.large Example.running_with_pid)
    as [[result s1]|] eqn:E; [|vm_compute in E; discriminate E].
  exists result, s1. split; [reflexivity|].
  exact (proj1 (update_writes_at_least_minimum "A" Example.large
                  Example.running_with_pid) result s1 E).
Defined.




(** ** usage *)

(** [__usage] changes nothing. *)
Lemma __usage_reads containerId pid s result s1 :
  __usage containerId pid s = Some (result, s1) -> s1 = s.
Proof.
  unfold __usage, bind, get_container, gets, ret.
  intros H. by repeat (case_match; simplify_eq/=).
Qed.

(** X13: [usage] and [_usage] only read: they leave the host and every
    record as they found them, up to the pid that [_usage] caches in
    the record of its container. [usage] either answers at once and
    changes nothing at all, or is pending on one [docker inspect] of
    the container; [_usage] adds nothing to the trace. *)
Theorem usage_only_reads containerId s :
  (forall result s1,
     usage containerId s = Some (result, s1) ->
     s1 = s \/
     (result = Pending /\
      exists c,
        containers_ s !! containerId = Some c /\
        Container.pid c = None /\
        s1 = set_trace (trace s ++ [DockerInspect (Container.name c)]) s)) /\
  (forall inspected result s1,
     _usage containerId inspected s = Some (result, s1) ->
     s1 = s \/
     s1 = set_containers
            (alter (Container.set_pid (Docker.pid inspected)) containerId
               (containers_ s)) s).
Proof.
  split.
  - intros result s1. unfold usage. unfold bind at 1.
    unfold get_container, gets.
    destruct (containers_ s !! containerId) as [c|];
      [|intros [= _ <-]; by left].
    destruct (State_eqb _ _); [intros [= _ <-]; by left|].
    unfold bind at 1. unfold gets.
    destruct (bool_decide _); [intros [= _ <-]; by left|].
    destruct (Container.pid c) as [pid|] eqn:Hpid.
    + intros H. left. by eapply __usage_reads.
    + intros [= <- <-]. right. split; [done|]. by exists c.
  - intros inspected result s1. unfold _usage. unfold bind at 1.
    unfold get_container, gets.
    destruct (containers_ s !! containerId) as [c|];
      [|intros [= _ <-]; by left].
    destruct (State_eqb _ _); [intros [= _ <-]; by left|].
    destruct (Docker.pid inspected) as [pid|];
      [|intros [= _ <-]; by left].
    unfold bind, modify_container. intros H. right.
    by eapply __usage_reads.
Qed.

Lemma usage_only_reads_witness :
  exists result s1,
    usage "A" Example.running = Some (result, s1) /\
    (s1 = Example.running \/
     (result = Pending /\
      exists c,
        containers_ Example.running !! "A" = Some c /\
        Container.pid c = None /\
        s1 = set_trace
               (trace Example.running ++ [DockerInspect (Container.name c)])
               Example.running)).
Proof.
  destruct (usage "A" Example.running) as [[result s1]|] eqn:E;
    [|vm_compute in E; discriminate E].
  exists result, s1. split; [reflexivity|].
  exact (proj1 (usage_only_reads "A" Example.running) result s1 E).
Defined.



(** ** Recovery: what [docker ps] reported *)

Section Detect.

(** What the first loop of [_recover] has collected from a list of
    Docker containers. *)
Lemma detect_collects (containers : list Docker.Container) r0 :
  let r := fold_left detect containers r0 in
  pids r = pids r0 /\
  (forall id c,
     _containers r !! id = Some c ->
     _containers r0 !! id = Some c \/
     (c ∈ containers /\ parse c = Some id /\
      strings.contains (Docker.name c) ".executor" = false)) /\
  (forall id c,
     executors r !! id = Some c ->
     executors r0 !! id = Some c \/
     (c ∈ containers /\ parse c = Some id /\
      strings.contains (Docker.name c) ".executor" = true)) /\
  (forall id,
     is_Some (_containers r0 !! id) -> is_Some (_containers r !! id)) /\
  (forall id,
     is_Some (executors r0 !! id) -> is_Some (executors r !! id)) /\
  (forall c id,
     c ∈ containers -> parse c = Some id ->
     if strings.contains (Docker.name c) ".executor"
     then is_Some (executors r !! id)
     else is_Some (_containers r !! id)).
Proof.
  induction containers as [|container containers IH] using rev_ind.
  - cbn. repeat split; try done; try (by left).
    intros c id Hin. by apply elem_of_nil in Hin.
  - rewrite fold_left_app. cbn [fold_left].
    set (r := fold_left detect containers r0) in *. cbv zeta in IH.
    destruct IH as (Hpids & Hc & He & Hkc & Hke & Hall).
    assert (forall P : Docker.Container -> Prop,
              (forall c, c ∈ containers -> P c) -> P container ->
              forall c, c ∈ containers ++ [container] -> P c) as Hsnoc.
    { intros P H1 H2 c [Hin | ->%list_elem_of_singleton]%elem_of_app; auto. }
    remember (detect r container) as r' eqn:Hr'. unfold detect in Hr'.
    destruct (parse container) as [id'|] eqn:Hparse.
    + destruct (strings.contains (Docker.name container) ".executor")
        eqn:Hexecutor; subst r'; cbn [pids _containers executors].
      * split; [done|]. split; [|split; [|split; [done|split]]].
        -- intros id c H. destruct (Hc id c H) as [? | (? & ? & ?)];
             [by left | right]. by rewrite elem_of_app; auto.
        -- intros id c. destruct (decide (id = id')) as [->|Hne].
           ++ rewrite lookup_insert_eq. intros [= <-]. right.
              rewrite elem_of_app, list_elem_of_singleton. auto.
           ++ rewrite lookup_insert_ne by done. intros H.
              destruct (He id c H) as [? | (? & ? & ?)]; [by left | right].
              by rewrite elem_of_app; auto.
        -- intros id H. destruct (decide (id = id')) as [->|Hne].
           ++ by rewrite lookup_insert_eq.
           ++ rewrite lookup_insert_ne by done. auto.
        -- intros c id [Hin | ->%list_elem_of_singleton]%elem_of_app Hp.
           ++ specialize (Hall c id Hin Hp).
              destruct (strings.contains (Docker.name c) ".executor");
                [|done].
              destruct (decide (id = id')) as [->|Hne].
              ** by rewrite lookup_insert_eq.
              ** by rewrite lookup_insert_ne.
           ++ rewrite Hexecutor. assert (id = id') as -> by congruence.
              by rewrite lookup_insert_eq.
      * split; [done|]. split; [|split; [|split; [|split; [done|]]]].
        -- intros id c. destruct (decide (id = id')) as [->|Hne].
           ++ rewrite lookup_insert_eq. intros [= <-]. right.
              rewrite elem_of_app, list_elem_of_singleton. auto.
           ++ rewrite lookup_insert_ne by done. intros H.
              destruct (Hc id c H) as [? | (? & ? & ?)]; [by left | right].
              by rewrite elem_of_app; auto.
        -- intros id c H. destruct (He id c H) as [? | (? & ? & ?)];
             [by left | right]. by rewrite elem_of_app; auto.
        -- intros id H. destruct (decide (id = id')) as [->|Hne].
           ++ by rewrite lookup_insert_eq.
           ++ rewrite lookup_insert_ne by done. auto.
        -- intros c id [Hin | ->%list_elem_of_singleton]%elem_of_app Hp.
           ++ specialize (Hall c id Hin Hp).
              destruct (strings.contains (Docker.name c) ".executor");
                [done|].
              destruct (decide (id = id')) as [->|Hne].
              ** by rewrite lookup_insert_eq.
              ** by rewrite lookup_insert_ne.
           ++ rewrite Hexecutor. assert (id = id') as -> by congruence.
              by rewrite lookup_insert_eq.
    + subst r'. split; [done|].
      split; [|split; [|split; [done|split; [done|]]]].
      * intros id c H. destruct (Hc id c H) as [? | (? & ? & ?)];
          [by left | right]. by rewrite elem_of_app; auto.
      * intros id c H. destruct (He id c H) as [? | (? & ? & ?)];
          [by left | right]. by rewrite elem_of_app; auto.
      * intros c id [Hin | ->%list_elem_of_singleton]%elem_of_app Hp.
        -- by apply Hall.
        -- congruence.
Qed.

End Detect.

(** X15: the two maps [_recover] builds from the output of [docker ps]
    are sound and complete: an entry of [_containers] under a
    ContainerID is a listed container that [parse] maps to that
    ContainerID and whose name has no ".executor"; an entry of
    [executors] is one whose name has it; and every listed container
    that [parse] recognises has its ContainerID in the map of its kind.
    Containers that Mesos did not start are in neither, and no pid is
    claimed yet. *)
Theorem detect_sound_and_complete (containers : list Docker.Container) :
  let r := fold_left detect containers (mkRecovery ∅ ∅ ∅) in
  pids r = ∅ /\
  (forall id c,
     _containers r !! id = Some c ->
     c ∈ containers /\ parse c = Some id /\
     strings.contains (Docker.name c) ".executor" = false) /\
  (forall id c,
     executors r !! id = Some c ->
     c ∈ containers /\ parse c = Some id /\
     strings.contains (Docker.name c) ".executor" = true) /\
  (forall c id,
     c ∈ containers -> parse c = Some id ->
     if strings.contains (Docker.name c) ".executor"
     then is_Some (executors r !! id)
     else is_Some (_containers r !! id)) /\
  (forall c,
     c ∈ containers -> parse c = None ->
     forall id, _containers r !! id <> Some c /\ executors r !! id <> Some c).
Proof.
  destruct (detect_collects containers (mkRecovery ∅ ∅ ∅))
    as (Hpids & Hc & He & _ & _ & Hall).
  cbv zeta. split; [done|]. split; [|split; [|split; [done|]]].
  - intros id c H. destruct (Hc id c H) as [H0 | ?]; [|done].
    cbn in H0. by rewrite lookup_empty in H0.
  - intros id c H. destruct (He id c H) as [H0 | ?]; [|done].
    cbn in H0. by rewrite lookup_empty in H0.
  - intros c Hin Hparse id. split; intros H.
    + destruct (Hc id c H) as [H0 | (_ & ? & _)]; [|congruence].
      cbn in H0. by rewrite lookup_empty in H0.
    + destruct (He id c H) as [H0 | (_ & ? & _)]; [|congruence].
      cbn in H0. by rewrite lookup_empty in H0.
Qed.

Lemma detect_sound_and_complete_witness :
  is_Some (_containers
             (fold_left detect Scenario.listed (mkRecovery ∅ ∅ ∅)) !! "A") /\
  is_Some (executors
             (fold_left detect Scenario.listed (mkRecovery ∅ ∅ ∅)) !! "A").
Proof.
  destruct (detect_sound_and_complete Scenario.listed)
    as (_ & _ & _ & Hall & _).
  split.
  - apply (Hall Scenario.containerA "A"); [|reflexivity].
    unfold Scenario.listed. apply elem_of_cons. by left.
  - apply (Hall Scenario.executorA "A"); [|reflexivity].
    unfold Scenario.listed. rewrite !elem_of_cons. auto.
Defined.

Section Names.

Lemma append_assoc (a b c : string) : (a +:+ b) +:+ c = a +:+ (b +:+ c).
Proof.
  induction a as [|x a IH]; [done|].
  change (String x a +:+ b) with (String x (a +:+ b)).
  change (String x (a +:+ b) +:+ c) with (String x ((a +:+ b) +:+ c)).
  change (String x a +:+ (b +:+ c)) with (String x (a +:+ (b +:+ c))).
  by rewrite IH.
Qed.

(** A needle that starts with a dot is not found in a dot-free prefix. *)
Lemma contains_skip p q sub :
  strings.contains p "." = false ->
  strings.contains (p +:+ q) (String "." sub) = strings.contains q (String "." sub).
Proof.
  induction p as [|x p IH]; [done|].
  rewrite contains_cons_dot. intros [E H]%orb_false_elim.
  change (String x p +:+ q) with (String x (p +:+ q)).
  change (strings.contains (String x (p +:+ q)) (String "." sub))
    with (strings.startsWith (String x (p +:+ q)) (String "." sub)
          || strings.contains (p +:+ q) (String "." sub)).
  change (strings.startsWith (String x (p +:+ q)) (String "." sub))
    with (if Ascii.eqb "." x then strings.startsWith (p +:+ q) sub else false).
  rewrite E. by apply IH.
Qed.

Lemma contains_dot_free p sub :
  strings.contains p "." = false ->
  strings.contains p (String "." sub) = false.
Proof.
  intros H. pose proof (contains_skip p "" sub H) as Hskip.
  assert (p +:+ "" = p) as Hnil.
  { clear. induction p as [|x p IH]; [done|].
    change (String x p +:+ "") with (String x (p +:+ "")). by rewrite IH. }
  by rewrite Hnil in Hskip.
Qed.

(** Where ".executor" can be in [mesos-<slaveId>.<rest>]. *)
Lemma contains_executor_makeName s rest :
  strings.contains s "." = false ->
  strings.contains (makeName s rest) ".executor" =
    strings.startsWith rest "executor" || strings.contains rest ".executor".
Proof.
  intros Hs. unfold makeName, DOCKER_NAME_PREFIX, DOCKER_NAME_SEPERATOR.
  rewrite (contains_skip "mesos-") by done.
  rewrite contains_skip by done. reflexivity.
Qed.

End Names.

(** X16: how [_recover] tells the two Docker containers of a record
    apart. For a slave id and a ContainerID without dots, the executor
    container [mesos-<slaveId>.<containerId>.executor] is filed under
    the ContainerID in [executors]; the container
    [mesos-<slaveId>.<containerId>] is filed under it in [_containers]
    unless the ContainerID itself begins with "executor", in which case
    its name has ".executor" too and it is filed in [executors]. *)
Theorem detect_files_by_name slaveId containerId container r :
  strings.contains slaveId "." = false ->
  strings.contains containerId "." = false ->
  (Docker.name container = makeName slaveId containerId ->
   detect r container =
     if strings.startsWith containerId "executor"
     then mkRecovery (_containers r) (<[containerId := container]> (executors r))
            (pids r)
     else mkRecovery (<[containerId := container]> (_containers r)) (executors r)
            (pids r)) /\
  (Docker.name container = makeName slaveId containerId +:+ ".executor" ->
   detect r container =
     mkRecovery (_containers r) (<[containerId := container]> (executors r))
       (pids r)).
Proof.
  intros Hs Hid. split; intros Hname; unfold detect, parse; rewrite Hname.
  - rewrite contains_executor_makeName by done.
    rewrite (contains_dot_free containerId) by done. rewrite orb_false_r.
    unfold makeName, DOCKER_NAME_PREFIX, DOCKER_NAME_SEPERATOR.
    destruct (parse_name_segments (slaveId +:+ "." +:+ containerId))
      as (_ & H & _).
    change (slaveId +:+ "." +:+ containerId)
      with (slaveId +:+ String "." containerId) in *.
    rewrite split_app_dot, split_no_dot in H by done.
    by rewrite H; [|left].
  - assert (makeName slaveId containerId +:+ ".executor"
            = makeName slaveId (containerId +:+ ".executor")) as ->.
    { unfold makeName. by rewrite !append_assoc. }
    rewrite contains_executor_makeName by done.
    rewrite (contains_skip containerId ".executor" "executor") by done.
    change (strings.contains ".executor" ".executor") with true.
    rewrite orb_true_r.
    unfold makeName, DOCKER_NAME_PREFIX, DOCKER_NAME_SEPERATOR.
    destruct (parse_name_segments
                (slaveId +:+ "." +:+ containerId +:+ ".executor"))
      as (_ & H & _).
    change (slaveId +:+ "." +:+ containerId +:+ ".executor")
      with (slaveId +:+ String "." (containerId +:+ String "." "executor"))
      in *.
    rewrite !split_app_dot in H by done.
    by rewrite H; [|right].
Qed.

Lemma detect_files_by_name_witness :
  detect (mkRecovery ∅ ∅ ∅)
    (Docker.mkContainer "0123abc" "mesos-S.executor7" None)
  = mkRecovery ∅
      {[ "executor7" := Docker.mkContainer "0123abc" "mesos-S.executor7" None ]}
      ∅ /\
  detect (mkRecovery ∅ ∅ ∅) (Docker.mkContainer "0123abc" "mesos-S.A" None)
  = mkRecovery {[ "A" := Docker.mkContainer "0123abc" "mesos-S.A" None ]} ∅ ∅.
Proof.
  split.
  - exact (proj1 (detect_files_by_name "S" "executor7"
                    (Docker.mkContainer "0123abc" "mesos-S.executor7" None)
                    (mkRecovery ∅ ∅ ∅) eq_refl eq_refl) eq_refl).
  - exact (proj1 (detect_files_by_name "S" "A"
                    (Docker.mkContainer "0123abc" "mesos-S.A" None)
                    (mkRecovery ∅ ∅ ∅) eq_refl eq_refl) eq_refl).
Defined.

(** ** Recovery: the runs of the slave state *)

Section Recover.

(** What [recoverContainer] has done when it returns: nothing, when the
    run was skipped or its pid was a duplicate; else it has claimed the
    pid, taken the container out of the orphans and registered a
    RUNNING record. *)
Lemma recoverContainer_cases containerId slaveId executorPid r s result r' s' :
  recoverContainer containerId slaveId executorPid r s
    = Some ((result, r'), s') ->
  (s' = s /\ r' = r /\ result <> Ok true) \/
  (exists c t,
     is_Some (reattach (host s) r containerId executorPid) /\
     (executorPid ∉ pids r) /\
     containers_ s' = <[containerId := c]> (containers_ s) /\
     flags s' = flags s /\
     host s' = host s /\
     Container.state c = RUNNING /\
     Container.slaveId c = slaveId /\
     Container.id c = containerId /\
     Container.termination c = Pending /\
     _containers r' = delete containerId (_containers r) /\
     (executors r' = executors r \/
      executors r' = delete containerId (executors r)) /\
     pids r' = {[executorPid]} ∪ pids r /\
     trace s' = trace s ++ RegistryInsert containerId :: t /\
     forallb (fun a => negb (is_docker_stop a)) t = true).
Proof.
  unfold recoverContainer. unfold bind at 1. unfold gets at 1.
  destruct (reattach (host s) r containerId executorPid) as [b|] eqn:Hr;
    [|intros [= <- <- <-]; by left].
  destruct (bool_decide (executorPid ∈ pids r)) eqn:Hpid;
    [intros [= <- <- <-]; by left|].
  apply bool_decide_eq_false_1 in Hpid.
  unfold bind at 1, insert_container, bind at 1, emit. simpl_process.
  destruct b.
  - cbn [executors]. destruct (executors r !! containerId) as [executor|];
      [|done].
    unfold bind at 1. unfold gets at 1. unfold bind at 1.
    unfold launchWaitProcess, bind, gets, emit, ret, status_set_reap,
      bind, emit, modify_container. simpl_process.
    destruct (subprocess (host s) _) as [waitPid|e]; cbn [prefix_error];
      intros [= <- <- <-]; right; simpl_process; rewrite ?alter_insert_eq;
      eexists _, _; cbn [_containers executors pids];
      (split; [done|]); (split; [done|]);
      (split; [reflexivity|]); repeat (split; [done|]);
      (split; [by auto|]); (split; [done|]);
      rewrite <- ?app_assoc; by split.
  - unfold status_set_reap, bind, emit, modify_container, ret.
    simpl_process. intros [= <- <- <-]. right. rewrite alter_insert_eq.
    eexists _, _; cbn [_containers executors pids];
      (split; [done|]); (split; [done|]);
      (split; [reflexivity|]); repeat (split; [done|]);
      (split; [by auto|]); (split; [done|]);
      rewrite <- ?app_assoc; by split.
Qed.








End Recover.

(** X17: [_recover] registers a record only for the latest run of an
    executor whose info was recovered, whose run has a forked pid and
    is not completed, that [recoverContainer] did not skip and whose
    pid was not claimed before: whenever the loop body changes the
    registry for an executor, it has stored one record under the
    ContainerID of that run, RUNNING, with the slave id and a pending
    termination, has claimed the pid and has taken the container out
    of the orphans. In every other case the process is as before. *)
Theorem recovery_registers_latest_run slaveId executor r s result r' s' :
  recover_executor slaveId executor r s = Some ((result, r'), s') ->
  (s' = s /\ r' = r /\ result <> Ok true) \/
  (exists containerId run executorPid c,
     is_Some (state.info executor) /\
     state.latest executor = Some containerId /\
     state.runs executor !! containerId = Some run /\
     state.run_id run = Some containerId /\
     state.forkedPid run = Some executorPid /\
     state.completed run = false /\
     is_Some (reattach (host s) r containerId executorPid) /\
     (executorPid ∉ pids r) /\
     containers_ s' = <[containerId := c]> (containers_ s) /\
     Container.state c = RUNNING /\
     Container.slaveId c = slaveId /\
     Container.termination c = Pending /\
     executorPid ∈ pids r' /\
     _containers r' !! containerId = None).
Proof.
  unfold recover_executor.
  destruct (state.info executor) as [info|] eqn:Hinfo;
    [|intros [= <- <- <-]; by left].
  destruct (state.latest executor) as [containerId|] eqn:Hlatest;
    [|intros [= <- <- <-]; by left].
  destruct (state.runs executor !! containerId) as [run|] eqn:Hrun; [|done].
  unfold bind, CHECK.
  destruct (bool_decide (state.run_id run = Some containerId)) eqn:Hid;
    [|done].
  apply bool_decide_eq_true_1 in Hid. cbn [ret].
  destruct (state.forkedPid run) as [executorPid|] eqn:Hpid;
    [|intros [= <- <- <-]; by left].
  destruct (state.completed run) eqn:Hcompleted;
    [intros [= <- <- <-]; by left|].
  intros H. apply recoverContainer_cases in H
    as [? | (c & t & Hr & Hnew & Hreg & _ & _ & Hstate & Hslave & _ & Hterm
               & Hc & _ & Hp & _)];
    [by left|].
  right. exists containerId, run, executorPid, c.
  repeat (split; [done|]). split; [rewrite Hp; apply elem_of_union; left; by apply elem_of_singleton|].
  by rewrite Hc, lookup_delete_eq.
Qed.

Lemma recovery_registers_latest_run_witness :
  exists r' s' c,
    recover_executor "S" Example.first_executor (mkRecovery ∅ ∅ ∅)
      (spawned Example.flags Example.constants Example.host)
    = Some ((Ok true, r'), s') /\
    containers_ s' !! "C1" = Some c /\
    Container.state c = RUNNING.
Proof.
  destruct (recover_executor "S" Example.first_executor (mkRecovery ∅ ∅ ∅)
              (spawned Example.flags Example.constants Example.host))
    as [[[result r'] s']|] eqn:E; [|vm_compute in E; discriminate E].
  assert (result = Ok true) as ->.
  { vm_compute in E. by injection E as <- _ _. }
  destruct (recovery_registers_latest_run _ _ _ _ _ _ _ E)
    as [(_ & _ & Hresult) |
        (containerId & run & executorPid & c & _ & Hlatest & _ & _ & _ & _ & _
           & _ & Hreg & Hstate & _)]; [done|].
  injection Hlatest as <-.
  exists r', s', c. split; [reflexivity|]. split; [|exact Hstate].
  rewrite Hreg. apply lookup_insert_eq.
Defined.



(** X19: a failed handshake with the mesos-docker-executor. When
    [___launch] has forked the executor and recorded its pid but cannot
    write the byte that lets it continue, it closes the pipe, stores the
    failure in [run] and fails with "Failed to synchronize with child
    process: ..."; the [destroy] that the launch chain runs on failure
    then takes the cleanup path: the termination carries "Failed to run
    container: Failed to synchronize with child process: ...", the
    record is erased, and no [docker stop] is issued although
    [docker run] was. *)
Theorem handshake_failure_cleans_up containerId killed c pid error s :
  containers_ s !! containerId = Some c ->
  subprocess (host s)
    (path_join (launcher_dir (flags s))
       ("mesos-docker-executor --docker=" +:+ docker (flags s)
          +:+ " --container=" +:+ Container.name c)) = Ok pid ->
  (Container.checkpoint c = true ->
   state_checkpoint (host s)
     (getForkedPidPath (work_dir (flags s)) (Container.slaveId c)
        (framework_id (Container.executor c))
        (executor_id (Container.executor c)) containerId)
     (stringify pid) = Ok tt) ->
  pipe_write (host s) pid = Some error ->
  Container.status c = None ->
  Container.termination c = Pending ->
  exists s1 s2 t,
    ___launch containerId s =
      Some (Failed ("Failed to synchronize with child process: " +:+ error),
            s1) /\
    destroy containerId killed s1 = Some (tt, s2) /\
    containers_ s2 = delete containerId (containers_ s) /\
    trace s2 =
      trace s ++ t ++
        [ClosePipe pid;
         TerminationSet containerId
           (mkTermination killed None
              ("Failed to run container: "
                 +:+ "Failed to synchronize with child process: " +:+ error));
         RegistryErase containerId] /\
    forallb (fun a => negb (is_docker_stop a)) t = true.
Proof.
  intros Hc Hfork Hcheckpoint Hpipe Hstatus Hterm.
  set (failure := "Failed to synchronize with child process: " +:+ error).
  set (c1 := Container.set_run (Failed failure)
               (Container.set_executorPid (Some pid) c)).
  assert (exists s1 t,
            ___launch containerId s = Some (Failed failure, s1) /\
            containers_ s1 !! containerId = Some c1 /\
            delete containerId (containers_ s1)
              = delete containerId (containers_ s) /\
            trace s1 = trace s ++ t ++ [ClosePipe pid] /\
            forallb (fun a => negb (is_docker_stop a)) t = true)
    as (s1 & t & Hlaunch & Hc1 & Hreg & Ht & Hquiet).
  { unfold ___launch. unfold bind at 1. unfold get_container, gets at 1.
    rewrite Hc. rewrite bool_decide_eq_true_2 by eauto.
    unfold bind at 1. cbn [CHECK ret]. unfold bind at 1, gets at 1.
    unfold bind at 1, gets at 1. unfold bind at 1, emit at 1.
    simpl_process. rewrite Hfork.
    unfold bind at 1, checkpoint. unfold bind at 1, get_container, gets at 1.
    simpl_process. rewrite Hc. rewrite bool_decide_eq_true_2 by eauto.
    unfold bind at 1. cbn [CHECK ret]. unfold bind at 1, modify_container at 1.
    simpl_process.
    destruct (Container.checkpoint c) eqn:Hck.
    - unfold bind at 1, gets at 1. unfold bind at 1, gets at 1.
      unfold bind at 1, emit at 1. simpl_process.
      rewrite (Hcheckpoint eq_refl). cbn [ret]. rewrite Hpipe.
      unfold bind, emit, modify_container, ret. simpl_process.
      eexists _, [_; _]. split; [reflexivity|]. simpl_process.
      split; [by rewrite !lookup_alter_eq, Hc|].
      split; [by rewrite !delete_alter_eq|].
      split; [by rewrite <- !app_assoc | done].
    - cbn [ret]. rewrite Hpipe.
      unfold bind, emit, modify_container, ret. simpl_process.
      eexists _, [_]. split; [reflexivity|]. simpl_process.
      split; [by rewrite !lookup_alter_eq, Hc|].
      split; [by rewrite !delete_alter_eq|].
      split; [by rewrite <- !app_assoc | done]. }
  exists s1. eexists. exists t. split; [exact Hlaunch|].
  split; [by apply (destroy_run_failed_eq _ _ c1 failure)|].
  simpl_process. split; [done|]. split; [|done].
  rewrite Ht. by rewrite <- !app_assoc.
Qed.

Lemma handshake_failure_cleans_up_witness :
  exists s1 s2,
    ___launch "A" Scenario.launched_on_broken_pipe =
      Some (Failed "Failed to synchronize with child process: Broken pipe",
            s1) /\
    destroy "A" true s1 = Some (tt, s2) /\
    containers_ s2 = delete "A" (containers_ Scenario.launched_on_broken_pipe).
Proof.
  assert (exists c,
            containers_ Scenario.launched_on_broken_pipe !! "A" = Some c /\
            Container.name c = "mesos-S.A" /\
            Container.status c = None /\
            Container.termination c = Pending)
    as (c & Hc & Hname & Hstatus & Hterm).
  { vm_compute. eexists. repeat split; reflexivity. }
  destruct (handshake_failure_cleans_up "A" true c 4711 "Broken pipe"
              Scenario.launched_on_broken_pipe Hc eq_refl
              ltac:(intros _; reflexivity) eq_refl Hstatus Hterm)
    as (s1 & s2 & t & Hlaunch & Hdestroy & Hreg & _).
  by exists s1, s2.
Defined.

(** ** The launch pipeline, call by call *)


